(** * stock_market_agent: scoring, recommendation and batch layers

    A shallow embedding of the numeric core of the repository:
    - [agents/fundamental_analysis_agent/fundamental_analysis.py]
      ([calculate_cagr], [null_check], [get_means], the ROA/ROE block of
      [compute_yfinance_metrics]);
    - [agents/technical_analysis_agent/technical_analysis.py]
      (the five indicator scores, [complete_technical_analysis],
      [calculate_position_size]);
    - [agents/combined_agent/combined_analysis.py]
      ([_calculate_fundamental_score], [analyze_stock_comprehensive],
      [analyze_portfolio]);
    - [agents/combined_agent/combined.py]
      ([analyze_stock], [analyze_multiple_stocks]).

    Python floats are IEEE 754 binary64 numbers; they are modelled by Rocq's
    primitive [float], whose operations are the processor's, so that every
    definition below evaluates bit for bit like the Python expression it
    embeds.  Python dictionaries are [gmap string _]. *)

From Stdlib Require Import ZArith Lia Bool List Floats.
From stdpp Require Import base option list gmap strings.

Set Warnings "-inexact-float,-clear-no-such-hyp".
Local Open Scope Z_scope.

(** ** Python numbers *)

Module Py.

(** Exceptions raised by the embedded code. *)
Inductive exn : Type :=
| IndexError
| ValueError
| OverflowError
| ZeroDivisionError
| TypeError
| AttributeError
| KeyError.

(** A computation either returns or raises. *)
Inductive result (A : Type) : Type :=
| Ok (a : A)
| Raise (e : exn).
Arguments Ok {A} a.
Arguments Raise {A} e.

Definition bind {A B} (r : result A) (k : A -> result B) : result B :=
  match r with
  | Ok a => k a
  | Raise e => Raise e
  end.

Definition returns {A} (r : result A) : Prop := exists a, r = Ok a.
Definition raises {A} (r : result A) : Prop := exists e, r = Raise e.

(** [float(n)] for a Python [int]: rounding to nearest even (exact below
    2^53). *)
Definition Z2float (n : Z) : float :=
  SF2Prim (binary_normalize prec emax n 0 false).

(** Comparisons as Python writes them. *)
Definition gt (x y : float) : bool := (y <? x)%float.
Definition ge (x y : float) : bool := (y <=? x)%float.
Definition lt (x y : float) : bool := (x <? y)%float.
Definition le (x y : float) : bool := (x <=? y)%float.
Definition ne (x y : float) : bool := negb (x =? y)%float.

(** The IEEE comparison of two floats: [None] when one is NaN. *)
Definition fcmp (x y : float) : option comparison :=
  SFcompare (Prim2SF x) (Prim2SF y).

(** The integer of a finite float over a common exponent. *)
Definition aligned (s : bool) (m : positive) (e ez : Z) : Z :=
  cond_Zopp s (Zpos (fst (shl_align m e ez))).

(** A float with a sign: not zero, not NaN. *)
Definition signed (s : bool) (r : spec_float) : Prop :=
  (exists m e, r = S754_finite s m e) \/ r = S754_infinity s.

(** A float of a sign, or zero of that sign, or NaN. *)
Definition weakly_signed (s : bool) (r : spec_float) : Prop :=
  signed s r \/ r = S754_zero s \/ r = S754_nan.

(** [sum([b1, ..., bn])] over booleans. *)
Definition sum_bools (bs : list bool) : Z :=
  fold_left (fun acc (b : bool) => acc + (if b then 1 else 0)) bs 0.

(** The integer a finite float is truncated to, towards zero. *)
Definition trunc_SF (x : spec_float) : result Z :=
  match x with
  | S754_nan => Raise ValueError
  | S754_infinity _ => Raise OverflowError
  | S754_zero _ => Ok 0
  | S754_finite s m e =>
      let a := Z.shiftl (Zpos m) e in
      Ok (if s then - a else a)
  end.

(** [int(x)] for a Python float: truncation towards zero; NaN raises
    [ValueError] and an infinity raises [OverflowError]. *)
Definition int (x : float) : result Z := trunc_SF (Prim2SF x).

(** [math.floor] of a finite float, for stating what a result is. *)
Definition floor_SF (x : spec_float) : option Z :=
  match x with
  | S754_nan | S754_infinity _ => None
  | S754_zero _ => Some 0
  | S754_finite s m e =>
      Some (Z.shiftl (if s then Zneg m else Zpos m) e)
  end.

(** Python's float division: a zero divisor raises. *)
Definition truediv (x y : float) : result float :=
  if (y =? 0)%float then Raise ZeroDivisionError else Ok (x / y)%float.

End Py.

Notation "'let!' x ':=' c1 'in' c2" := (Py.bind c1 (fun x => c2))
  (at level 10, x pattern, c1 at level 100, c2 at level 200).

(** ** pandas values used by the fundamentals engine *)

Module Pandas.
Import Py.

(** A statement table after [transpose()], [reset_index()] and
    [sort_values('Date')]: [len(df)] rows, oldest first, and one column of
    that many numbers per line item that the provider reported. *)
Record DataFrame : Type := {
  nrows : nat;
  columns : gmap string (list float)
}.

(** [pd.Series([0]*n)] *)
Definition zeros (n : nat) : list float := repeat 0%float n.

(** [df.get(key, default)] *)
Definition get (df : DataFrame) (key : string) (default : list float) :
  list float :=
  match columns df !! key with
  | Some c => c
  | None => default
  end.

(** [s[-k:]]: the last [k] entries; [s[-0:]] is the whole series. *)
Definition tail_slice (k : nat) (s : list float) : list float :=
  match k with
  | O => s
  | _ => drop (length s - k) s
  end.

(** [s.iloc[i]] for [i >= 0] *)
Definition iloc (s : list float) (i : nat) : result float :=
  match s !! i with
  | Some x => Ok x
  | None => Raise IndexError
  end.

(** [pd.isna(x)] and [pd.notnull(x)] on a float scalar *)
Definition isna (x : float) : bool := is_nan x.
Definition notnull (x : float) : bool := negb (is_nan x).

(** [l[-1]] on a Python list *)
Definition list_latest (l : list float) : result float :=
  match last l with
  | Some x => Ok x
  | None => Raise IndexError
  end.
End Pandas.

(** ** fundamental_analysis.py *)

Module Fundamental.
Import Py Pandas.

Section Engine.
Local Open Scope float_scope.

(** Python's float power [x ** y] and numpy's [np.mean] are the
    interpreter's and numpy's, not this repository's: the engine is
    embedded over any implementation of the two. *)
Variable pow : float -> float -> float.
Variable np_mean : list float -> float.

(** [FundamentalAnalysis.calculate_cagr]; [periods] is a Python [int]. *)
Definition calculate_cagr (start_value end_value : float) (periods : Z) :
  float :=
  if le start_value 0 || le end_value 0 || (periods <=? 0)%Z then nan
  else (pow (end_value / start_value) (1 / Z2float periods) - 1) * 100.

(** The entries of a list handed to [get_means]: [None] is Python's
    [None], [Some x] a float (possibly NaN). *)
Definition ne_nan (c : option float) : bool :=
  match c with
  | Some x => ne x nan
  | None => true
  end.

Definition is_not_None (c : option float) : bool :=
  match c with
  | Some _ => true
  | None => false
  end.

Definition pd_notnull (c : option float) : bool :=
  match c with
  | Some x => notnull x
  | None => false
  end.

(** [FundamentalAnalysis.null_check]:
    [c != np.nan and c is not None and pd.notnull(c)] *)
Definition null_check (c : option float) : bool :=
  ne_nan c && is_not_None c && pd_notnull c.

(** What [get_means] keeps of its list. *)
Definition valid (num_list : list (option float)) : list (option float) :=
  List.filter null_check num_list.

(** The floats of a list whose [None]s have been filtered out. *)
Definition floats (l : list (option float)) : list float := omap id l.

(** [FundamentalAnalysis.get_means] *)
Definition get_means (num_list : list (option float)) (min_n : Z) :
  float :=
  let num_list := List.filter null_check num_list in
  let mean_cal := np_mean (floats num_list) in
  if null_check (Some mean_cal) && (min_n <=? Z.of_nat (length num_list))%Z
  then mean_cal
  else -1.

(** The metrics written by lines 404-438 of [compute_yfinance_metrics]. *)
Record roa_roe_metrics : Type := {
  avg_ROA : float;   (* '3-5yr Average ROA (%)' *)
  avg_ROE : float;   (* '3-5yr Average ROE (%)' *)
  ROE : float;
  ROA : float
}.

(** One iteration of [for i in range(years)]. *)
Definition roa_roe_step
    (net_income_series total_assets_series equity_series : list float)
    (i : nat) (acc : list float * list float) :
  result (list float * list float) :=
  let '(roa_values, roe_values) := acc in
  let! x := iloc net_income_series i in
  let net_income := if negb (isna x) then x else 0 in
  let! avg_assets :=
    if (0 <? i)%nat then
      let! a := iloc total_assets_series i in
      let! b := iloc total_assets_series (i - 1) in
      Ok ((a + b) / 2)
    else iloc total_assets_series i in
  let roa_values :=
    if ne avg_assets 0
    then roa_values ++ [net_income / avg_assets * 100]
    else roa_values in
  let! avg_equity :=
    if (0 <? i)%nat then
      let! a := iloc equity_series i in
      let! b := iloc equity_series (i - 1) in
      Ok ((a + b) / 2)
    else iloc equity_series i in
  let roe_values :=
    if ne avg_equity 0
    then roe_values ++ [net_income / avg_equity * 100]
    else roe_values in
  Ok (roa_values, roe_values).

Fixpoint roa_roe_loop
    (net_income_series total_assets_series equity_series : list float)
    (range : list nat) (acc : list float * list float) :
  result (list float * list float) :=
  match range with
  | [] => Ok acc
  | i :: range =>
      let! acc := roa_roe_step net_income_series total_assets_series
                    equity_series i acc in
      roa_roe_loop net_income_series total_assets_series equity_series
        range acc
  end.

(** Lines 404-438 of [compute_yfinance_metrics]: the yearly ROA and ROE,
    their averages, and the latest of each. *)
Definition roa_roe_block (income balance : DataFrame) :
  result roa_roe_metrics :=
  let num_years := nrows income in
  let net_income_series :=
    tail_slice (min 5 num_years) (get income "Net Income" (zeros num_years)) in
  let total_assets_series :=
    tail_slice (min 5 num_years) (get balance "Total Assets" (zeros num_years)) in
  let equity_series :=
    tail_slice (min 5 num_years)
      (get balance "Stockholders Equity" (zeros num_years)) in
  let years := min 4 num_years in
  let! (roa_values, roe_values) :=
    roa_roe_loop net_income_series total_assets_series equity_series
      (seq 0 years) ([], []) in
  let roa_values := List.filter notnull roa_values in
  let roe_values := List.filter notnull roe_values in
  let avg_roa := get_means (map Some roa_values) 2 in
  let avg_roe := get_means (map Some roe_values) 2 in
  let! roe := list_latest roe_values in
  let! roa := list_latest roa_values in
  Ok {| avg_ROA := avg_roa; avg_ROE := avg_roe; ROE := roe; ROA := roa |}.
End Engine.

(** A reference reduction for short lists: numpy adds the entries from left
    to right and divides by their number. *)
Definition mean_of (l : list float) : float :=
  (fold_left PrimFloat.add l 0%float / Z2float (Z.of_nat (length l)))%float.
End Fundamental.

(** ** technical_analysis.py *)

Module Technical.
Import Py.
Local Open Scope float_scope.

(** What the five analyses read: the latest bar [df.iloc[-1]] with its
    indicator columns (NaN where a rolling window is not yet full), and
    what pandas reports of the trailing windows. *)
Record indicators : Type := {
  Close : float;
  SMA_50 : float;
  SMA_200 : float;
  MACD : float;
  MACD_signal : float;
  MACD_hist : float;
  RSI : float;
  VWMA : float;
  len_df : Z;                   (* len(df) *)
  vwma_tail_monotonic : bool;   (* df['VWMA'].iloc[-5:].is_monotonic_increasing *)
  avg_vol_up : float;           (* mean volume of the up days in df.tail(10), or 0 *)
  avg_vol_down : float;         (* mean volume of the down days in df.tail(10), or 0 *)
  nearest_resistance : float;
  nearest_support : float
}.

(** ['score'] of [analyze_moving_averages] *)
Definition analyze_moving_averages_score (d : indicators) : Z :=
  let current_price := Close d in
  let above_50 := gt current_price (SMA_50 d) in
  let above_200 := gt current_price (SMA_200 d) in
  let golden_cross := gt (SMA_50 d) (SMA_200 d) in
  sum_bools [above_50; above_200; golden_cross].

(** ['score'] of [analyze_macd] *)
Definition analyze_macd_score (d : indicators) : Z :=
  let macd := MACD d in
  let signal := MACD_signal d in
  let hist := MACD_hist d in
  let bullish_crossover := gt macd signal in
  let above_zero := gt macd 0 in
  let hist_positive := gt hist 0 in
  sum_bools [bullish_crossover; above_zero; hist_positive].

(** The signals of [analyze_rsi]:
    "STRONG BUY - Ideal zone", "BUY - Acceptable zone",
    "WAIT - Overbought, pullback likely",
    "CAUTION - Oversold, wait for bounce confirmation", "NEUTRAL". *)
Inductive rsi_signal : Type :=
| RSI_IDEAL_ZONE
| RSI_ACCEPTABLE_ZONE
| RSI_OVERBOUGHT
| RSI_OVERSOLD
| RSI_NEUTRAL.

Inductive rsi_zone : Type :=
| Overbought
| Oversold
| Bullish
| Bearish.

Record rsi_analysis : Type := {
  rsi_value : float;
  not_overbought : bool;
  above_50 : bool;
  in_sweet_spot : bool;
  zone : rsi_zone;
  rsi_score : Z;
  rsi_signal_of : rsi_signal
}.

(** [analyze_rsi], from the latest RSI *)
Definition analyze_rsi (rsi : float) : rsi_analysis :=
  let not_overbought := lt rsi 70 in
  let above_50 := gt rsi 50 in
  let in_sweet_spot := lt 40 rsi && lt rsi 70 in
  let score := sum_bools [not_overbought; above_50; in_sweet_spot] in
  let signal :=
    if le 45 rsi && le rsi 60 then RSI_IDEAL_ZONE
    else if le 40 rsi && le rsi 70 then RSI_ACCEPTABLE_ZONE
    else if gt rsi 70 then RSI_OVERBOUGHT
    else if lt rsi 40 then RSI_OVERSOLD
    else RSI_NEUTRAL in
  let zone :=
    if gt rsi 70 then Overbought
    else if lt rsi 30 then Oversold
    else if gt rsi 50 then Bullish
    else Bearish in
  {| rsi_value := rsi; not_overbought := not_overbought;
     above_50 := above_50; in_sweet_spot := in_sweet_spot; zone := zone;
     rsi_score := score; rsi_signal_of := signal |}.

(** ['score'] of [analyze_vwma] *)
Definition analyze_vwma_score (d : indicators) : Z :=
  let current_price := Close d in
  let vwma := VWMA d in
  let above_vwma := gt current_price vwma in
  let vwma_rising :=
    if (5 <=? len_df d)%Z then vwma_tail_monotonic d else false in
  let volume_pattern_bullish := gt (avg_vol_up d) (avg_vol_down d) in
  sum_bools [above_vwma; vwma_rising; volume_pattern_bullish].

(** ['score'] of [analyze_support_resistance] *)
Definition analyze_support_resistance_score (d : indicators) : Z :=
  let current_price := Close d in
  let dist_to_resistance :=
    (nearest_resistance d - current_price) / current_price * 100 in
  let dist_to_support :=
    (current_price - nearest_support d) / current_price * 100 in
  let at_support := lt dist_to_support 2 in
  let score := 0%Z in
  let score :=
    if at_support then (score + 2)%Z
    else if lt dist_to_support 5 then (score + 1)%Z
    else score in
  let score :=
    if gt dist_to_resistance 5 then (score + 1)%Z else score in
  score.

(** The overall signals of [complete_technical_analysis]: "STRONG BUY" with
    action "Enter position", "WAIT" with "Need more confirmation", "AVOID"
    with "Poor setup" (each label behind a coloured bullet). *)
Inductive overall_signal : Type :=
| STRONG_BUY
| WAIT
| AVOID.

Definition action_of (s : overall_signal) : string :=
  match s with
  | STRONG_BUY => "Enter position"
  | WAIT => "Need more confirmation"
  | AVOID => "Poor setup"
  end.

Definition signal_of_pct (score_pct : float) : overall_signal :=
  if ge score_pct 67 then STRONG_BUY
  else if ge score_pct 50 then WAIT
  else AVOID.

Record technical_result : Type := {
  ma_score : Z;
  macd_score : Z;
  rsi_result : rsi_analysis;
  vwma_score : Z;
  sr_score : Z;
  total_score : Z;
  max_score : Z;
  score_percentage : float;
  overall : overall_signal;
  action : string
}.

(** [complete_technical_analysis], once the indicator columns are there *)
Definition complete_technical_analysis (d : indicators) : technical_result :=
  let ma_analysis := analyze_moving_averages_score d in
  let macd_analysis := analyze_macd_score d in
  let rsi_analysis := analyze_rsi (RSI d) in
  let vwma_analysis := analyze_vwma_score d in
  let sr_analysis := analyze_support_resistance_score d in
  let total_score :=
    (ma_analysis + macd_analysis + rsi_score rsi_analysis
     + vwma_analysis + sr_analysis)%Z in
  let max_score := 15%Z in
  let score_pct := Z2float total_score / Z2float max_score * 100 in
  let overall_signal := signal_of_pct score_pct in
  {| ma_score := ma_analysis; macd_score := macd_analysis;
     rsi_result := rsi_analysis; vwma_score := vwma_analysis;
     sr_score := sr_analysis; total_score := total_score;
     max_score := max_score; score_percentage := score_pct;
     overall := overall_signal; action := action_of overall_signal |}.

(** The dictionary [calculate_position_size] returns: the error record of
    its guard, or the sizing. *)
Inductive position : Type :=
| PositionError (error : string) (shares : Z) (position_value : Z)
| Position (shares : Z)
    (position_value position_percent risk_amount risk_percent
       risk_per_share : float).

Definition shares_of (p : position) : Z :=
  match p with
  | PositionError _ shares _ => shares
  | Position shares _ _ _ _ _ => shares
  end.

Definition is_error (p : position) : bool :=
  match p with
  | PositionError _ _ _ => true
  | Position _ _ _ _ _ _ => false
  end.

(** [calculate_position_size], on Python floats *)
Definition calculate_position_size
    (portfolio_value risk_percent entry_price stop_loss_price : float) :
  result position :=
  let risk_amount := portfolio_value * (risk_percent / 100) in
  let risk_per_share := entry_price - stop_loss_price in
  if le risk_per_share 0 then
    Ok (PositionError "Stop loss must be below entry price" 0 0)
  else
    let! quotient := truediv risk_amount risk_per_share in
    let! shares := int quotient in
    let position_value := Z2float shares * entry_price in
    let! fraction := truediv position_value portfolio_value in
    let position_percent := fraction * 100 in
    let actual_risk := Z2float shares * risk_per_share in
    let! risk_fraction := truediv actual_risk portfolio_value in
    let actual_risk_percent := risk_fraction * 100 in
    Ok (Position shares position_value position_percent actual_risk
          actual_risk_percent risk_per_share).
End Technical.

(** ** combined_analysis.py *)

Module Combined.
Import Py.
Local Open Scope float_scope.

(** [fund_result.get(key, default)] on the metrics dictionary *)
Definition get (fund_result : gmap string float) (key : string)
    (default : float) : float :=
  match fund_result !! key with
  | Some v => v
  | None => default
  end.

(** The two counters of [_calculate_fundamental_score] when it reaches its
    [return]: [(score, max_score)]. *)
Definition fundamental_points (fund_result : gmap string float) : Z * Z :=
  let score := 0%Z in
  let max_score := 0%Z in
  (* Profitability metrics (30 points) *)
  let max_score := (max_score + 30)%Z in
  let score :=
    if gt (get fund_result "ROE" 0) 15 then (score + 10)%Z
    else if gt (get fund_result "ROE" 0) 10 then (score + 5)%Z
    else score in
  let score :=
    if gt (get fund_result "ROCE" 0) 15 then (score + 10)%Z
    else if gt (get fund_result "ROCE" 0) 10 then (score + 5)%Z
    else score in
  let score :=
    if gt (get fund_result "NPM" 0) 10 then (score + 10)%Z
    else if gt (get fund_result "NPM" 0) 5 then (score + 5)%Z
    else score in
  (* Growth metrics (20 points) *)
  let max_score := (max_score + 20)%Z in
  let score :=
    if gt (get fund_result "Earnings Growth 5yr cagr" 0) 15 then (score + 10)%Z
    else if gt (get fund_result "Earnings Growth 5yr cagr" 0) 5 then (score + 5)%Z
    else score in
  let score :=
    if gt (get fund_result "Sales Growth 5yr cagr" 0) 15 then (score + 10)%Z
    else if gt (get fund_result "Sales Growth 5yr cagr" 0) 5 then (score + 5)%Z
    else score in
  (* Financial health (25 points) *)
  let max_score := (max_score + 25)%Z in
  let score :=
    if lt (get fund_result "d/e_market" 0) 0.5 then (score + 10)%Z
    else if lt (get fund_result "d/e_market" 0) 1.0 then (score + 5)%Z
    else score in
  let score :=
    if gt (get fund_result "Interest coverage" 0) 3 then (score + 10)%Z
    else if gt (get fund_result "Interest coverage" 0) 2 then (score + 5)%Z
    else score in
  let score :=
    if gt (get fund_result "CFO" 0) 0 then (score + 5)%Z else score in
  (* Valuation (15 points) *)
  let max_score := (max_score + 15)%Z in
  let pe := get fund_result "p/e" infinity in
  let score :=
    if lt pe 15 && gt pe 0 then (score + 10)%Z
    else if lt pe 25 && gt pe 0 then (score + 5)%Z
    else score in
  let score :=
    if gt (get fund_result "EY" 0) 7 then (score + 5)%Z else score in
  (* Cash flow quality (10 points) *)
  let max_score := (max_score + 10)%Z in
  let score :=
    if gt (get fund_result "cCFO/cPAT" 0) 1 then (score + 10)%Z
    else if gt (get fund_result "cCFO/cPAT" 0) 0.8 then (score + 5)%Z
    else score in
  (score, max_score).

(** [CombinedAnalysis._calculate_fundamental_score] *)
Definition _calculate_fundamental_score (fund_result : gmap string float) :
  float :=
  let '(score, max_score) := fundamental_points fund_result in
  if (0 <? max_score)%Z
  then Z2float score / Z2float max_score * 100
  else 0.

(** The recommendations of [analyze_stock_comprehensive]: "STRONG BUY",
    "BUY WITH CAUTION", "WAIT" and "AVOID" (each behind a coloured
    bullet). *)
Inductive recommendation : Type :=
| STRONG_BUY
| BUY_WITH_CAUTION
| WAIT
| AVOID.

(** "Determine overall recommendation" in [analyze_stock_comprehensive]:
    the recommendation and its action. *)
Definition recommend (fund_score tech_score : float) :
  recommendation * string :=
  if ge fund_score 70 && ge tech_score 67 then
    (STRONG_BUY, "Enter position - Excellent fundamentals and technicals")
  else if ge fund_score 70 && ge tech_score 50 then
    (BUY_WITH_CAUTION, "Good fundamentals, wait for better technical setup")
  else if ge fund_score 50 && ge tech_score 67 then
    (WAIT, "Good technicals, but fundamental concerns")
  else
    (AVOID, "Poor fundamentals and/or technicals").

Record comprehensive : Type := {
  fundamental_score : float;
  technical_score : float;
  combined_score : float;
  recommendation_of : recommendation;
  action : string
}.

(** Lines 66-84 of [analyze_stock_comprehensive] on a metrics dictionary
    and a technical result dictionary: the scores, their mean and the
    recommendation.  What the function does on the values it holds is
    [Portfolio.score_and_recommend]. *)
Definition comprehensive_of
    (fund_result : gmap string float) (tech_result : Technical.technical_result) :
  comprehensive :=
  let fund_score := _calculate_fundamental_score fund_result in
  let tech_score := Technical.score_percentage tech_result in
  let combined_score := (fund_score + tech_score) / 2 in
  let '(recommendation, action) := recommend fund_score tech_score in
  {| fundamental_score := fund_score; technical_score := tech_score;
     combined_score := combined_score; recommendation_of := recommendation;
     action := action |}.
End Combined.

(** ** combined.py *)

Module Batch.
Import Py.

Section Orchestrator.
(** The provider's objects and the values of the two analyses'
    dictionaries are opaque to the orchestrator. *)
Context {Frame Stock Value : Type}.

(** A dictionary entry: a string the orchestrator wrote, or a value an
    analysis produced. *)
Inductive entry : Type :=
| Str (s : string)
| Val (v : Value).

Abbreviation dict := (gmap string entry).

(** What [stock.history(period=period)] does for a ticker. *)
Inductive history : Type :=
| HistoryRaises
| HistoryEmpty
| HistoryFrame (df : Frame).

(** What an analysis coroutine does: it raises, returns its dictionary,
    or ([compute_yfinance_metrics] on an empty table) returns the string
    "Error fetching data for this ticker". *)
Inductive outcome : Type :=
| Raised (e : exn)
| Returned (d : dict)
| ReturnedStr (s : string).

(** The provider and the two engines. *)
Variable get_yfinance_data : string -> Stock.
Variable stock_history : string -> history.
Variable compute_yfinance_metrics : Stock -> outcome.
Variable complete_technical_analysis : Frame -> outcome.

(** What [get_stock_data] returns: a bare [None], or a pair. *)
Inductive stock_data : Type :=
| BareNone
| Pair (df : option Frame) (stock : option Stock).

(** [TechnicalAnalysis.get_stock_data] *)
Definition get_stock_data (ticker : string) : stock_data :=
  let stock := get_yfinance_data ticker in
  match stock_history ticker with
  | HistoryRaises => Pair None None          (* except: return None, None *)
  | HistoryEmpty => BareNone                 (* if df.empty: return None *)
  | HistoryFrame df => Pair (Some df) (Some stock)
  end.

(** The two coroutines on what [get_stock_data] handed over: on [None]
    the first attribute access raises. *)
Definition run_fundamental (stock : option Stock) : outcome :=
  match stock with
  | Some stock => compute_yfinance_metrics stock
  | None => Raised AttributeError
  end.

Definition run_technical (df : option Frame) : outcome :=
  match df with
  | Some df => complete_technical_analysis df
  | None => Raised AttributeError
  end.

(** [{**fun, **tech, 'ticker': ticker}]: later keys win; unpacking a
    string with [**] raises [TypeError]. *)
Definition merge (fun_ tech : outcome) (ticker : string) : result dict :=
  match fun_, tech with
  | Returned f, Returned t => Ok (<["ticker" := Str ticker]> (t ∪ f))
  | _, _ => Raise TypeError
  end.

(** [str(e)] *)
Variable str : exn -> string.

Definition error_record (ticker : string) (e : exn) : dict :=
  {[ "ticker" := Str ticker; "error" := Str (str e) ]}.

(** The [try] body of [analyze_stock] *)
Definition analyze_stock_body (ticker : string) : result dict :=
  match get_stock_data ticker with
  | BareNone => Raise TypeError              (* df, stock = None *)
  | Pair df stock =>
      let fun_ := run_fundamental stock in
      let tech := run_technical df in
      (* return_exceptions=True, then "Handle exceptions" *)
      let fun_ := match fun_ with Raised _ => Returned ∅ | _ => fun_ end in
      let tech := match tech with Raised _ => Returned ∅ | _ => tech end in
      merge fun_ tech ticker
  end.

(** [analyze_stock]: [except Exception as e] turns what the body raises
    into an error record. *)
Definition analyze_stock (ticker : string) : result dict :=
  match analyze_stock_body ticker with
  | Ok complete_ => Ok complete_
  | Raise e => Ok (error_record ticker e)
  end.

(** The dictionary [analyze_stock] returns for a ticker. *)
Definition analyze_stock_dict (ticker : string) : dict :=
  match analyze_stock_body ticker with
  | Ok complete_ => complete_
  | Raise e => error_record ticker e
  end.

(** What "Handle exceptions" keeps of a coroutine's outcome. *)
Definition handled (o : outcome) : dict :=
  match o with
  | Returned d => d
  | _ => ∅
  end.

Definition returned_str (o : outcome) : bool :=
  match o with
  | ReturnedStr _ => true
  | _ => false
  end.

(** Storing the entries of a list of tickers, one after the other. *)
Definition store_all (results : gmap string dict) (tickers : list string) :
  gmap string dict :=
  fold_left (fun results ticker => <[ticker := analyze_stock_dict ticker]> results)
    tickers results.

(** "Store results": [for ticker, result in zip(batch, batch_results)] *)
Definition store (results : gmap string dict) (ticker : string)
    (result : result dict) : gmap string dict :=
  match result with
  | Raise e => <[ticker := error_record ticker e]> results
  | Ok d => <[ticker := d]> results
  end.

Definition store_batch (results : gmap string dict) (batch : list string) :
  gmap string dict :=
  let batch_results := map analyze_stock batch in
  fold_left (fun results '(ticker, result) => store results ticker result)
    (zip batch batch_results) results.

(** [for i in range(0, len(tickers), batch_size)] with a positive step:
    the batches [tickers[i:i + batch_size]]; [fuel] bounds the number of
    batches. *)
Fixpoint batches (fuel : nat) (batch_size : nat) (tickers : list string) :
  list (list string) :=
  match fuel, tickers with
  | O, _ | _, [] => []
  | S fuel, _ =>
      take batch_size tickers :: batches fuel batch_size (drop batch_size tickers)
  end.

(** [analyze_multiple_stocks]: [range] raises [ValueError] on a zero
    step and is empty on a negative one. *)
Definition analyze_multiple_stocks (tickers : list string) (batch_size : Z) :
  result (gmap string dict) :=
  if (batch_size =? 0)%Z then Raise ValueError
  else if (batch_size <? 0)%Z then Ok ∅
  else
    Ok (fold_left store_batch
          (batches (length tickers) (Z.to_nat batch_size) tickers) ∅).
End Orchestrator.
End Batch.

(** ** Checks by evaluation and concrete inputs *)

Module Checks.
Import Py.
Local Open Scope float_scope.

(** What [complete_technical_analysis] makes of a total of 0 to 15. *)
Definition pct_of_total (total : Z) : float :=
  Z2float total / Z2float 15 * 100.

Definition total_check (total : Z) : bool :=
  negb (is_nan (pct_of_total total))
  && Bool.eqb (ge (pct_of_total total) 67) (11 <=? total)%Z
  && Bool.eqb (ge (pct_of_total total) 50) (8 <=? total)%Z.

(** The percentage of a score out of 100 points stays within 0 and 100. *)
Definition score_pct_check (score : Z) : bool :=
  le 0 (Z2float score / Z2float 100 * 100)
  && le (Z2float score / Z2float 100 * 100) 100.
End Checks.

Module Scenarios.
Local Open Scope float_scope.

(** Five clean years whose growth is positive but moderate. *)
Definition moderate_growth : gmap string float :=
  list_to_map
    [("ROE", 18); ("ROCE", 16); ("NPM", 12); ("d/e_market", 0.3);
     ("Interest coverage", 5); ("p/e", 12); ("EY", 8); ("cCFO/cPAT", 1.2);
     ("Earnings Growth 5yr cagr", 10); ("Sales Growth 5yr cagr", 10);
     ("CFO", 1000000)].

(** The same result with growth above 15. *)
Definition strong_growth : gmap string float :=
  <["Earnings Growth 5yr cagr" := 18]>
    (<["Sales Growth 5yr cagr" := 16]> moderate_growth).

(** One clean annual period whose balance sheet has no 'Stockholders
    Equity' line. *)
Definition income_one_year : Pandas.DataFrame :=
  {| Pandas.nrows := 1;
     Pandas.columns :=
       list_to_map
         [("Net Income", [100%float]); ("Total Revenue", [1000%float]);
          ("EBIT", [150%float])] |}.

Definition balance_without_equity : Pandas.DataFrame :=
  {| Pandas.nrows := 1;
     Pandas.columns :=
       list_to_map
         [("Total Assets", [2000%float]); ("Current Liabilities", [300%float]);
          ("Total Debt", [400%float])] |}.

(** The same balance sheet with the line present and zero. *)
Definition balance_zero_equity : Pandas.DataFrame :=
  {| Pandas.nrows := 1;
     Pandas.columns :=
       <["Stockholders Equity" := [0%float]]>
         (Pandas.columns balance_without_equity) |}.

(** A provider for three scenarios: the history of "BBB" raises, that of
    "EEE" is empty, the fundamentals of "KKK" raise; every other ticker is
    analysed in full. *)
Definition demo_history (ticker : string) : Batch.history (Frame := string) :=
  if String.eqb ticker "BBB" then Batch.HistoryRaises
  else if String.eqb ticker "EEE" then Batch.HistoryEmpty
  else Batch.HistoryFrame ticker.

Definition demo_fundamentals (stock : string) : Batch.outcome (Value := Z) :=
  if String.eqb stock "KKK" then Batch.Raised Py.KeyError
  else Batch.Returned {[ "ROE" := Batch.Val 18%Z ]}.

Definition demo_technical (df : string) : Batch.outcome (Value := Z) :=
  Batch.Returned {[ "total_score" := Batch.Val 11%Z ]}.

Definition demo_str (e : Py.exn) : string := "cannot unpack".

End Scenarios.

(** ** technical_analysis.py: the signals of the analyses *)

Module Signals.
Import Py.
Local Open Scope float_scope.

(** The entry signals of [analyze_moving_averages]: "AVOID",
    "BUY - Ideal pullback entry", "WAIT - Extended above MA",
    "STRONG BUY - At MA support", "WAIT - Partial trend". *)
Inductive ma_signal : Type :=
| MA_AVOID
| MA_IDEAL_PULLBACK
| MA_EXTENDED
| MA_AT_SUPPORT
| MA_PARTIAL_TREND.

Record ma_analysis : Type := {
  ma_above_50 : bool;
  ma_above_200 : bool;
  ma_golden_cross : bool;
  dist_from_20 : option float;
  dist_from_50 : option float;
  dist_from_200 : option float;
  ma_score : Z;
  ma_signal_of : ma_signal
}.

(** [((current_price - sma) / sma * 100) if pd.notna(sma) else None] *)
Definition dist_from (current_price sma : float) : option float :=
  if Pandas.notnull sma then Some ((current_price - sma) / sma * 100)
  else None.

(** [-2 <= dist_20 <= 5], then [dist_20 > 5]: comparing [None] with a
    number raises [TypeError]. *)
Definition pullback_signal (dist_20 : option float) : result ma_signal :=
  match dist_20 with
  | None => Raise TypeError
  | Some d =>
      if le (-2) d && le d 5 then Ok MA_IDEAL_PULLBACK
      else if gt d 5 then Ok MA_EXTENDED
      else Ok MA_AT_SUPPORT
  end.

(** [analyze_moving_averages] on the latest bar [df.iloc[-1]] *)
Definition analyze_moving_averages
    (current_price sma_20 sma_50 sma_200 : float) : result ma_analysis :=
  let above_50 := gt current_price sma_50 in
  let above_200 := gt current_price sma_200 in
  let golden_cross := gt sma_50 sma_200 in
  let dist_20 := dist_from current_price sma_20 in
  let dist_50 := dist_from current_price sma_50 in
  let dist_200 := dist_from current_price sma_200 in
  let score := sum_bools [above_50; above_200; golden_cross] in
  let! entry_signal :=
    if (score =? 3)%Z then pullback_signal dist_20
    else if (score =? 2)%Z then Ok MA_PARTIAL_TREND
    else Ok MA_AVOID in
  Ok {| ma_above_50 := above_50; ma_above_200 := above_200;
        ma_golden_cross := golden_cross; dist_from_20 := dist_20;
        dist_from_50 := dist_50; dist_from_200 := dist_200;
        ma_score := score; ma_signal_of := entry_signal |}.

(** A row of the frame after [calculate_macd]. *)
Record macd_row : Type := {
  MACD : float;
  MACD_signal : float;
  MACD_hist : float
}.

(** The three columns [calculate_macd] derives from the two exponential
    averages of a bar: the MACD line, and the histogram from it and the
    signal line. *)
Definition macd_columns (ema_fast ema_slow signal : float) : macd_row :=
  let macd := ema_fast - ema_slow in
  {| MACD := macd; MACD_signal := signal; MACD_hist := macd - signal |}.

(** [df.iloc[-i]] for [i >= 1] *)
Definition iloc_back {A} (df : list A) (i : nat) : result A :=
  if (i <=? length df)%nat then
    match df !! (length df - i)%nat with
    | Some row => Ok row
    | None => Raise IndexError
    end
  else Raise IndexError.

(** The body of the scan [for i in range(1, min(11, len(df)))]: whether
    bar [-i] is above its signal line and bar [-i-1] is not. *)
Definition crossed (df : list macd_row) (i : nat) : result bool :=
  let! row := iloc_back df i in
  if gt (MACD row) (MACD_signal row) then
    let! before := iloc_back df (i + 1) in
    Ok (le (MACD before) (MACD_signal before))
  else Ok false.

Fixpoint scan_crossover (df : list macd_row) (range : list nat) :
  result (option nat) :=
  match range with
  | [] => Ok None
  | i :: range =>
      let! c := crossed df i in
      if c then Ok (Some i)            (* recent_cross = True; break *)
      else scan_crossover df range
  end.

(** The signals of [analyze_macd]: "STRONG BUY - Fresh crossover (n days
    ago)", "BUY - Momentum building",
    "HOLD - Bullish but watch for weakening", "AVOID - Bearish momentum". *)
Inductive macd_signal : Type :=
| MACD_FRESH_CROSSOVER (days_ago : nat)
| MACD_MOMENTUM_BUILDING
| MACD_HOLD
| MACD_AVOID.

Record macd_analysis : Type := {
  bullish_crossover : bool;
  above_zero : bool;
  histogram_positive : bool;
  histogram_growing : bool;
  recent_crossover : bool;
  crossover_days_ago : option nat;
  macd_score : Z;
  macd_signal_of : macd_signal
}.

(** [analyze_macd]: [None] on an empty frame. *)
Definition analyze_macd (df : list macd_row) : result (option macd_analysis) :=
  match df with
  | [] => Ok None
  | _ =>
      let! latest := iloc_back df 1 in
      let! prev := iloc_back df 2 in
      let macd := MACD latest in
      let signal := MACD_signal latest in
      let hist := MACD_hist latest in
      let bullish_crossover := gt macd signal in
      let above_zero := gt macd 0 in
      let hist_positive := gt hist 0 in
      let hist_growing := gt hist (MACD_hist prev) in
      let! crossover_days_ago :=
        scan_crossover df (seq 1 (Nat.min 11 (length df) - 1)) in
      let recent_cross :=
        match crossover_days_ago with Some _ => true | None => false end in
      let score := sum_bools [bullish_crossover; above_zero; hist_positive] in
      let signal_str :=
        match crossover_days_ago with
        | Some days =>
            if bullish_crossover && recent_cross && (days <=? 5)%nat
            then MACD_FRESH_CROSSOVER days
            else if bullish_crossover && hist_growing then MACD_MOMENTUM_BUILDING
            else if bullish_crossover then MACD_HOLD
            else MACD_AVOID
        | None =>
            if bullish_crossover && hist_growing then MACD_MOMENTUM_BUILDING
            else if bullish_crossover then MACD_HOLD
            else MACD_AVOID
        end in
      Ok (Some {| bullish_crossover := bullish_crossover;
                  above_zero := above_zero;
                  histogram_positive := hist_positive;
                  histogram_growing := hist_growing;
                  recent_crossover := recent_cross;
                  crossover_days_ago := crossover_days_ago;
                  macd_score := score; macd_signal_of := signal_str |})
  end.

(** The signals of [analyze_vwma]: "STRONG BUY - Institutional
    accumulation", "BUY - Good volume support",
    "HOLD - Above VWMA but watch volume", "AVOID - Below VWMA, weak
    support". *)
Inductive vwma_signal : Type :=
| VWMA_ACCUMULATION
| VWMA_VOLUME_SUPPORT
| VWMA_WATCH_VOLUME
| VWMA_AVOID.

Record vwma_analysis : Type := {
  above_vwma : bool;
  vwma_rising : bool;
  volume_pattern_bullish : bool;
  volume_ratio : float;
  vwma_score : Z;
  vwma_signal_of : vwma_signal
}.

(** [analyze_vwma], from the latest bar and what pandas reports of the
    trailing windows (see [Technical.indicators]); [current_vol] and
    [avg_vol] are the latest 'Volume' and 'Avg_Volume'. *)
Definition analyze_vwma (d : Technical.indicators)
    (current_vol avg_vol : float) : vwma_analysis :=
  let current_price := Technical.Close d in
  let vwma := Technical.VWMA d in
  let above_vwma := gt current_price vwma in
  let vwma_rising :=
    if (5 <=? Technical.len_df d)%Z then Technical.vwma_tail_monotonic d
    else false in
  let volume_pattern_bullish :=
    gt (Technical.avg_vol_up d) (Technical.avg_vol_down d) in
  let vol_ratio := if gt avg_vol 0 then current_vol / avg_vol else 0 in
  let score := sum_bools [above_vwma; vwma_rising; volume_pattern_bullish] in
  let signal :=
    if above_vwma && vwma_rising && volume_pattern_bullish then VWMA_ACCUMULATION
    else if above_vwma && volume_pattern_bullish then VWMA_VOLUME_SUPPORT
    else if above_vwma then VWMA_WATCH_VOLUME
    else VWMA_AVOID in
  {| above_vwma := above_vwma; vwma_rising := vwma_rising;
     volume_pattern_bullish := volume_pattern_bullish;
     volume_ratio := vol_ratio; vwma_score := score;
     vwma_signal_of := signal |}.

(** Python's [min] and [max] over a non-empty sequence: the first entry
    that no later entry is strictly below (above). *)
Definition py_min (first : float) (rest : list float) : float :=
  fold_left (fun m x => if lt x m then x else m) rest first.

Definition py_max (first : float) (rest : list float) : float :=
  fold_left (fun m x => if gt x m then x else m) rest first.

(** [min(levels) if levels else fallback] *)
Definition min_or (levels : list float) (fallback : float) : float :=
  match levels with
  | [] => fallback
  | first :: rest => py_min first rest
  end.

Definition max_or (levels : list float) (fallback : float) : float :=
  match levels with
  | [] => fallback
  | first :: rest => py_max first rest
  end.

(** The signals of [analyze_support_resistance]: "STRONG BUY - At support
    with room to resistance", "BUY - At support but near resistance",
    "WAIT - Near resistance, likely pullback",
    "BUY - Good risk/reward setup", "NEUTRAL - No clear level nearby". *)
Inductive sr_signal : Type :=
| SR_STRONG_BUY
| SR_BUY_AT_SUPPORT
| SR_WAIT_NEAR_RESISTANCE
| SR_GOOD_RISK_REWARD
| SR_NEUTRAL.

Record sr_analysis : Type := {
  sr_nearest_resistance : float;
  sr_nearest_support : float;
  dist_to_resistance : float;
  dist_to_support : float;
  at_support : bool;
  near_resistance : bool;
  sr_score : Z;
  sr_signal_of : sr_signal
}.

(** [analyze_support_resistance], from the latest close, the pivot levels
    of [find_pivot_points] and the latest 'Resistance_60' and
    'Support_60'. *)
Definition analyze_support_resistance (current_price : float)
    (resistance_levels support_levels : list float)
    (resistance_60 support_60 : float) : sr_analysis :=
  let resistance_above := List.filter (fun r => gt r current_price) resistance_levels in
  let support_below := List.filter (fun s => lt s current_price) support_levels in
  let nearest_resistance := min_or resistance_above resistance_60 in
  let nearest_support := max_or support_below support_60 in
  let dist_to_resistance :=
    (nearest_resistance - current_price) / current_price * 100 in
  let dist_to_support :=
    (current_price - nearest_support) / current_price * 100 in
  let at_support := lt dist_to_support 2 in
  let near_resistance := lt dist_to_resistance 2 in
  let signal :=
    if at_support && gt dist_to_resistance 5 then SR_STRONG_BUY
    else if at_support then SR_BUY_AT_SUPPORT
    else if near_resistance then SR_WAIT_NEAR_RESISTANCE
    else if (lt 3 dist_to_support && lt dist_to_support 8)
            && gt dist_to_resistance 5 then SR_GOOD_RISK_REWARD
    else SR_NEUTRAL in
  let score := 0%Z in
  let score :=
    if at_support then (score + 2)%Z
    else if lt dist_to_support 5 then (score + 1)%Z
    else score in
  let score :=
    if gt dist_to_resistance 5 then (score + 1)%Z else score in
  {| sr_nearest_resistance := nearest_resistance;
     sr_nearest_support := nearest_support;
     dist_to_resistance := dist_to_resistance;
     dist_to_support := dist_to_support; at_support := at_support;
     near_resistance := near_resistance; sr_score := score;
     sr_signal_of := signal |}.

(** An entry ['target_i'] of [calculate_targets]. *)
Record target : Type := {
  percent : float;
  price : float;
  reward_amount : float;
  risk_reward_ratio : float
}.

(** [calculate_targets]: the entries 'target_1', 'target_2', ... in
    order. *)
Definition calculate_targets (entry_price stop_loss_price : float)
    (target_percents : list float) : list target :=
  let risk := entry_price - stop_loss_price in
  map (fun pct =>
         let target_price := entry_price * (1 + pct / 100) in
         let reward := target_price - entry_price in
         let rr_ratio := if gt risk 0 then reward / risk else 0 in
         {| percent := pct; price := target_price;
            reward_amount := reward; risk_reward_ratio := rr_ratio |})
    target_percents.

(** The signals of [compare_relative_strength]: "STRONG - Significant
    outperformance", "GOOD - Outperforming market",
    "WEAK - Slight underperformance",
    "AVOID - Significant underperformance". *)
Inductive strength_signal : Type :=
| RS_STRONG
| RS_GOOD
| RS_WEAK
| RS_AVOID.

Record relative_strength : Type := {
  stock_return : float;
  benchmark_return : float;
  outperformance : float;
  outperforming : bool;
  strength_signal_of : strength_signal
}.

(** [(closes.iloc[-1] / closes.iloc[0] - 1) * 100] on a frame that is not
    empty *)
Definition total_return (first : float) (rest : list float) : float :=
  (List.last rest first / first - 1) * 100.

(** [compare_relative_strength] on the 'Close' columns of the two frames
    ([None]: no frame). *)
Definition compare_relative_strength
    (ticker_df benchmark_df : option (list float)) :
  option relative_strength :=
  match ticker_df, benchmark_df with
  | Some (s :: stock), Some (b :: bench) =>
      let stock_return := total_return s stock in
      let bench_return := total_return b bench in
      let outperformance := stock_return - bench_return in
      let signal :=
        if gt outperformance 10 then RS_STRONG
        else if gt outperformance 0 then RS_GOOD
        else if gt outperformance (-10) then RS_WEAK
        else RS_AVOID in
      Some {| stock_return := stock_return; benchmark_return := bench_return;
              outperformance := outperformance;
              outperforming := gt outperformance 0;
              strength_signal_of := signal |}
  | _, _ => None
  end.

(** What the volatility index gives [analyze_market_trend]: the fetch
    raises, its frame is empty, or it has a latest close. *)
Inductive vix_history : Type :=
| VixRaises
| VixEmpty
| VixClose (level : float).

(** [vix_level < 20 if vix_level else None]: a level of zero is falsy. *)
Definition low_vix_of (vix : vix_history) : option bool :=
  match vix with
  | VixRaises | VixEmpty => None
  | VixClose level => if ne level 0 then Some (lt level 20) else None
  end.

Inductive market_state : Type :=
| BULL
| NEUTRAL
| BEAR.

Record market_analysis : Type := {
  market_score : Z;
  total_checks : Z;
  state : market_state
}.

(** [analyze_market_trend] on the benchmark's latest bar *)
Definition analyze_market_trend (close sma_50 sma_200 : float)
    (vix : vix_history) : market_analysis :=
  let above_50 := gt close sma_50 in
  let above_200 := gt close sma_200 in
  let golden_cross := gt sma_50 sma_200 in
  let low_vix := low_vix_of vix in
  let checks := [above_50; above_200; golden_cross] in
  let checks :=
    match low_vix with
    | Some low_vix => checks ++ [low_vix]
    | None => checks
    end in
  let score := sum_bools checks in
  let total := Z.of_nat (length checks) in
  let state :=
    if ge (Z2float score) (Z2float total * 0.75) then BULL
    else if ge (Z2float score) (Z2float total * 0.5) then NEUTRAL
    else BEAR in
  {| market_score := score; total_checks := total; state := state |}.
End Signals.

(** ** technical_analysis.py: pivot points *)

Module Pivots.
Import Py.
Local Open Scope float_scope.

(** pandas' [Series.max()] and [Series.min()]: NaN entries are skipped; the
    result is NaN when nothing is left. *)
Definition series_max (xs : list float) : float :=
  match List.filter (fun x => negb (is_nan x)) xs with
  | [] => nan
  | first :: rest => Signals.py_max first rest
  end.

Definition series_min (xs : list float) : float :=
  match List.filter (fun x => negb (is_nan x)) xs with
  | [] => nan
  | first :: rest => Signals.py_min first rest
  end.

(** [col.iloc[i-window:i+window+1]] for [window <= i] *)
Definition window_slice (col : list float) (i window : nat) : list float :=
  firstn (2 * window + 1) (skipn (i - window) col).

(** One of the two loops of [find_pivot_points]: the entries, for [i] in
    [range(window, len(df) - window)], that equal the extreme of their
    window. *)
Definition pivot_loop (extreme : list float -> float) (col : list float)
    (window : nat) : list float :=
  flat_map
    (fun i =>
       let x := nth i col nan in
       if x =? extreme (window_slice col i window) then [x] else [])
    (seq window (length col - window - window)).

(** [sorted] on levels none of which is NaN (no pivot is: a NaN equals
    nothing): the stable ascending order, here by insertion. *)
Fixpoint insert_sorted (x : float) (sorted : list float) : list float :=
  match sorted with
  | [] => [x]
  | y :: rest => if lt x y then x :: sorted else y :: insert_sorted x rest
  end.

Definition sorted (levels : list float) : list float :=
  fold_left (fun acc x => insert_sorted x acc) levels [].

(** The loop of [cluster_levels]: a level joins when it is more than 1%
    above the last one kept. *)
Definition cluster_step (first : float) (clustered : list float)
    (level : float) : list float :=
  if gt (level / List.last clustered first) 1.01 then clustered ++ [level]
  else clustered.

(** [seq[-n:]] *)
Definition last_n {A} (n : nat) (l : list A) : list A :=
  skipn (length l - n) l.

Definition cluster_levels (levels : list float) : list float :=
  match sorted levels with
  | [] => []
  | first :: rest =>
      let clustered := fold_left (cluster_step first) rest [first] in
      last_n 5 clustered
  end.

(** Neighbours are more than 1% apart: the later over the earlier is
    above 1.01. *)
Definition spaced (l : list float) : Prop :=
  forall i a b, l !! i = Some a -> l !! S i = Some b ->
    gt (b / a) 1.01 = true.

(** [find_pivot_points] on the 'High' and 'Low' columns of a frame of
    [length high] rows. *)
Definition find_pivot_points (high low : list float) (window : nat) :
  list float * list float :=
  if (length high <? window * 2)%nat then ([], [])
  else
    let resistance_levels := pivot_loop series_max high window in
    let support_levels := pivot_loop series_min low window in
    (cluster_levels resistance_levels, cluster_levels support_levels).

(** [analyze_support_resistance] with the levels of [find_pivot_points]
    at [window=5]. *)
Definition analyze_support_resistance_df (current_price : float)
    (high low : list float) (resistance_60 support_60 : float) :
  Signals.sr_analysis :=
  let '(resistance_levels, support_levels) := find_pivot_points high low 5 in
  Signals.analyze_support_resistance current_price resistance_levels
    support_levels resistance_60 support_60.
End Pivots.

(** ** The thresholds of the recommendation, in points *)

Module Decision.
Import Py.
Local Open Scope float_scope.

(** What [_calculate_fundamental_score] makes of a number of points out of
    100, and how it falls with respect to the two thresholds of
    [analyze_stock_comprehensive]. *)
Definition pct_of_points (points : Z) : float :=
  Z2float points / Z2float 100 * 100.

Definition points_check (points : Z) : bool :=
  Bool.eqb (ge (pct_of_points points) 70) (70 <=? points)%Z
  && Bool.eqb (ge (pct_of_points points) 50) (50 <=? points)%Z.
End Decision.

(** ** technical_analysis.py: the market context of the complete analysis *)

Module Context.
Import Py.

Section Flow.
(** The provider's objects, the values of the result dictionary and the
    five analyses' results are opaque here. *)
Context {Frame Stock Value Analyses : Type}.

Variable get_yfinance_data : string -> Stock.

(** What [stock.history(period="6mo")] does for "SPY". *)
Variable spy_history : Batch.history (Frame := Frame).

Variable calculate_moving_averages : Frame -> Frame.

(** 'Close', 'SMA_50' and 'SMA_200' of the last row. *)
Variable latest_bar : Frame -> float * float * float.

Variable vix : Signals.vix_history.

(** [analyze_market_trend]: unpacking the bare [None] of [get_stock_data]
    raises; the pair [(None, None)] makes it return a bare [None]. *)
Definition analyze_market_trend :
  result (option (Signals.market_analysis * Frame)) :=
  match Batch.get_stock_data get_yfinance_data (fun _ => spy_history) "SPY" with
  | Batch.BareNone => Raise TypeError        (* spy_data,_ = None *)
  | Batch.Pair None _ => Ok None             (* if spy_data is None *)
  | Batch.Pair (Some spy_data) _ =>
      let spy_data := calculate_moving_averages spy_data in
      let '(close, sma_50, sma_200) := latest_bar spy_data in
      Ok (Some (Signals.analyze_market_trend close sma_50 sma_200 vix,
                spy_data))
  end.

(** The indicator columns and the five analyses, which may raise; then,
    from the market context on, the relative strength, the total and the
    result dictionary. *)
Variable analyses : Frame -> result Analyses.
Variable compile :
  Analyses -> Signals.market_analysis -> Frame -> Frame ->
  Batch.outcome (Value := Value).

(** [complete_technical_analysis] *)
Definition complete_technical_analysis (df : Frame) :
  Batch.outcome (Value := Value) :=
  match analyses df with
  | Raise e => Batch.Raised e
  | Ok a =>
      match analyze_market_trend with
      | Raise e => Batch.Raised e
      | Ok None => Batch.Raised TypeError    (* market_analysis, spy_df = None *)
      | Ok (Some (market_analysis, spy_df)) =>
          compile a market_analysis spy_df df
      end
  end.
End Flow.
End Context.

(** ** combined_analysis.py: the portfolio pipeline *)

Module Portfolio.
Import Py.
Local Open Scope float_scope.

(** What a synchronous caller holds once it has called an analysis:
    [None], the coroutine object that calling an [async def] without
    [await] returns, or a dictionary. *)
Inductive held (D : Type) : Type :=
| HeldNone
| Coroutine
| Dict (d : D).
Arguments HeldNone {D}.
Arguments Coroutine {D}.
Arguments Dict {D} d.

(** Truth value: [None] is false, a coroutine object true, a dictionary
    true when it is not empty. *)
Definition truthy {D} (nonempty : D -> bool) (v : held D) : bool :=
  match v with
  | HeldNone => false
  | Coroutine => true
  | Dict d => nonempty d
  end.

(** [v.get(...)]: only a dictionary has the method. *)
Definition as_dict {D} (v : held D) : result D :=
  match v with
  | Dict d => Ok d
  | _ => Raise AttributeError
  end.

(** [v['score_percentage']]: neither a coroutine object nor [None] is
    subscriptable. *)
Definition subscript {D} (v : held D) : result D :=
  match v with
  | Dict d => Ok d
  | _ => Raise TypeError
  end.

Definition nonempty_metrics (d : gmap string float) : bool :=
  negb (bool_decide (d = ∅)).

(** Lines 66-84 of [analyze_stock_comprehensive] on the two values it
    holds: the first [get] of [_calculate_fundamental_score] needs a
    dictionary, and so does [tech_result['score_percentage']]. *)
Definition score_and_recommend (fund_result : held (gmap string float))
    (tech_result : held Technical.technical_result) :
  result Combined.comprehensive :=
  (* fund_score = self._calculate_fundamental_score(fund_result) *)
  let! fund := as_dict fund_result in
  (* tech_score = tech_result['score_percentage'] *)
  let! tech := subscript tech_result in
  Ok (Combined.comprehensive_of fund tech).

Section Pipeline.
Context {Stock : Type}.

(** [yf.Ticker(ticker)], which may raise. *)
Variable get_yfinance_data : string -> result Stock.

(** [FundamentalAnalysis.analyze_single_stock]: [compute_yfinance_metrics]
    is an [async def] and is called without [await], so the call creates
    the coroutine object and runs nothing. *)
Definition analyze_single_stock (ticker : string) :
  held (gmap string float) :=
  match get_yfinance_data ticker with
  | Ok stock => Coroutine
  | Raise _ => HeldNone
  end.

(** [self.tech_analyzer.complete_technical_analysis(ticker)], an
    [async def] called without [await]. *)
Definition complete_technical_analysis_call (ticker : string) :
  held Technical.technical_result :=
  Coroutine.

(** [analyze_stock_comprehensive], up to the recommendation. *)
Definition analyze_stock_comprehensive (ticker : string) :
  result (option Combined.comprehensive) :=
  let fund_result := analyze_single_stock ticker in
  if negb (truthy nonempty_metrics fund_result) then Ok None
  else
    let tech_result := complete_technical_analysis_call ticker in
    if negb (truthy (fun _ => true) tech_result) then Ok None
    else
      let! results := score_and_recommend fund_result tech_result in
      Ok (Some results).

(** [all_results.sort(key=lambda x: x['combined_score'], reverse=True)]:
    stable, highest score first. *)
Fixpoint insert_desc (x : Combined.comprehensive)
    (l : list Combined.comprehensive) : list Combined.comprehensive :=
  match l with
  | [] => [x]
  | y :: rest =>
      if lt (Combined.combined_score y) (Combined.combined_score x)
      then x :: l
      else y :: insert_desc x rest
  end.

Definition sort_desc (l : list Combined.comprehensive) :
  list Combined.comprehensive :=
  fold_left (fun acc x => insert_desc x acc) l [].

(** The loop body of [analyze_portfolio]: a result is kept, [None] and
    exceptions are skipped. *)
Definition keep (all_results : list Combined.comprehensive)
    (ticker : string) : list Combined.comprehensive :=
  match analyze_stock_comprehensive ticker with
  | Ok (Some result) => all_results ++ [result]
  | Ok None => all_results
  | Raise _ => all_results
  end.

(** [analyze_portfolio] *)
Definition analyze_portfolio (ticker_list : list string) :
  list Combined.comprehensive :=
  let all_results := fold_left keep ticker_list [] in
  sort_desc all_results.
End Pipeline.

(** The labels of the recommendations. *)
Definition label (r : Combined.recommendation) : string :=
  match r with
  | Combined.STRONG_BUY => "🟢 STRONG BUY"
  | Combined.BUY_WITH_CAUTION => "🟡 BUY WITH CAUTION"
  | Combined.WAIT => "🟡 WAIT"
  | Combined.AVOID => "🔴 AVOID"
  end.

Definition same_recommendation (a b : Combined.recommendation) : bool :=
  match a, b with
  | Combined.STRONG_BUY, Combined.STRONG_BUY
  | Combined.BUY_WITH_CAUTION, Combined.BUY_WITH_CAUTION
  | Combined.WAIT, Combined.WAIT
  | Combined.AVOID, Combined.AVOID => true
  | _, _ => false
  end.

(** [sub in s] *)
Definition contains (sub s : string) : bool :=
  match String.index 0 sub s with
  | Some _ => true
  | None => false
  end.

(** [len([r for r in results if sub in r['recommendation']])] *)
Definition count_with (sub : string) (results : list Combined.comprehensive) :
  nat :=
  length
    (List.filter
       (fun r => contains sub (label (Combined.recommendation_of r)))
       results).

(** The four counts of [_print_portfolio_summary]: strong buy, buy with
    caution, wait, avoid. *)
Definition recommendation_breakdown (results : list Combined.comprehensive) :
  nat * nat * nat * nat :=
  (count_with "STRONG BUY" results, count_with "BUY WITH CAUTION" results,
   count_with "WAIT" results, count_with "AVOID" results).
End Portfolio.

Module ContextScenarios.
(** A provider whose benchmark history is empty, with analyses that all
    succeed. *)
Definition demo_market (spy : Batch.history (Frame := string))
    (df : string) : Batch.outcome (Value := Z) :=
  Context.complete_technical_analysis (Analyses := unit)
    (fun ticker : string => ticker) spy (fun df => df)
    (fun _ => (100, 95, 90)%float) Signals.VixEmpty
    (fun _ => Py.Ok tt)
    (fun _ _ _ df => Scenarios.demo_technical df) df.
End ContextScenarios.

(** ** technical_analysis.py: the RSI of one row *)

Module Indicators.
Import Py.
Local Open Scope float_scope.

(** The last two lines of [calculate_rsi] on one row: the rolling means of
    the gains and of the losses give [rs] and the RSI. *)
Definition rsi_of (gain loss : float) : float :=
  let rs := gain / loss in
  100 - (100 / (1 + rs)).
End Indicators.

(** ** fundamental_analysis.py: interest coverage, growth and PEG *)

Module Metrics.
Import Py Pandas.
Local Open Scope float_scope.

(** "Interest Coverage" in [compute_yfinance_metrics]: the latest
    operating income over the absolute latest interest expense, [inf]
    when that expense is zero. *)
Definition interest_coverage (income : DataFrame) : result float :=
  let num_years := nrows income in
  let! x := list_latest (get income "Interest Expense" (zeros num_years)) in
  let interest_exp := abs x in
  if ne interest_exp 0 then
    let! operating_income :=
      list_latest (get income "Operating Income" (zeros num_years)) in
    Ok (operating_income / interest_exp)
  else Ok infinity.

Section Growth.
Variable pow : float -> float -> float.

(** The window of "Earnings Growth 5yr CAGR" and "Sales Growth 5yr
    CAGR": the last five entries, or the last four when the first of the
    five is null. *)
Definition growth_window (series : list float) (num_years : nat) :
  result (list float) :=
  let values := tail_slice (min 5 num_years) series in
  let! first := iloc values 0 in
  if isna first then Ok (tail_slice (min 4 num_years) series)
  else Ok values.

(** The growth over the window: the CAGR from its first to its last entry
    over [len - 1] periods, 0 when there is no period. *)
Definition growth (series : list float) (num_years : nat) : result float :=
  let! values := growth_window series num_years in
  let periods := (Z.of_nat (length values) - 1)%Z in
  if (0 <? periods)%Z then
    let! first := iloc values 0 in
    let! latest := list_latest values in
    Ok (Fundamental.calculate_cagr pow first latest periods)
  else Ok 0.

(** 'Earnings Growth 5yr cagr' and 'Sales Growth 5yr cagr' *)
Definition earnings_growth (income : DataFrame) : result float :=
  growth (get income "Basic EPS" (zeros (nrows income))) (nrows income).

Definition sales_growth (income : DataFrame) : result float :=
  growth (get income "Total Revenue" (zeros (nrows income))) (nrows income).

(** "PEG": [pe / growth], [inf] when the growth is zero. *)
Definition peg (pe earnings_growth : float) : float :=
  if ne earnings_growth 0 then pe / earnings_growth else infinity.
End Growth.
End Metrics.

(** ** technical_analysis.py: rolling columns on a short history *)

Module History.
Import Py.
Local Open Scope float_scope.

(** The last row of [col.rolling(window=w).<aggregate>()]: pandas'
    [min_periods] is the window, so the row is NaN unless the frame has
    [w] rows and the last [w] entries are all numbers. *)
Definition rolling_last (aggregate : list float -> float) (window : nat)
    (col : list float) : float :=
  if (length col <? window)%nat then nan
  else
    let w := Pivots.last_n window col in
    if existsb is_nan w then nan else aggregate w.

Section Averages.
(** pandas' rolling mean of a full window of numbers. *)
Variable mean : list float -> float.

(** [analyze_moving_averages(calculate_moving_averages(df))] on the
    'Close' column; [None] on an empty frame. *)
Definition analyze_moving_averages_df (close : list float) :
  result (option Signals.ma_analysis) :=
  match last close with
  | None => Ok None
  | Some current_price =>
      let sma_20 := rolling_last mean 20 close in
      let sma_50 := rolling_last mean 50 close in
      let sma_200 := rolling_last mean 200 close in
      let! analysis :=
        Signals.analyze_moving_averages current_price sma_20 sma_50 sma_200 in
      Ok (Some analysis)
  end.
End Averages.

(** [analyze_support_resistance(calculate_support_resistance(df))] on the
    'Close', 'High' and 'Low' columns; [None] on an empty frame. *)
Definition analyze_support_resistance_frame (close high low : list float) :
  option Signals.sr_analysis :=
  match last close with
  | None => None
  | Some current_price =>
      let resistance_60 := rolling_last Pivots.series_max 60 high in
      let support_60 := rolling_last Pivots.series_min 60 low in
      Some (Pivots.analyze_support_resistance_df current_price high low
              resistance_60 support_60)
  end.
End History.

(** ** fundamental_analysis.py: margins and payout *)

Module Margins.
Import Py Pandas.
Local Open Scope float_scope.

(** [range(-min(3, num_years), 0)], as distances from the end of the
    series: [min(3, num_years)], ..., 1. *)
Definition last_years (num_years : nat) : list nat :=
  rev (seq 1 (min 3 num_years)).

(** [[(num.iloc[i] / den.iloc[i] * 100) for i in ... if den.iloc[i] != 0]] *)
Fixpoint ratios (num den : list float) (back : list nat) :
  result (list float) :=
  match back with
  | [] => Ok []
  | k :: back =>
      let! d := Signals.iloc_back den k in
      if ne d 0 then
        let! x := Signals.iloc_back num k in
        let! rest := ratios num den back in
        Ok (x / d * 100 :: rest)
      else ratios num den back
  end.

Record margins : Type := {
  NPM : float;
  DPR : float;
  Retention_Ratio : float
}.

Section Block.
Variable np_mean : list float -> float.

(** 'NPM', 'DPR' and 'Retention Ratio' in [compute_yfinance_metrics]. *)
Definition margins_block (income cashflow : DataFrame) : result margins :=
  let num_years := nrows income in
  let net_income := get income "Net Income" (zeros num_years) in
  let revenue := get income "Total Revenue" (zeros num_years) in
  let! npm_3yr := ratios net_income revenue (last_years num_years) in
  let npm := Fundamental.get_means np_mean (map Some npm_3yr) 2 in
  let dividends_paid :=
    map abs (get cashflow "Cash Dividends Paid" (zeros num_years)) in
  let! dpr_3yr := ratios dividends_paid net_income (last_years num_years) in
  let dpr := Fundamental.get_means np_mean (map Some dpr_3yr) 2 in
  Ok {| NPM := npm; DPR := dpr;
        Retention_Ratio := (1 - (dpr / 100)) * 100 |}.
End Block.
End Margins.

Module MarginScenarios.
Local Open Scope float_scope.

(** The cash-flow statement of one period. *)
Definition cashflow_one_year : Pandas.DataFrame :=
  {| Pandas.nrows := 1;
     Pandas.columns :=
       list_to_map
         [("Cash Dividends Paid", [(-30)%float]);
          ("Operating Cash Flow", [120%float])] |}.
End MarginScenarios.

(** * Properties *)

Import Scenarios.

(** ** The order of binary64 numbers *)

Section FloatOrder.
Import Py.
Local Open Scope float_scope.

Lemma SFcompare_antisym (a b : spec_float) :
  SFcompare b a = option_map CompOpp (SFcompare a b).
Proof.
  destruct a as [sa|sa| |sa ma ea], b as [sb|sb| |sb mb eb]; simpl;
    try reflexivity; try (destruct sa; reflexivity);
    try (destruct sb; reflexivity);
    try (destruct sa, sb; reflexivity).
  destruct sa, sb; simpl; try reflexivity;
    rewrite (Z.compare_antisym ea eb);
    destruct (ea ?= eb)%Z eqn:E; simpl; try reflexivity;
    rewrite (Pos.compare_cont_antisym ma mb Eq); simpl;
    destruct (Pos.compare_cont Eq ma mb); reflexivity.
Qed.

Lemma cmp_lex_lt_trans e1 e2 e3 (m1 m2 m3 : positive) :
  match (e1 ?= e2)%Z with
  | Lt => Lt | Gt => Gt | Eq => Pos.compare_cont Eq m1 m2
  end = Lt ->
  match (e2 ?= e3)%Z with
  | Lt => Lt | Gt => Gt | Eq => Pos.compare_cont Eq m2 m3
  end <> Gt ->
  match (e1 ?= e3)%Z with
  | Lt => Lt | Gt => Gt | Eq => Pos.compare_cont Eq m1 m3
  end = Lt.
Proof.
  change (Pos.compare_cont Eq) with Pos.compare.
  destruct (Z.compare_spec e1 e2), (Z.compare_spec e2 e3),
    (Z.compare_spec e1 e3); try lia; try congruence; subst;
    destruct (Pos.compare_spec m1 m2), (Pos.compare_spec m2 m3),
      (Pos.compare_spec m1 m3); try lia; try congruence.
Qed.

Lemma cmp_lex_gt_trans e1 e2 e3 (m1 m2 m3 : positive) :
  match (e1 ?= e2)%Z with
  | Lt => Gt | Gt => Lt | Eq => CompOpp (Pos.compare_cont Eq m1 m2)
  end = Lt ->
  match (e2 ?= e3)%Z with
  | Lt => Gt | Gt => Lt | Eq => CompOpp (Pos.compare_cont Eq m2 m3)
  end <> Gt ->
  match (e1 ?= e3)%Z with
  | Lt => Gt | Gt => Lt | Eq => CompOpp (Pos.compare_cont Eq m1 m3)
  end = Lt.
Proof.
  change (Pos.compare_cont Eq) with Pos.compare.
  destruct (Z.compare_spec e1 e2), (Z.compare_spec e2 e3),
    (Z.compare_spec e1 e3); try lia; try congruence; subst;
    destruct (Pos.compare_spec m1 m2), (Pos.compare_spec m2 m3),
      (Pos.compare_spec m1 m3); simpl; try lia; try congruence.
Qed.

(** The comparison is transitive: a < b and b <= c give a < c. *)
Lemma SFcompare_lt_le_trans (a b c : spec_float) :
  SFcompare a b = Some Lt ->
  (SFcompare b c = Some Lt \/ SFcompare b c = Some Eq) ->
  SFcompare a c = Some Lt.
Proof.
  intros H1 H2.
  assert (H2' : exists r, SFcompare b c = Some r /\ r <> Gt).
  { destruct H2 as [-> | ->]; eexists; split; eauto; discriminate. }
  clear H2. destruct H2' as (r & H2 & Hr).
  destruct a as [sa|sa| |sa ma ea], b as [sb|sb| |sb mb eb],
    c as [sc|sc| |sc mc ec]; simpl in *; try discriminate;
    repeat match goal with s : bool |- _ => destruct s end;
    simpl in *; try discriminate; try reflexivity;
    try (injection H2 as <-; congruence).
  - injection H1 as H1. injection H2 as <-. f_equal.
    eapply cmp_lex_gt_trans; eauto.
  - injection H1 as H1. injection H2 as <-. f_equal.
    eapply cmp_lex_lt_trans; eauto.
Qed.

Lemma fcmp_antisym x y : fcmp y x = option_map CompOpp (fcmp x y).
Proof. apply SFcompare_antisym. Qed.

Lemma ltb_fcmp x y : (x <? y) = true <-> fcmp x y = Some Lt.
Proof.
  rewrite FloatAxioms.ltb_spec. unfold SFltb, fcmp.
  destruct (SFcompare _ _) as [[]|]; split; congruence.
Qed.

Lemma leb_fcmp x y :
  (x <=? y) = true <-> fcmp x y = Some Lt \/ fcmp x y = Some Eq.
Proof.
  rewrite FloatAxioms.leb_spec. unfold SFleb, fcmp.
  destruct (SFcompare _ _) as [[]|]; split; intuition congruence.
Qed.

Lemma is_nan_Prim2SF x : is_nan x = true <-> Prim2SF x = S754_nan.
Proof.
  split.
  - intros H. unfold Prim2SF. now rewrite H.
  - intros H. unfold is_nan. rewrite FloatAxioms.eqb_spec, H. reflexivity.
Qed.

Lemma fcmp_None x y :
  fcmp x y = None <-> is_nan x = true \/ is_nan y = true.
Proof.
  rewrite !is_nan_Prim2SF. unfold fcmp.
  destruct (Prim2SF x) as [sa|sa| |sa ma ea], (Prim2SF y) as [sb|sb| |sb mb eb];
    simpl; split; intros H; try discriminate; auto;
    destruct H; discriminate.
Qed.

(** A comparison that holds has no NaN on either side. *)
Lemma leb_not_nan x y :
  (x <=? y) = true -> is_nan x = false /\ is_nan y = false.
Proof.
  intros H. apply leb_fcmp in H.
  destruct (is_nan x) eqn:Hx, (is_nan y) eqn:Hy; auto;
    assert (Hn : fcmp x y = None) by (apply fcmp_None; auto);
    rewrite Hn in H; destruct H; discriminate.
Qed.

Lemma ltb_not_nan x y :
  (x <? y) = true -> is_nan x = false /\ is_nan y = false.
Proof.
  intros H. apply ltb_fcmp in H.
  destruct (is_nan x) eqn:Hx, (is_nan y) eqn:Hy; auto;
    assert (Hn : fcmp x y = None) by (apply fcmp_None; auto);
    rewrite Hn in H; discriminate.
Qed.

(** [x < y] excludes [y <= x]. *)
Lemma ltb_leb_false x y : (x <? y) = true -> (y <=? x) = false.
Proof.
  intros H. apply ltb_fcmp in H.
  destruct (y <=? x) eqn:E; [|reflexivity].
  apply leb_fcmp in E. rewrite (fcmp_antisym x y), H in E.
  destruct E; discriminate.
Qed.

(** Two numbers are ordered one way or the other. *)
Lemma leb_false_ltb x y :
  is_nan x = false -> is_nan y = false ->
  (x <=? y) = false -> (y <? x) = true.
Proof.
  intros Hx Hy H. apply ltb_fcmp. rewrite (fcmp_antisym x y).
  destruct (fcmp x y) as [[]|] eqn:E; simpl.
  - assert (T : (x <=? y) = true) by (apply leb_fcmp; auto). congruence.
  - assert (T : (x <=? y) = true) by (apply leb_fcmp; auto). congruence.
  - reflexivity.
  - apply fcmp_None in E. destruct E; congruence.
Qed.

Lemma ltb_leb_trans x y z :
  (x <? y) = true -> (y <=? z) = true -> (x <? z) = true.
Proof.
  rewrite !ltb_fcmp, leb_fcmp. apply SFcompare_lt_le_trans.
Qed.

Lemma leb_false_iff x y :
  is_nan x = false -> is_nan y = false ->
  (x <=? y) = false <-> (y <? x) = true.
Proof.
  intros Hx Hy. split.
  - now apply leb_false_ltb.
  - apply ltb_leb_false.
Qed.
End FloatOrder.

(** ** Rounding and the sign of a difference *)

Section Subtraction.
Import Py.
Local Open Scope Z_scope.

Lemma digits2_pos_size p : digits2_pos p = Pos.size p.
Proof. induction p; simpl; congruence. Qed.

Lemma digits2_pos_bounds p :
  2 ^ (Zpos (digits2_pos p) - 1) <= Zpos p < 2 ^ Zpos (digits2_pos p).
Proof.
  rewrite digits2_pos_size. split.
  - pose proof (Pos.size_le p) as H.
    assert (H' : 2 ^ Zpos (Pos.size p) <= 2 * Zpos p).
    { change 2 with (Zpos 2) at 1. rewrite <- Pos2Z.inj_pow.
      change (2 * Zpos p) with (Zpos p~0). now apply Pos2Z.pos_le_pos. }
    replace (Zpos (Pos.size p)) with (Z.succ (Zpos (Pos.size p) - 1)) in H' by lia.
    rewrite Z.pow_succ_r in H' by lia. lia.
  - pose proof (Pos.size_gt p) as H.
    change 2 with (Zpos 2). rewrite <- Pos2Z.inj_pow. now apply Pos2Z.pos_lt_pos.
Qed.

Lemma iter_xO_pow m d : Zpos (Pos.iter xO m d) = Zpos m * 2 ^ Zpos d.
Proof.
  induction d using Pos.peano_ind.
  - simpl. lia.
  - rewrite Pos.iter_succ, Pos2Z.inj_succ, Z.pow_succ_r by lia.
    rewrite Pos2Z.inj_xO, IHd. lia.
Qed.

Lemma shl_align_fst m e ez :
  ez <= e -> Zpos (fst (shl_align m e ez)) = Zpos m * 2 ^ (e - ez).
Proof.
  intros H. unfold shl_align.
  destruct (ez - e) as [|d|d] eqn:E; cbn [fst].
  - replace (e - ez) with 0 by lia. rewrite Z.pow_0_r. lia.
  - pose proof (Pos2Z.is_pos d). lia.
  - rewrite iter_xO_pow. rewrite <- Pos2Z.opp_pos in E.
    f_equal. f_equal. lia.
Qed.

Lemma valid_finite s m e :
  valid_binary (S754_finite s m e) = true ->
  -1074 <= e /\ Zpos (digits2_pos m) <= 53
  /\ (-1074 < e -> Zpos (digits2_pos m) = 53).
Proof.
  unfold SpecFloat.valid_binary, bounded, canonical_mantissa, fexp, SpecFloat.emin, prec, emax.
  intros H. apply andb_prop in H as [H _]. apply Z.eqb_eq in H. lia.
Qed.


Lemma SFcompare_aligned sx mx ex sy my ey :
  valid_binary (S754_finite sx mx ex) = true ->
  valid_binary (S754_finite sy my ey) = true ->
  SFcompare (S754_finite sx mx ex) (S754_finite sy my ey)
  = Some (aligned sx mx ex (Z.min ex ey) ?= aligned sy my ey (Z.min ex ey)).
Proof.
  intros Vx Vy. apply valid_finite in Vx, Vy.
  destruct Vx as (Ex & Dx & Nx), Vy as (Ey & Dy & Ny).
  pose proof (digits2_pos_bounds mx) as Bx.
  pose proof (digits2_pos_bounds my) as By.
  unfold aligned. rewrite !shl_align_fst by lia.
  assert (Px : 0 < 2 ^ (ex - Z.min ex ey)) by (apply Z.pow_pos_nonneg; lia).
  assert (Py : 0 < 2 ^ (ey - Z.min ex ey)) by (apply Z.pow_pos_nonneg; lia).
  cbn [SFcompare]. f_equal.
  destruct (Z.compare_spec ex ey) as [E|E|E].
  - subst ey. rewrite Z.min_id, Z.sub_diag, Z.pow_0_r, !Z.mul_1_r.
    change (Pos.compare_cont Eq mx my) with (Z.pos mx ?= Z.pos my).
    destruct sx, sy; cbn [cond_Zopp]; reflexivity.
  - rewrite Z.min_l, Z.sub_diag, Z.pow_0_r, Z.mul_1_r by lia.
    assert (D : Zpos (digits2_pos my) = 53) by lia. rewrite D in By.
    assert (Q : 2 <= 2 ^ (ey - ex)).
    { change 2 with (2 ^ 1) at 1. apply Z.pow_le_mono_r; lia. }
    assert (L : Zpos mx < Zpos my * 2 ^ (ey - ex)).
    { assert (Zpos mx < 2 ^ 53).
      { eapply Z.lt_le_trans; [apply Bx|]. apply Z.pow_le_mono_r; lia. }
      change (53 - 1) with 52 in By.
      assert (2 ^ 53 = 2 * 2 ^ 52) by reflexivity. nia. }
    destruct sx, sy; cbn [cond_Zopp]; symmetry;
      first [apply Z.compare_lt_iff; lia | apply Z.compare_gt_iff; lia].
  - rewrite Z.min_r, Z.sub_diag, Z.pow_0_r, Z.mul_1_r by lia.
    assert (D : Zpos (digits2_pos mx) = 53) by lia. rewrite D in Bx.
    assert (Q : 2 <= 2 ^ (ex - ey)).
    { change 2 with (2 ^ 1) at 1. apply Z.pow_le_mono_r; lia. }
    assert (L : Zpos my < Zpos mx * 2 ^ (ex - ey)).
    { assert (Zpos my < 2 ^ 53).
      { eapply Z.lt_le_trans; [apply By|]. apply Z.pow_le_mono_r; lia. }
      change (53 - 1) with 52 in Bx.
      assert (2 ^ 53 = 2 * 2 ^ 52) by reflexivity. nia. }
    destruct sx, sy; cbn [cond_Zopp]; symmetry;
      first [apply Z.compare_lt_iff; lia | apply Z.compare_gt_iff; lia].
Qed.

(** ** Rounding keeps the sign *)

Lemma shr_m_shr_1 mrs :
  0 <= shr_m mrs -> shr_m (shr_1 mrs) = shr_m mrs / 2.
Proof.
  destruct mrs as [m r s]. cbn [shr_m]. intros H.
  rewrite <- Z.div2_div.
  destruct m as [|[p|p|]|p]; try reflexivity. lia.
Qed.

Lemma pow2_xO p : 2 ^ Zpos p~0 = 2 ^ Zpos p * 2 ^ Zpos p.
Proof.
  replace (Zpos p~0) with (Zpos p + Zpos p) by lia.
  apply Z.pow_add_r; lia.
Qed.

Lemma pow2_xI p : 2 ^ Zpos p~1 = 2 * (2 ^ Zpos p * 2 ^ Zpos p).
Proof.
  replace (Zpos p~1) with (Z.succ (Zpos p~0)) by lia.
  rewrite Z.pow_succ_r, pow2_xO by lia. reflexivity.
Qed.

Lemma shr_m_iter_pos p :
  forall mrs, 0 <= shr_m mrs ->
    shr_m (SpecFloat.iter_pos shr_1 p mrs) = shr_m mrs / 2 ^ Zpos p.
Proof.
  induction p as [p IH|p IH|]; intros mrs H; cbn [SpecFloat.iter_pos].
  - assert (H1 : 0 <= shr_m (shr_1 mrs))
      by (rewrite shr_m_shr_1 by trivial; apply Z.div_pos; lia).
    assert (P : 0 < 2 ^ Zpos p) by (apply Z.pow_pos_nonneg; lia).
    assert (H2 : 0 <= shr_m (SpecFloat.iter_pos shr_1 p (shr_1 mrs)))
      by (rewrite IH by trivial; apply Z.div_pos; lia).
    rewrite IH, IH, shr_m_shr_1 by trivial.
    rewrite !Z.div_div by lia. f_equal.
    rewrite pow2_xI. lia.
  - assert (P : 0 < 2 ^ Zpos p) by (apply Z.pow_pos_nonneg; lia).
    assert (H2 : 0 <= shr_m (SpecFloat.iter_pos shr_1 p mrs))
      by (rewrite IH by trivial; apply Z.div_pos; lia).
    rewrite IH, IH by trivial.
    rewrite !Z.div_div by lia. f_equal.
    rewrite pow2_xO. lia.
  - rewrite shr_m_shr_1 by trivial. reflexivity.
Qed.

Lemma shr_m_of_loc m l : shr_m (shr_record_of_loc m l) = m.
Proof. destruct l as [|[]]; reflexivity. Qed.

(** Shifting a positive mantissa to its format exponent leaves it positive,
    when the exponent is not below the least one. *)
Lemma shr_fexp_pos m e l :
  0 < m -> -1074 <= e ->
  0 < shr_m (fst (shr_fexp prec emax m e l))
  /\ -1074 <= snd (shr_fexp prec emax m e l).
Proof.
  intros Hm He. destruct m as [|p|p]; try lia.
  unfold shr_fexp, shr. cbn [Zdigits2].
  pose proof (digits2_pos_bounds p) as B.
  destruct (fexp prec emax (Zpos (digits2_pos p) + e) - e) as [|q|q] eqn:E;
    cbn [fst snd]; rewrite ?shr_m_of_loc; try (split; lia).
  unfold fexp, SpecFloat.emin, prec, emax in E.
  rewrite shr_m_iter_pos by (rewrite shr_m_of_loc; lia).
  rewrite shr_m_of_loc. split; [|lia].
  apply Z.div_str_pos. split; [apply Z.pow_pos_nonneg; lia|].
  eapply Z.le_trans; [|apply B].
  apply Z.pow_le_mono_r; lia.
Qed.

Lemma round_nearest_even_pos m l : 0 < m -> 0 < round_nearest_even m l.
Proof.
  intros H. unfold round_nearest_even.
  destruct l as [|[]]; try lia. destruct (Z.even m); lia.
Qed.



Lemma binary_round_aux_weakly_signed s m e l :
  weakly_signed s (binary_round_aux prec emax s m e l).
Proof.
  unfold binary_round_aux, weakly_signed, signed.
  destruct (shr_fexp prec emax m e l) as [mrs' e'].
  destruct (shr_fexp prec emax _ e' loc_Exact) as [mrs'' e''].
  destruct (shr_m mrs'') as [|p|p]; auto.
  destruct (e'' <=? emax - prec); eauto.
Qed.

Lemma binary_round_aux_signed s m e l :
  0 < m -> -1074 <= e -> signed s (binary_round_aux prec emax s m e l).
Proof.
  intros Hm He. unfold binary_round_aux, signed.
  pose proof (shr_fexp_pos m e l Hm He) as [H1 H1'].
  destruct (shr_fexp prec emax m e l) as [mrs' e']. cbn [fst snd] in *.
  pose proof (shr_fexp_pos _ e' loc_Exact
                (round_nearest_even_pos _ (loc_of_shr_record mrs') H1) H1')
    as [H2 _].
  destruct (shr_fexp prec emax _ e' loc_Exact) as [mrs'' e''].
  cbn [fst] in H2.
  destruct (shr_m mrs'') as [|p|p]; try lia.
  destruct (e'' <=? emax - prec); eauto.
Qed.

Lemma binary_round_signed s m e :
  -1074 <= e -> signed s (binary_round prec emax s m e).
Proof.
  intros He. unfold binary_round.
  destruct (shl_align m e _) as [mz ez] eqn:E.
  apply binary_round_aux_signed; [lia|].
  unfold shl_align in E.
  destruct (fexp prec emax (Zpos (digits2_pos m) + e) - e) as [|q|q] eqn:F;
    injection E as <- <-; trivial.
  unfold fexp, SpecFloat.emin, prec, emax. lia.
Qed.

Lemma binary_round_weakly_signed s m e :
  weakly_signed s (binary_round prec emax s m e).
Proof.
  unfold binary_round. destruct (shl_align m e _) as [mz ez].
  apply binary_round_aux_weakly_signed.
Qed.

(** ** The sign of a difference *)

Lemma signed_true_le_zero r :
  weakly_signed true r -> r <> S754_nan ->
  SFleb r (S754_zero false) = true.
Proof.
  intros [[(m & e & ->)| ->]|[-> | ->]] H; try reflexivity. congruence.
Qed.

Lemma SF64sub_finite sx mx ex sy my ey :
  SF64sub (S754_finite sx mx ex) (S754_finite sy my ey)
  = binary_normalize prec emax
      (aligned sx mx ex (Z.min ex ey) - aligned sy my ey (Z.min ex ey))
      (Z.min ex ey) false.
Proof. reflexivity. Qed.

(** [x <= y] makes [x - y <= 0], unless the difference is NaN. *)
Lemma SF64sub_le_zero x y :
  valid_binary x = true -> valid_binary y = true ->
  SFleb x y = true ->
  SF64sub x y <> S754_nan ->
  SFleb (SF64sub x y) (S754_zero false) = true.
Proof.
  intros Vx Vy. unfold SFleb at 1.
  destruct x as [sx|sx| |sx mx ex], y as [sy|sy| |sy my ey];
    try (cbn; discriminate);
    try solve [destruct sx, sy; cbn; intros; congruence].
  rewrite SFcompare_aligned, SF64sub_finite by trivial.
    set (ax := aligned sx mx ex _). set (ay := aligned sy my ey _).
  destruct (Z.compare_spec ax ay) as [E|E|E]; try discriminate; intros _.
  - rewrite E, Z.sub_diag. reflexivity.
  - destruct (ax - ay) as [|p|p] eqn:D; try lia.
    cbn [binary_normalize]. apply signed_true_le_zero.
    apply binary_round_weakly_signed.
Qed.

(** [y < x] makes [x - y] a positive number or [+infinity]. *)
Lemma SF64sub_positive x y :
  valid_binary x = true -> valid_binary y = true ->
  SFltb y x = true ->
  signed false (SF64sub x y).
Proof.
  intros Vx Vy. unfold SFltb. rewrite (SFcompare_antisym x y).
  destruct x as [sx|sx| |sx mx ex], y as [sy|sy| |sy my ey];
    try (cbn; discriminate);
    try solve [destruct sx, sy; cbn; try discriminate; intros _;
               unfold signed; eauto].
  rewrite SFcompare_aligned, SF64sub_finite by trivial.
  set (ax := aligned sx mx ex _). set (ay := aligned sy my ey _).
  apply valid_finite in Vx, Vy.
  destruct (Z.compare_spec ax ay) as [E|E|E]; try discriminate; intros _.
  destruct (ax - ay) as [|p|p] eqn:D; try lia.
  cbn [binary_normalize]. apply binary_round_signed. lia.
Qed.

Local Open Scope float_scope.

(** [entry <= stop] makes [entry - stop <= 0], unless the difference is
    NaN (two infinities of one sign). *)
Lemma sub_le_zero (x y : float) :
  (x <=? y) = true -> is_nan (x - y) = false -> (x - y <=? 0) = true.
Proof.
  intros Hle Hn. rewrite FloatAxioms.leb_spec in Hle |- *.
  rewrite FloatAxioms.sub_spec.
  change (Prim2SF 0) with (S754_zero false).
  apply SF64sub_le_zero; trivial; try apply FloatAxioms.Prim2SF_valid.
  rewrite <- FloatAxioms.sub_spec. intros H.
  apply is_nan_Prim2SF in H. congruence.
Qed.

(** [stop < entry] makes [entry - stop] a positive number or [+infinity]. *)
Lemma sub_positive (x y : float) :
  (y <? x) = true -> signed false (Prim2SF (x - y)).
Proof.
  intros Hlt. rewrite FloatAxioms.ltb_spec in Hlt.
  rewrite FloatAxioms.sub_spec.
  apply SF64sub_positive; trivial; apply FloatAxioms.Prim2SF_valid.
Qed.

Lemma signed_false_facts (r : float) :
  signed false (Prim2SF r) ->
  (r <=? 0) = false /\ (r =? 0) = false /\ is_nan r = false.
Proof.
  intros H.
  rewrite FloatAxioms.leb_spec, FloatAxioms.eqb_spec.
  change (Prim2SF 0) with (S754_zero false).
  assert (N : is_nan r = false).
  { destruct (is_nan r) eqn:E; [|reflexivity].
    apply is_nan_Prim2SF in E. rewrite E in H.
    destruct H as [(m & e & H)|H]; discriminate. }
  destruct H as [(m & e & ->)| ->]; auto.
Qed.
End Subtraction.

(** ** C8: the RSI zones *)

Section RSI.
Import Py Technical.
Local Open Scope float_scope.

Lemma rsi_signal_cases (rsi : float) :
  rsi_signal_of (analyze_rsi rsi) =
    if le 45 rsi && le rsi 60 then RSI_IDEAL_ZONE
    else if le 40 rsi && le rsi 70 then RSI_ACCEPTABLE_ZONE
    else if gt rsi 70 then RSI_OVERBOUGHT
    else if lt rsi 40 then RSI_OVERSOLD
    else RSI_NEUTRAL.
Proof. reflexivity. Qed.

(** C8. [analyze_rsi] gives the ideal-zone signal exactly when
    45 <= RSI <= 60, both bounds included, and the acceptable-zone signal
    exactly when 40 <= RSI <= 70 with RSI outside [45, 60]; RSI = 45 and
    RSI = 60 are ideal, RSI = 44.999 is acceptable. *)
Theorem analyze_rsi_zones (rsi : float) :
  (rsi_signal_of (analyze_rsi rsi) = RSI_IDEAL_ZONE
   <-> le 45 rsi = true /\ le rsi 60 = true)
  /\ (rsi_signal_of (analyze_rsi rsi) = RSI_ACCEPTABLE_ZONE
      <-> (le 40 rsi = true /\ le rsi 70 = true)
          /\ ~ (le 45 rsi = true /\ le rsi 60 = true))
  /\ rsi_signal_of (analyze_rsi 45) = RSI_IDEAL_ZONE
  /\ rsi_signal_of (analyze_rsi 60) = RSI_IDEAL_ZONE
  /\ rsi_signal_of (analyze_rsi 44.999) = RSI_ACCEPTABLE_ZONE.
Proof.
  rewrite rsi_signal_cases.
  repeat split; try reflexivity;
    destruct (le 45 rsi), (le rsi 60), (le 40 rsi), (le rsi 70),
      (gt rsi 70), (lt rsi 40); simpl;
    intuition (try discriminate; try congruence).
Qed.
End RSI.

(** ** C1: the recommendation of [analyze_stock_comprehensive] *)

Section Recommendation.
Import Py Combined.
Local Open Scope float_scope.

Lemma recommend_fst (f t : float) :
  fst (recommend f t) =
    if ge f 70 && ge t 67 then STRONG_BUY
    else if ge f 70 && ge t 50 then BUY_WITH_CAUTION
    else if ge f 50 && ge t 67 then WAIT
    else AVOID.
Proof.
  unfold recommend.
  destruct (ge f 70), (ge t 67), (ge t 50), (ge f 50); reflexivity.
Qed.

(** C1. With fundamental score [f] and technical score [t], the
    recommendation is "strong buy" when f >= 70 and t >= 67, "buy with
    caution" when f >= 70 and 50 <= t < 67, "wait" when 50 <= f < 70 and
    t >= 67, and "avoid" in every other case; (75, 70), (75, 55), (55, 70)
    and (40, 40) give the four labels in that order. *)
Theorem recommend_thresholds (f t : float) :
  (ge f 70 = true -> ge t 67 = true ->
   fst (recommend f t) = STRONG_BUY)
  /\ (ge f 70 = true -> ge t 50 = true -> lt t 67 = true ->
      fst (recommend f t) = BUY_WITH_CAUTION)
  /\ (ge f 50 = true -> lt f 70 = true -> ge t 67 = true ->
      fst (recommend f t) = WAIT)
  /\ (~ (ge f 70 = true /\ ge t 67 = true) ->
      ~ (ge f 70 = true /\ ge t 50 = true /\ lt t 67 = true) ->
      ~ (ge f 50 = true /\ lt f 70 = true /\ ge t 67 = true) ->
      fst (recommend f t) = AVOID)
  /\ fst (recommend 75 70) = STRONG_BUY
  /\ fst (recommend 75 55) = BUY_WITH_CAUTION
  /\ fst (recommend 55 70) = WAIT
  /\ fst (recommend 40 40) = AVOID.
Proof.
  rewrite recommend_fst. unfold ge, lt.
  repeat split; try reflexivity.
  - intros -> ->. reflexivity.
  - intros -> Ht50 Ht67. apply ltb_leb_false in Ht67.
    rewrite Ht67, Ht50. reflexivity.
  - intros Hf50 Hf70 ->. apply ltb_leb_false in Hf70.
    rewrite Hf70, Hf50. reflexivity.
  - intros H1 H2 H3.
    destruct (70 <=? f) eqn:Hf70; simpl.
    + destruct (67 <=? t) eqn:Ht67; [tauto|].
      destruct (50 <=? t) eqn:Ht50; simpl.
      * exfalso. apply H2. repeat split.
        apply leb_false_ltb; trivial.
        apply (leb_not_nan _ _ Ht50).
      * destruct (50 <=? f); reflexivity.
    + destruct (50 <=? f) eqn:Hf50; simpl; [|reflexivity].
      destruct (67 <=? t) eqn:Ht67; [|reflexivity].
      exfalso. apply H3. repeat split.
      apply leb_false_ltb; trivial.
      apply (leb_not_nan _ _ Hf50).
Qed.
End Recommendation.

(** ** C4: the aggregate technical score *)

Section Aggregate.
Import Py Technical Checks.
Local Open Scope float_scope.

Lemma sum_bools_3 (a b c : bool) : (0 <= sum_bools [a; b; c] <= 3)%Z.
Proof. destruct a, b, c; cbn; lia. Qed.

Lemma analyze_moving_averages_score_range d :
  (0 <= analyze_moving_averages_score d <= 3)%Z.
Proof. apply sum_bools_3. Qed.

Lemma analyze_macd_score_range d : (0 <= analyze_macd_score d <= 3)%Z.
Proof. apply sum_bools_3. Qed.

Lemma analyze_rsi_score_range rsi : (0 <= rsi_score (analyze_rsi rsi) <= 3)%Z.
Proof. apply sum_bools_3. Qed.

Lemma analyze_vwma_score_range d : (0 <= analyze_vwma_score d <= 3)%Z.
Proof. apply sum_bools_3. Qed.

Lemma analyze_support_resistance_score_range d :
  (0 <= analyze_support_resistance_score d <= 3)%Z.
Proof.
  unfold analyze_support_resistance_score.
  repeat match goal with |- context [if ?b then _ else _] => destruct b end;
    lia.
Qed.

(** The signal of a percentage that is a number. *)
Lemma signal_of_pct_spec (pct : float) :
  is_nan pct = false ->
  (signal_of_pct pct = STRONG_BUY <-> ge pct 67 = true)
  /\ (signal_of_pct pct = WAIT <-> ge pct 50 = true /\ lt pct 67 = true)
  /\ (signal_of_pct pct = AVOID <-> lt pct 50 = true).
Proof.
  intros Hn. unfold signal_of_pct, ge, lt.
  destruct (67 <=? pct) eqn:H67.
  - split; [tauto|]. split; split; try discriminate.
    + intros [_ H]. apply ltb_leb_false in H. congruence.
    + intros H. apply (ltb_leb_trans _ _ 67) in H; [|reflexivity].
      apply ltb_leb_false in H. congruence.
  - pose proof (leb_false_ltb 67 pct eq_refl Hn H67) as L67.
    destruct (50 <=? pct) eqn:H50.
    + split; [split; discriminate|]. split; [tauto|].
      split; [discriminate|].
      intros H. apply ltb_leb_false in H. congruence.
    + pose proof (leb_false_ltb 50 pct eq_refl Hn H50) as L50.
      split; [split; discriminate|]. split; [|tauto].
      split; [discriminate|]. intros [H _]. discriminate.
Qed.

(** A property checked on every integer of a range holds on the range. *)
Lemma forallb_Z_range (f : Z -> bool) (n : nat) :
  forallb f (List.map Z.of_nat (seq 0 n)) = true ->
  forall z, (0 <= z < Z.of_nat n)%Z -> f z = true.
Proof.
  intros H z Hz. rewrite forallb_forall in H. apply H.
  apply in_map_iff. exists (Z.to_nat z). split; [lia|].
  apply in_seq. lia.
Qed.


Lemma total_check_holds total :
  (0 <= total <= 15)%Z -> total_check total = true.
Proof.
  intros H. apply (forallb_Z_range total_check 16); [|lia].
  vm_compute. reflexivity.
Qed.

Lemma total_score_range d :
  (0 <= total_score (complete_technical_analysis d) <= 15)%Z.
Proof.
  pose proof (analyze_moving_averages_score_range d).
  pose proof (analyze_macd_score_range d).
  pose proof (analyze_rsi_score_range (RSI d)).
  pose proof (analyze_vwma_score_range d).
  pose proof (analyze_support_resistance_score_range d).
  cbn [total_score complete_technical_analysis]. lia.
Qed.

(** C4. In [complete_technical_analysis] the total is the sum of the five
    indicator scores, each between 0 and 3, hence between 0 and 15; the
    percentage is total / 15 * 100; the overall signal is "strong buy"
    (enter position) exactly when pct >= 67, "wait" (need more
    confirmation) exactly when 50 <= pct < 67 and "avoid" (poor setup)
    exactly when pct < 50: totals 11 to 15, 8 to 10 and 0 to 7.  The two
    cut points belong to the upper class: 67 is "strong buy", 50 is
    "wait".  The five scores are those of the five analyses of the frame:
    moving averages, MACD, RSI, VWMA and support/resistance. *)
Theorem complete_technical_analysis_aggregate (d : indicators) :
  let r := complete_technical_analysis d in
  let pct := score_percentage r in
  (ma_score r = analyze_moving_averages_score d
   /\ macd_score r = analyze_macd_score d
   /\ rsi_result r = analyze_rsi (RSI d)
   /\ vwma_score r = analyze_vwma_score d
   /\ sr_score r = analyze_support_resistance_score d)
  /\ (total_score r
      = analyze_moving_averages_score d + analyze_macd_score d
        + rsi_score (analyze_rsi (RSI d)) + analyze_vwma_score d
        + analyze_support_resistance_score d)%Z
  /\ ((0 <= ma_score r <= 3) /\ (0 <= macd_score r <= 3)
   /\ (0 <= rsi_score (rsi_result r) <= 3)
   /\ (0 <= vwma_score r <= 3) /\ (0 <= sr_score r <= 3))%Z
  /\ (total_score r
      = ma_score r + macd_score r + rsi_score (rsi_result r)
        + vwma_score r + sr_score r)%Z
  /\ (0 <= total_score r <= 15)%Z
  /\ max_score r = 15%Z
  /\ pct = Z2float (total_score r) / 15 * 100
  /\ (overall r = STRONG_BUY <-> ge pct 67 = true)
  /\ (overall r = WAIT <-> ge pct 50 = true /\ lt pct 67 = true)
  /\ (overall r = AVOID <-> lt pct 50 = true)
  /\ (overall r = STRONG_BUY <-> (11 <= total_score r)%Z)
  /\ (overall r = WAIT <-> (8 <= total_score r <= 10)%Z)
  /\ (overall r = AVOID <-> (total_score r <= 7)%Z)
  /\ action r = action_of (overall r)
  /\ signal_of_pct 67 = STRONG_BUY
  /\ signal_of_pct 50 = WAIT.
Proof.
  intros r pct.
  pose proof (total_score_range d) as Ht. fold r in Ht.
  pose proof (total_check_holds _ Ht) as Hc.
  unfold total_check in Hc.
  apply andb_prop in Hc as [Hc H50]. apply andb_prop in Hc as [Hn H67].
  apply negb_true_iff in Hn. apply eqb_prop in H67, H50.
  change (pct_of_total (total_score r)) with pct in Hn, H67, H50.
  destruct (signal_of_pct_spec pct Hn) as (S1 & S2 & S3).
  change (signal_of_pct pct) with (overall r) in S1, S2, S3.
  split; [repeat split; reflexivity|].
  split; [reflexivity|].
  split.
  { repeat split;
      first [ apply analyze_moving_averages_score_range
            | apply analyze_macd_score_range
            | apply analyze_rsi_score_range
            | apply analyze_vwma_score_range
            | apply analyze_support_resistance_score_range ]. }
  repeat (split; [first [reflexivity | assumption]|]).
  assert (E67 : ge pct 67 = true <-> (11 <= total_score r)%Z)
    by (rewrite H67; apply Z.leb_le).
  assert (E50 : ge pct 50 = true <-> (8 <= total_score r)%Z)
    by (rewrite H50; apply Z.leb_le).
  split; [tauto|].
  split.
  { rewrite S2. split.
    - intros [A B]. apply ltb_leb_false in B. fold (ge pct 67) in B.
      split; [tauto|].
      destruct (Z_le_gt_dec 11 (total_score r)) as [L|L]; [|lia].
      apply E67 in L. congruence.
    - intros [A B]. split; [tauto|].
      apply leb_false_ltb; trivial. apply not_true_is_false.
      intros G. apply E67 in G. lia. }
  split.
  { rewrite S3. split.
    - intros B. apply ltb_leb_false in B. fold (ge pct 50) in B.
      destruct (Z_le_gt_dec 8 (total_score r)) as [L|L]; [|lia].
      apply E50 in L. congruence.
    - intros B. apply leb_false_ltb; trivial. apply not_true_is_false.
      intros G. apply E50 in G. lia. }
  repeat split.
Qed.
End Aggregate.

(** ** C10 and C5: the fundamental score *)

Section FundamentalScore.
Import Py Combined Checks Scenarios.
Local Open Scope float_scope.

(** Name the value of the outermost [let] of the goal; a score increment is
    kept only through its bounds. *)
Ltac step_let :=
  lazymatch goal with
  | |- context C [let x := ?v in @?b x] =>
      let s := fresh "s" in
      pose (s := v);
      let g := context C [b s] in
      let g' := eval cbv beta in g in
      change g';
      lazymatch v with
      | if _ then (?p + ?k)%Z else _ =>
          assert (p <= s <= p + k)%Z
            by (subst s;
                repeat match goal with
                  | |- context [if ?c then _ else _] => destruct c
                  end; lia);
          clearbody s
      | _ => idtac
      end
  end.

Lemma fundamental_points_range (fund_result : gmap string float) :
  exists score : Z,
    (0 <= score <= 100)%Z /\ fundamental_points fund_result = (score, 100%Z).
Proof.
  cbv beta delta [fundamental_points].
  repeat step_let.
  repeat match goal with x := _ : Z |- _ => subst x end.
  eexists. split; [|reflexivity]. lia.
Qed.


Lemma score_pct_check_holds score :
  (0 <= score <= 100)%Z -> score_pct_check score = true.
Proof.
  intros H. apply (forallb_Z_range score_pct_check 101); [|lia].
  vm_compute. reflexivity.
Qed.

(** C10. Whatever the dictionary holds (metrics present, missing, infinite
    or NaN), [_calculate_fundamental_score] accumulates a maximum of exactly
    100 points (30 + 20 + 25 + 15 + 10), a score between 0 and 100 points,
    and returns score / 100 * 100, a float in the closed interval
    [0, 100]. *)
Theorem fundamental_score_range (fund_result : gmap string float) :
  snd (fundamental_points fund_result) = (30 + 20 + 25 + 15 + 10)%Z
  /\ (0 <= fst (fundamental_points fund_result) <= 100)%Z
  /\ _calculate_fundamental_score fund_result
     = Z2float (fst (fundamental_points fund_result)) / 100 * 100
  /\ le 0 (_calculate_fundamental_score fund_result) = true
  /\ le (_calculate_fundamental_score fund_result) 100 = true.
Proof.
  destruct (fundamental_points_range fund_result) as (score & Hs & E).
  unfold _calculate_fundamental_score. rewrite E. cbn [fst snd].
  pose proof (score_pct_check_holds score Hs) as Hc.
  apply andb_prop in Hc as [H0 H100].
  repeat split; try lia; assumption.
Qed.

Lemma get_Some (fund_result : gmap string float) key default v :
  fund_result !! key = Some v -> get fund_result key default = v.
Proof. unfold get. now intros ->. Qed.

(** C5, as amended. A fundamentals result with ROE = 18, ROCE = 16,
    NPM = 12, d/e_market = 0.3, Interest coverage = 5, p/e = 12, EY = 8 and
    cCFO/cPAT = 1.2 whose five-year earnings and sales growth both exceed 15
    and whose CFO is positive scores 100: every bucket contributes its
    maximum. *)
Theorem fundamental_score_all_buckets_maxed
    (fund_result : gmap string float) (earnings_growth sales_growth cfo : float) :
  fund_result !! "ROE" = Some 18 ->
  fund_result !! "ROCE" = Some 16 ->
  fund_result !! "NPM" = Some 12 ->
  fund_result !! "d/e_market" = Some 0.3 ->
  fund_result !! "Interest coverage" = Some 5 ->
  fund_result !! "p/e" = Some 12 ->
  fund_result !! "EY" = Some 8 ->
  fund_result !! "cCFO/cPAT" = Some 1.2 ->
  fund_result !! "Earnings Growth 5yr cagr" = Some earnings_growth ->
  fund_result !! "Sales Growth 5yr cagr" = Some sales_growth ->
  fund_result !! "CFO" = Some cfo ->
  gt earnings_growth 15 = true ->
  gt sales_growth 15 = true ->
  gt cfo 0 = true ->
  fundamental_points fund_result = (100%Z, 100%Z)
  /\ _calculate_fundamental_score fund_result = 100.
Proof.
  intros ROE ROCE NPM DE IC PE EY CQ EG SG CFO Heg Hsg Hcfo.
  assert (E : fundamental_points fund_result = (100%Z, 100%Z)).
  { cbv beta delta [fundamental_points].
    rewrite (get_Some _ _ _ _ ROE), (get_Some _ _ _ _ ROCE),
      (get_Some _ _ _ _ NPM), (get_Some _ _ _ _ DE), (get_Some _ _ _ _ IC),
      (get_Some _ _ _ _ PE), (get_Some _ _ _ _ EY), (get_Some _ _ _ _ CQ),
      (get_Some _ _ _ _ EG), (get_Some _ _ _ _ SG), (get_Some _ _ _ _ CFO).
    rewrite Heg, Hsg, Hcfo. reflexivity. }
  split; [exact E|].
  unfold _calculate_fundamental_score. rewrite E. reflexivity.
Qed.


Lemma fundamental_score_all_buckets_maxed_witness :
  fundamental_points strong_growth = (100%Z, 100%Z)
  /\ _calculate_fundamental_score strong_growth = 100.
Proof.
  apply (fundamental_score_all_buckets_maxed strong_growth 18 16 1000000);
    vm_compute; reflexivity.
Defined.

(** C5 as stated fails: the stated ratios, with every value positive and
    no field missing, do not fix the growth bucket; growth of 10 earns 5 of
    10 points twice and the score is 90. *)
Lemma fundamental_score_not_always_100 :
  moderate_growth !! "ROE" = Some 18
  /\ moderate_growth !! "ROCE" = Some 16
  /\ moderate_growth !! "NPM" = Some 12
  /\ moderate_growth !! "d/e_market" = Some 0.3
  /\ moderate_growth !! "Interest coverage" = Some 5
  /\ moderate_growth !! "p/e" = Some 12
  /\ moderate_growth !! "EY" = Some 8
  /\ moderate_growth !! "cCFO/cPAT" = Some 1.2
  /\ map_Forall (fun _ v => gt v 0 = true) moderate_growth
  /\ fundamental_points moderate_growth = (90%Z, 100%Z)
  /\ _calculate_fundamental_score moderate_growth = 90
  /\ _calculate_fundamental_score moderate_growth <> 100.
Proof.
  repeat split; try (vm_compute; reflexivity).
  - apply map_Forall_to_list. vm_compute.
    repeat constructor.
  - intros H. apply (f_equal (fun x => x =? 100)) in H.
    vm_compute in H. discriminate.
Qed.
End FundamentalScore.

(** ** C7: [calculate_cagr] *)

Section CAGR.
Import Py Fundamental.
Local Open Scope float_scope.

Variable pow : float -> float -> float.

(** C7. [calculate_cagr] returns NaN whenever the start value, the end value
    or the number of periods is not positive, and otherwise
    ((end / start) ** (1 / periods) - 1) * 100; in particular when all three
    are positive. *)
Theorem calculate_cagr_spec (start_value end_value : float) (periods : Z) :
  (le start_value 0 = true \/ le end_value 0 = true \/ (periods <= 0)%Z ->
   calculate_cagr pow start_value end_value periods = nan
   /\ is_nan (calculate_cagr pow start_value end_value periods) = true)
  /\ (~ (le start_value 0 = true \/ le end_value 0 = true \/ (periods <= 0)%Z) ->
      calculate_cagr pow start_value end_value periods
      = (pow (end_value / start_value) (1 / Z2float periods) - 1) * 100)
  /\ (gt start_value 0 = true -> gt end_value 0 = true -> (0 < periods)%Z ->
      calculate_cagr pow start_value end_value periods
      = (pow (end_value / start_value) (1 / Z2float periods) - 1) * 100)
  /\ calculate_cagr pow 0 200 4 = nan
  /\ calculate_cagr pow 100 (-5) 4 = nan
  /\ calculate_cagr pow 100 200 0 = nan
  /\ calculate_cagr pow 100 200 4 = (pow 2 0.25 - 1) * 100.
Proof.
  unfold calculate_cagr.
  repeat split; try reflexivity.
  - destruct H as [-> | [-> | H]]; rewrite ?orb_true_r; try reflexivity.
    apply Z.leb_le in H. rewrite H, !orb_true_r. reflexivity.
  - destruct H as [-> | [-> | H]]; rewrite ?orb_true_r; try reflexivity.
    apply Z.leb_le in H. rewrite H, !orb_true_r. reflexivity.
  - intros H.
    destruct (le start_value 0) eqn:E1; [tauto|].
    destruct (le end_value 0) eqn:E2; [tauto|].
    destruct (periods <=? 0)%Z eqn:E3; [apply Z.leb_le in E3; tauto|].
    reflexivity.
  - intros H1 H2 H3. unfold gt, le in *.
    rewrite (ltb_leb_false _ _ H1), (ltb_leb_false _ _ H2).
    destruct (periods <=? 0)%Z eqn:E3; [apply Z.leb_le in E3; lia|].
    reflexivity.
Qed.
End CAGR.

(** ** C6: [get_means] *)

Section Means.
Import Py Pandas Fundamental.
Local Open Scope float_scope.

Variable np_mean : list float -> float.

Lemma null_check_spec (c : option float) :
  null_check c = true <-> exists x, c = Some x /\ is_nan x = false.
Proof.
  unfold null_check. destruct c as [x|]; simpl.
  - unfold notnull. split.
    + intros H. apply andb_prop in H as [_ H].
      apply negb_true_iff in H. eauto.
    + intros (y & [= <-] & H). rewrite H.
      unfold ne. destruct (x =? nan) eqn:E; [|reflexivity].
      rewrite FloatAxioms.eqb_spec in E.
      destruct (Prim2SF x) as [| | |]; discriminate.
  - split; [discriminate|]. intros (x & H & _). discriminate.
Qed.

Lemma valid_spec num_list c :
  In c (valid num_list)
  <-> In c num_list /\ exists x, c = Some x /\ is_nan x = false.
Proof. unfold valid. rewrite filter_In, null_check_spec. tauto. Qed.

(** C6, as amended. [get_means] first drops the [None] and NaN entries.  If
    fewer than [min_n] entries remain - a single one under the default
    [min_n = 2] - it returns the sentinel -1; it returns -1 as well when the
    mean of what remains is itself NaN; and if at least [min_n] entries
    remain and their mean is a number, it returns that mean. *)
Theorem get_means_spec (num_list : list (option float)) (min_n : Z) :
  let kept := valid num_list in
  (forall c, In c kept
             <-> In c num_list /\ exists x, c = Some x /\ is_nan x = false)
  /\ ((Z.of_nat (length kept) < min_n)%Z ->
      get_means np_mean num_list min_n = -1)
  /\ (length kept = 1%nat -> get_means np_mean num_list 2 = -1)
  /\ (is_nan (np_mean (floats kept)) = true ->
      get_means np_mean num_list min_n = -1)
  /\ ((min_n <= Z.of_nat (length kept))%Z ->
      is_nan (np_mean (floats kept)) = false ->
      get_means np_mean num_list min_n = np_mean (floats kept)).
Proof.
  intros kept. unfold get_means. fold (valid num_list). fold kept.
  split; [apply valid_spec|].
  assert (Hnc : null_check (Some (np_mean (floats kept)))
                = negb (is_nan (np_mean (floats kept)))).
  { destruct (is_nan (np_mean (floats kept))) eqn:E; simpl.
    - destruct (null_check _) eqn:N; [|reflexivity].
      apply null_check_spec in N as (x & [= <-] & N). congruence.
    - apply null_check_spec. eauto. }
  rewrite Hnc.
  repeat split.
  - intros H. apply Z.leb_gt in H. rewrite H, andb_false_r. reflexivity.
  - intros H. rewrite H. simpl. rewrite andb_false_r. reflexivity.
  - intros ->. reflexivity.
  - intros H1 ->. apply Z.leb_le in H1. rewrite H1. reflexivity.
Qed.

End Means.

(** C6 as stated fails where the mean of the kept entries is NaN: the two
    infinities are neither [None] nor NaN, two entries remain for
    [min_n = 2], and [get_means] returns -1, not their mean. *)
Lemma get_means_not_always_mean :
  let num_list := [Some infinity; Some neg_infinity] in
  Fundamental.valid num_list = num_list
  /\ (2 <= Z.of_nat (length (Fundamental.valid num_list)))%Z
  /\ Fundamental.mean_of [infinity; neg_infinity] = nan
  /\ Fundamental.get_means Fundamental.mean_of num_list 2 = (-1)%float
  /\ Fundamental.get_means Fundamental.mean_of num_list 2
     <> Fundamental.mean_of (Fundamental.floats (Fundamental.valid num_list)).
Proof.
  repeat split; try (vm_compute; reflexivity).
  - vm_compute. discriminate.
  - intros H. apply (f_equal is_nan) in H. vm_compute in H. discriminate.
Qed.

(** With the left-to-right reduction: a plain mean, a single sample. *)
Lemma get_means_examples :
  Fundamental.get_means Fundamental.mean_of
    [Some 10; None; Some nan; Some 20]%float 2 = 15%float
  /\ Fundamental.get_means Fundamental.mean_of [Some 5; None]%float 2
     = (-1)%float
  /\ Fundamental.get_means Fundamental.mean_of [] 0 = (-1)%float.
Proof. repeat split; vm_compute; reflexivity. Qed.

(** ** C2: the ROA/ROE block of [compute_yfinance_metrics] *)

Section ReturnOnEquity.
Import Py Pandas Fundamental.
Local Open Scope float_scope.

Variable np_mean : list float -> float.

Lemma iloc_Forall (P : float -> Prop) s i x :
  Forall P s -> iloc s i = Ok x -> P x.
Proof.
  intros HP. unfold iloc. destruct (s !! i) as [y|] eqn:E; [|discriminate].
  intros [= <-]. eapply Forall_lookup_1; eauto.
Qed.

Lemma bind_Ok {A B} (r : result A) (k : A -> result B) b :
  bind r k = Ok b -> exists a, r = Ok a /\ k a = Ok b.
Proof. destruct r; simpl; [eauto|discriminate]. Qed.

(** With no equity in any year, an iteration appends no ROE. *)
Lemma roa_roe_step_no_equity ni ta eqs i roa roe roa' roe' :
  Forall (eq 0) eqs ->
  roa_roe_step ni ta eqs i (roa, roe) = Ok (roa', roe') -> roe' = roe.
Proof.
  intros Hz. unfold roa_roe_step.
  intros H. apply bind_Ok in H as (x & _ & H).
  apply bind_Ok in H as (avg_assets & _ & H).
  apply bind_Ok in H as (avg_equity & Havg & H).
  assert (E : avg_equity = 0).
  { destruct (0 <? i)%nat.
    - apply bind_Ok in Havg as (a & Ha & Havg).
      apply bind_Ok in Havg as (b & Hb & Havg).
      apply (iloc_Forall _ _ _ _ Hz) in Ha, Hb. subst a b.
      now injection Havg as <-.
    - now apply (iloc_Forall _ _ _ _ Hz) in Havg. }
  subst avg_equity. change (ne 0 0) with false in H.
  now injection H as _ <-.
Qed.

Lemma roa_roe_loop_no_equity ni ta eqs range :
  Forall (eq 0) eqs ->
  forall roa roe roa' roe',
    roa_roe_loop ni ta eqs range (roa, roe) = Ok (roa', roe') -> roe' = roe.
Proof.
  intros Hz. induction range as [|i range IH]; intros roa roe roa' roe'.
  - now intros [= _ <-].
  - simpl. intros H. apply bind_Ok in H as ([roa1 roe1] & Hstep & H).
    apply roa_roe_step_no_equity in Hstep; trivial. subst roe1.
    eapply IH; eauto.
Qed.

Lemma Forall_tail_slice (P : float -> Prop) k s :
  Forall P s -> Forall P (tail_slice k s).
Proof.
  intros H. destruct k; simpl; [exact H|]. now apply Forall_drop.
Qed.

Lemma Forall_zeros n : Forall (eq 0) (zeros n).
Proof. induction n; constructor; auto. Qed.

(** Whenever the equity column is zero in every year - in particular when
    the provider reports no 'Stockholders Equity' line at all - the block
    does not return: [roe_values] stays empty and [roe_values[latest]]
    raises. *)
Lemma roa_roe_block_raises (income balance : DataFrame) :
  Forall (eq 0) (get balance "Stockholders Equity" (zeros (nrows income))) ->
  raises (roa_roe_block np_mean income balance).
Proof.
  intros Hz. unfold roa_roe_block.
  destruct (roa_roe_loop _ _ _ _ _) as [[roa roe]|e] eqn:E; simpl.
  - apply roa_roe_loop_no_equity in E; [|now apply Forall_tail_slice].
    subst roe. simpl. exists IndexError. reflexivity.
  - exists e. reflexivity.
Qed.

Lemma roa_roe_block_raises_without_equity (income balance : DataFrame) :
  columns balance !! "Stockholders Equity" = None ->
  raises (roa_roe_block np_mean income balance).
Proof.
  intros H. apply roa_roe_block_raises. unfold get. rewrite H.
  apply Forall_zeros.
Qed.
End ReturnOnEquity.


(** C2, on the code: with one period in every table and the 'Stockholders
    Equity' line absent (or zero), lines 404-438 of
    [compute_yfinance_metrics] raise [IndexError] at
    [metrics['ROE'] = roe_values[latest]] instead of falling back to a
    value; with the line present the block returns. *)
Theorem roa_roe_block_index_error (np_mean : list float -> float) :
  Fundamental.roa_roe_block np_mean income_one_year balance_without_equity
  = Py.Raise Py.IndexError
  /\ Fundamental.roa_roe_block np_mean income_one_year balance_zero_equity
     = Py.Raise Py.IndexError
  /\ Py.returns
       (Fundamental.roa_roe_block np_mean income_one_year
          {| Pandas.nrows := 1;
             Pandas.columns :=
               <["Stockholders Equity" := [500%float]]>
                 (Pandas.columns balance_without_equity) |}).
Proof.
  split; [|split].
  - vm_compute. reflexivity.
  - vm_compute. reflexivity.
  - eexists. vm_compute. reflexivity.
Qed.

(** ** C3: the batch orchestrator *)

Section BatchEntries.
Import Py Batch.

Context {Frame Stock Value : Type}.
Variable get_yfinance_data : string -> Stock.
Variable stock_history : string -> history (Frame := Frame).
Variable compute_yfinance_metrics : Stock -> outcome (Value := Value).
Variable complete_technical_analysis : Frame -> outcome (Value := Value).
Variable str : exn -> string.

Local Abbreviation body :=
  (analyze_stock_body get_yfinance_data stock_history
     compute_yfinance_metrics complete_technical_analysis).
Local Abbreviation analyze :=
  (analyze_stock get_yfinance_data stock_history compute_yfinance_metrics
     complete_technical_analysis str).
Local Abbreviation entry_of :=
  (analyze_stock_dict get_yfinance_data stock_history
     compute_yfinance_metrics complete_technical_analysis str).
Local Abbreviation run_batch :=
  (store_batch get_yfinance_data stock_history compute_yfinance_metrics
     complete_technical_analysis str).
Local Abbreviation store_all :=
  (Batch.store_all get_yfinance_data stock_history compute_yfinance_metrics
     complete_technical_analysis str).
Local Abbreviation analyze_all :=
  (analyze_multiple_stocks get_yfinance_data stock_history
     compute_yfinance_metrics complete_technical_analysis str).

(** [analyze_stock] catches everything: it always returns a dictionary. *)
Lemma analyze_stock_Ok ticker : analyze ticker = Ok (entry_of ticker).
Proof.
  unfold analyze_stock, analyze_stock_dict. now destruct body.
Qed.


Lemma store_batch_store_all batch :
  forall results, run_batch results batch = store_all results batch.
Proof.
  unfold store_batch, Batch.store_all.
  induction batch as [|ticker batch IH]; intros results; [reflexivity|].
  cbn [List.map zip zip_with fold_left].
  rewrite analyze_stock_Ok. cbn [store]. apply IH.
Qed.

Lemma batches_concat batch_size :
  (0 < batch_size)%nat ->
  forall fuel tickers,
    (length tickers <= fuel)%nat ->
    concat (batches fuel batch_size tickers) = tickers.
Proof.
  intros Hpos. induction fuel as [|fuel IH]; intros tickers Hlen.
  - destruct tickers; [reflexivity|simpl in Hlen; lia].
  - destruct tickers as [|t tickers]; [reflexivity|].
    cbn [batches concat]. rewrite IH.
    + apply take_drop.
    + rewrite length_drop. simpl in *. lia.
Qed.

Lemma store_all_app results l1 l2 :
  store_all results (l1 ++ l2) = store_all (store_all results l1) l2.
Proof. apply fold_left_app. Qed.

Lemma fold_batches_store_all bss :
  forall results,
    fold_left run_batch bss results = store_all results (concat bss).
Proof.
  induction bss as [|b bss IH]; intros results; [reflexivity|].
  cbn [fold_left concat]. rewrite IH, store_batch_store_all, store_all_app.
  reflexivity.
Qed.




Lemma error_record_error ticker e :
  error_record str ticker e !! "error" = Some (Str (Value := Value) (str e)).
Proof.
  unfold error_record. rewrite lookup_insert_ne by discriminate.
  apply lookup_insert_eq.
Qed.


Lemma entry_of_frame ticker df :
  stock_history ticker = HistoryFrame df ->
  let fun_ := compute_yfinance_metrics (get_yfinance_data ticker) in
  let tech := complete_technical_analysis df in
  entry_of ticker
  = if returned_str fun_ || returned_str tech
    then error_record str ticker TypeError
    else <["ticker" := Str ticker]> (handled tech ∪ handled fun_).
Proof.
  intros H fun_ tech.
  unfold analyze_stock_dict, analyze_stock_body, get_stock_data.
  rewrite H. cbn [run_fundamental run_technical]. fold fun_ tech.
  destruct fun_, tech; reflexivity.
Qed.

End BatchEntries.




(** ** C9: [calculate_position_size] *)

Section PositionSize.
Import Py Technical.
Local Open Scope float_scope.

(** On a quotient that is not negative, [int] is the floor. *)
Lemma int_nonneg_floor (q : float) (n : Z) :
  ge q 0 = true -> int q = Ok n ->
  floor_SF (Prim2SF q) = Some n /\ (0 <= n)%Z.
Proof.
  unfold ge, int. rewrite FloatAxioms.leb_spec.
  change (Prim2SF 0) with (S754_zero false).
  destruct (Prim2SF q) as [s|s| |s m e]; cbn; try discriminate.
  - intros _ [= <-]. split; [reflexivity|lia].
  - destruct s; try discriminate. intros _ [= <-].
    split; [reflexivity|]. apply Z.shiftl_nonneg. lia.
Qed.

Lemma truediv_Ok (x y : float) : (y =? 0) = false -> truediv x y = Ok (x / y).
Proof. unfold truediv. now intros ->. Qed.

(** C9, as amended. If the stop is at or above the entry and their
    difference is a number (they are not two infinities of one sign),
    [calculate_position_size] returns the error record "Stop loss must be
    below entry price" with 0 shares and a position value of 0: no negative
    share count, no exception.  If the stop is below the entry, the
    portfolio value is not zero and the quotient
    (portfolio_value * (risk_percent / 100)) / (entry - stop) is finite, it
    returns [int] of the quotient as share count: the quotient truncated
    towards zero, which is its floor when the quotient is not negative. *)
Theorem calculate_position_size_spec
    (portfolio_value risk_percent entry_price stop_loss_price : float) :
  let risk_amount := portfolio_value * (risk_percent / 100) in
  let quotient := risk_amount / (entry_price - stop_loss_price) in
  (ge stop_loss_price entry_price = true ->
   is_nan (entry_price - stop_loss_price) = false ->
   calculate_position_size portfolio_value risk_percent entry_price
     stop_loss_price
   = Ok (PositionError "Stop loss must be below entry price" 0 0))
  /\ (lt stop_loss_price entry_price = true ->
      ne portfolio_value 0 = true ->
      forall shares, int quotient = Ok shares ->
        (exists position_percent actual_risk_percent,
            calculate_position_size portfolio_value risk_percent entry_price
              stop_loss_price
            = Ok (Position shares (Z2float shares * entry_price)
                    position_percent
                    (Z2float shares * (entry_price - stop_loss_price))
                    actual_risk_percent
                    (entry_price - stop_loss_price)))
        /\ (ge quotient 0 = true ->
            floor_SF (Prim2SF quotient) = Some shares /\ (0 <= shares)%Z))
  /\ calculate_position_size 100000 1.5 50 55
     = Ok (PositionError "Stop loss must be below entry price" 0 0)
  /\ calculate_position_size 100000 1.5 50 50
     = Ok (PositionError "Stop loss must be below entry price" 0 0)
  /\ calculate_position_size 100000 1.5 50 47
     = Ok (Position 500 25000 25 1500 1.5 3).
Proof.
  intros risk_amount quotient.
  split; [|split; [|repeat split; vm_compute; reflexivity]].
  - intros Hge Hn. unfold calculate_position_size.
    unfold ge in Hge. unfold le. now rewrite (sub_le_zero _ _ Hge Hn).
  - intros Hlt Hpv shares Hint. unfold lt in Hlt.
    destruct (signed_false_facts _ (sub_positive _ _ Hlt)) as (Hle & Hz & _).
    split.
    + unfold calculate_position_size, le. rewrite Hle.
      rewrite (truediv_Ok _ _ Hz). cbn [bind].
      fold risk_amount. fold quotient. rewrite Hint. cbn [bind].
      unfold ne in Hpv. apply negb_true_iff in Hpv.
      rewrite !(truediv_Ok _ _ Hpv). cbn [bind]. eauto.
    + intros Hq. now apply int_nonneg_floor.
Qed.

(** C9 as stated fails in both branches.  With the stop below the entry a
    portfolio value of zero raises [ZeroDivisionError], a NaN stop raises
    [ValueError], and a negative risk amount gives a negative share count
    that is the truncation, not the floor, of the quotient.  With the stop
    equal to the entry, both infinite, the call raises [ValueError]. *)
Lemma calculate_position_size_raises :
  (lt 9 10 = true
   /\ calculate_position_size 0 1.5 10 9 = Raise ZeroDivisionError)
  /\ (ge nan 10 = false
      /\ calculate_position_size 100000 1.5 10 nan = Raise ValueError)
  /\ (lt 6 10 = true
      /\ (-1000 * (1.5 / 100)) / (10 - 6) = -3.75
      /\ floor_SF (Prim2SF (-3.75)) = Some (-4)%Z
      /\ calculate_position_size (-1000) 1.5 10 6
         = Ok (Position (-3) (-30) 3 (-12) 1.2 4))
  /\ (ge infinity infinity = true
      /\ calculate_position_size 100000 1.5 infinity infinity
         = Raise ValueError).
Proof. repeat split; vm_compute; reflexivity. Qed.
End PositionSize.

(** * Further properties of the code *)

(** ** More on the order of binary64 numbers *)

Section FloatOrderMore.
Import Py.
Local Open Scope float_scope.

Lemma ltb_leb x y : (x <? y) = true -> (x <=? y) = true.
Proof. rewrite ltb_fcmp, leb_fcmp. auto. Qed.

Lemma ltb_false_leb x y :
  is_nan x = false -> is_nan y = false ->
  (y <? x) = false -> (x <=? y) = true.
Proof.
  intros Hx Hy H. destruct (x <=? y) eqn:E; [reflexivity|].
  apply leb_false_ltb in E; trivial. congruence.
Qed.

Lemma leb_ltb_trans x y z :
  (x <=? y) = true -> (y <? z) = true -> (x <? z) = true.
Proof.
  intros H1 H2.
  destruct (leb_not_nan _ _ H1) as [Nx _].
  destruct (ltb_not_nan _ _ H2) as [_ Nz].
  destruct (x <? z) eqn:E; [reflexivity|].
  apply ltb_false_leb in E; trivial.
  pose proof (ltb_leb_trans _ _ _ H2 E) as H.
  apply ltb_leb_false in H. congruence.
Qed.

Lemma ltb_trans x y z :
  (x <? y) = true -> (y <? z) = true -> (x <? z) = true.
Proof. intros H1 H2. eapply ltb_leb_trans; eauto using ltb_leb. Qed.

Lemma ltb_irrefl_false x y : (x <? y) = true -> (y <? x) = false.
Proof.
  intros H. destruct (y <? x) eqn:E; [|reflexivity].
  apply ltb_leb in E. apply ltb_leb_false in H. congruence.
Qed.

Lemma is_nan_sub_l x y : is_nan x = true -> is_nan (x - y) = true.
Proof.
  rewrite !is_nan_Prim2SF, FloatAxioms.sub_spec. intros ->. reflexivity.
Qed.

Lemma is_nan_sub_r x y : is_nan y = true -> is_nan (x - y) = true.
Proof.
  rewrite !is_nan_Prim2SF, FloatAxioms.sub_spec. intros ->.
  destruct (Prim2SF x); reflexivity.
Qed.

Lemma is_nan_ltb_r x y : is_nan y = true -> (x <? y) = false.
Proof.
  intros H. destruct (x <? y) eqn:E; [|reflexivity].
  apply ltb_not_nan in E. destruct E. congruence.
Qed.

(** A difference is positive exactly when its first term is the larger:
    [x - y > 0] is [x > y], for all binary64 numbers, NaN and infinities
    included. *)
Lemma sub_gt_zero x y : (0 <? x - y) = (y <? x).
Proof.
  destruct (y <? x) eqn:E.
  - destruct (signed_false_facts _ (sub_positive _ _ E)) as (Hle & _ & Hn).
    apply leb_false_ltb; trivial.
  - destruct (is_nan x) eqn:Nx.
    { apply is_nan_ltb_r. now apply is_nan_sub_l. }
    destruct (is_nan y) eqn:Ny.
    { apply is_nan_ltb_r. now apply is_nan_sub_r. }
    apply ltb_false_leb in E; trivial.
    destruct (is_nan (x - y)) eqn:Nd.
    { now apply is_nan_ltb_r. }
    pose proof (sub_le_zero _ _ E Nd) as H.
    destruct (0 <? x - y) eqn:F; [|reflexivity].
    apply ltb_leb_false in F. congruence.
Qed.
End FloatOrderMore.

(** ** technical_analysis.py: [analyze_moving_averages] *)

Section MovingAverages.
Import Py Signals.
Local Open Scope float_scope.

Lemma pullback_signal_cases (current_price sma_20 : float) :
  (is_nan sma_20 = true ->
   pullback_signal (dist_from current_price sma_20) = Raise TypeError)
  /\ (is_nan sma_20 = false ->
      exists s, pullback_signal (dist_from current_price sma_20) = Ok s
                /\ s <> MA_AVOID /\ s <> MA_PARTIAL_TREND).
Proof.
  unfold dist_from, Pandas.notnull. split; intros ->; cbn [negb].
  - reflexivity.
  - cbn [pullback_signal].
    repeat match goal with
      | |- context [if ?b then Ok _ else _] => destruct b
      end; eexists; (split; [reflexivity|split; discriminate]).
Qed.

(** X1. [analyze_moving_averages]: a price above the 50-day average that is
    itself above the 200-day average is above the 200-day average, so the
    score is 3 exactly when price > SMA_50 > SMA_200, and a score of 2
    always includes "above the 200-day average" with exactly one of the
    other two checks.  The signal is "AVOID" exactly for scores 0 and 1 and
    "WAIT - Partial trend" exactly for score 2.  The analysis raises - a
    [TypeError], from comparing [None] - exactly when the score is 3 and
    SMA_20 is NaN; with SMA_20 a number it always returns. *)
Theorem analyze_moving_averages_signal
    (current_price sma_20 sma_50 sma_200 : float) :
  let analysis :=
    analyze_moving_averages current_price sma_20 sma_50 sma_200 in
  (gt current_price sma_50 = true -> gt sma_50 sma_200 = true ->
   gt current_price sma_200 = true)
  /\ (is_nan sma_20 = false -> returns analysis)
  /\ (forall e, analysis = Raise e ->
        e = TypeError /\ is_nan sma_20 = true
        /\ gt current_price sma_50 = true /\ gt sma_50 sma_200 = true)
  /\ (is_nan sma_20 = true -> gt current_price sma_50 = true ->
      gt sma_50 sma_200 = true -> analysis = Raise TypeError)
  /\ (forall r, analysis = Ok r ->
        (ma_score r = 3%Z
         <-> gt current_price sma_50 = true /\ gt sma_50 sma_200 = true)
        /\ (ma_score r = 2%Z ->
            gt current_price sma_200 = true
            /\ (gt current_price sma_50 = true <-> gt sma_50 sma_200 = false))
        /\ (ma_signal_of r = MA_AVOID <-> (ma_score r <= 1)%Z)
        /\ (ma_signal_of r = MA_PARTIAL_TREND <-> ma_score r = 2%Z)
        /\ (0 <= ma_score r <= 3)%Z).
Proof.
  intros analysis.
  assert (T : gt current_price sma_50 = true -> gt sma_50 sma_200 = true ->
              gt current_price sma_200 = true).
  { unfold gt. intros H1 H2. eapply ltb_trans; eauto. }
  split; [exact T|].
  destruct (pullback_signal_cases current_price sma_20) as [P1 P2].
  subst analysis. unfold analyze_moving_averages, returns.
  set (p := pullback_signal _) in *.
  destruct (gt current_price sma_50) eqn:A, (gt sma_50 sma_200) eqn:C.
  - rewrite T by reflexivity. cbn [sum_bools fold_left].
    change (0 + 1 + 1 + 1 =? 3)%Z with true. cbv iota.
    destruct (is_nan sma_20) eqn:N.
    + rewrite P1 by reflexivity. cbn [bind].
      split; [discriminate|]. split; [intros e [= <-]; auto|].
      split; [reflexivity|]. discriminate.
    + destruct (P2 eq_refl) as (s & -> & S1 & S2). cbn [bind].
      split; [eauto|]. split; [discriminate|]. split; [discriminate|].
      intros r [= <-]. cbn [ma_score ma_signal_of].
      repeat split; intros; try discriminate; try lia; try tauto;
        congruence.
  - destruct (gt current_price sma_200) eqn:B; cbn [sum_bools fold_left bind];
      (split; [eauto|]); (split; [discriminate|]);
      (split; [discriminate|]);
      intros r [= <-]; cbn [ma_score ma_signal_of];
      repeat split; intros; try discriminate; try lia; try tauto;
      try (exfalso; intuition discriminate).
  - destruct (gt current_price sma_200) eqn:B; cbn [sum_bools fold_left bind];
      (split; [eauto|]); (split; [discriminate|]);
      (split; [discriminate|]);
      intros r [= <-]; cbn [ma_score ma_signal_of];
      repeat split; intros; try discriminate; try lia; try tauto;
      try (exfalso; intuition discriminate).
  - destruct (gt current_price sma_200) eqn:B; cbn [sum_bools fold_left bind];
      (split; [eauto|]); (split; [discriminate|]);
      (split; [discriminate|]);
      intros r [= <-]; cbn [ma_score ma_signal_of];
      repeat split; intros; try discriminate; try lia; try tauto;
      try (exfalso; intuition discriminate).
Qed.
End MovingAverages.

(** ** technical_analysis.py: [calculate_macd] and [analyze_macd] *)

Section MACD.
Import Py Signals.
Local Open Scope float_scope.

Lemma iloc_back_Ok {A} (df : list A) (i : nat) :
  (1 <= i <= length df)%nat -> exists row, iloc_back df i = Ok row.
Proof.
  intros H. unfold iloc_back.
  destruct (Nat.leb_spec i (length df)); [|lia].
  destruct (df !! (length df - i)%nat) eqn:E; [eauto|].
  apply lookup_ge_None in E. lia.
Qed.

Lemma iloc_back_Raise {A} (df : list A) (i : nat) :
  (length df < i)%nat -> iloc_back df i = Raise IndexError.
Proof.
  intros H. unfold iloc_back.
  destruct (Nat.leb_spec i (length df)); [lia|reflexivity].
Qed.

Lemma crossed_Ok (df : list macd_row) (i : nat) :
  (1 <= i)%nat -> (i < length df)%nat -> exists c, crossed df i = Ok c.
Proof.
  intros H1 H2. unfold crossed.
  destruct (iloc_back_Ok df i) as (row & ->); [lia|]. cbn [bind].
  destruct (gt _ _); [|eauto].
  destruct (iloc_back_Ok df (i + 1)) as (before & ->); [lia|]. cbn [bind].
  eauto.
Qed.

(** The scan returns the first index of its range at which the lines
    crossed, if there is one. *)
Lemma scan_crossover_spec (df : list macd_row) (range : list nat) :
  Forall (fun i => 1 <= i /\ i < length df)%nat range ->
  exists found,
    scan_crossover df range = Ok found
    /\ match found with
       | Some i =>
           exists before after,
             range = before ++ i :: after
             /\ crossed df i = Ok true
             /\ Forall (fun j => crossed df j = Ok false) before
       | None => Forall (fun j => crossed df j = Ok false) range
       end.
Proof.
  induction range as [|i range IH]; intros H.
  - exists None. split; [reflexivity|constructor].
  - apply Forall_cons in H as [[H1 H2] H].
    destruct (crossed_Ok df i H1 H2) as (c & Hc).
    cbn [scan_crossover]. rewrite Hc. cbn [bind].
    destruct c.
    + exists (Some i). split; [reflexivity|].
      exists [], range. repeat split; trivial.
    + destruct (IH H) as (found & -> & Hf).
      exists found. split; [reflexivity|].
      destruct found as [k|].
      * destruct Hf as (before & after & -> & Hk & Hb).
        exists (i :: before), after. repeat split; trivial.
        now constructor.
      * now constructor.
Qed.

(** X2. The histogram column of [calculate_macd] is MACD minus its signal
    line, so for every pair of averages and every signal value - NaN and
    infinities included - "histogram positive" holds exactly when "MACD
    above signal" does.  On a bar whose histogram is that difference the
    score of [analyze_macd] therefore counts a bullish MACD twice: it is 2
    for a MACD above its signal line plus 1 for a MACD above zero. *)
Theorem macd_histogram_positive_iff_bullish (ema_fast ema_slow signal : float) :
  let row := macd_columns ema_fast ema_slow signal in
  gt (MACD_hist row) 0 = gt (MACD row) (MACD_signal row)
  /\ (forall d : Technical.indicators,
        Technical.MACD_hist d = Technical.MACD d - Technical.MACD_signal d ->
        Technical.analyze_macd_score d
        = ((if gt (Technical.MACD d) (Technical.MACD_signal d) then 2 else 0)
           + (if gt (Technical.MACD d) 0 then 1 else 0))%Z).
Proof.
  intros row. split; [apply sub_gt_zero|].
  intros d H. unfold Technical.analyze_macd_score. rewrite H.
  unfold gt at 3. rewrite sub_gt_zero.
  fold (gt (Technical.MACD d) (Technical.MACD_signal d)).
  destruct (gt (Technical.MACD d) (Technical.MACD_signal d)),
    (gt (Technical.MACD d) 0); reflexivity.
Qed.

Lemma seq_split_at (start len i : nat) before after :
  seq start len = before ++ i :: after ->
  (start <= i < start + len)%nat
  /\ before = seq start (i - start).
Proof.
  revert start before. induction len as [|len IH]; intros start before H.
  - destruct before; discriminate.
  - cbn [seq] in H. destruct before as [|b before].
    + injection H as <- _. split; [lia|]. now rewrite Nat.sub_diag.
    + injection H as <- H. apply IH in H as [H1 ->].
      split; [lia|].
      replace (i - start)%nat with (S (i - S start)) by lia. reflexivity.
Qed.

(** X3. [analyze_macd] returns [None] on an empty frame, raises
    [IndexError] on a frame of one bar (it reads the bar before the
    latest), and returns an analysis on two bars or more.  A crossover
    reported [i] days ago lies within the last 10 bars, the lines did cross
    at bar [-i], and at no more recent bar; when none is reported, the
    lines crossed at none of the last 10 bars.  The signal is "fresh
    crossover" exactly when the MACD is above its signal line now and the
    crossover reported is at most 5 days old, and "AVOID" exactly when the
    MACD is not above its signal line. *)
Theorem analyze_macd_crossover (df : list macd_row) :
  (df = [] -> analyze_macd df = Ok None)
  /\ (length df = 1%nat -> analyze_macd df = Raise IndexError)
  /\ ((2 <= length df)%nat ->
      exists a latest,
        analyze_macd df = Ok (Some a)
        /\ iloc_back df 1 = Ok latest
        /\ bullish_crossover a = gt (MACD latest) (MACD_signal latest)
        /\ (forall i, crossover_days_ago a = Some i ->
              (1 <= i <= 10)%nat /\ (i < length df)%nat
              /\ crossed df i = Ok true
              /\ forall j, (1 <= j < i)%nat -> crossed df j = Ok false)
        /\ (crossover_days_ago a = None ->
            forall j, (1 <= j <= 10)%nat -> (j < length df)%nat ->
                      crossed df j = Ok false)
        /\ (forall n, macd_signal_of a = MACD_FRESH_CROSSOVER n
                      <-> bullish_crossover a = true
                          /\ crossover_days_ago a = Some n /\ (n <= 5)%nat)
        /\ (macd_signal_of a = MACD_AVOID <-> bullish_crossover a = false)).
Proof.
  split; [now intros ->|]. split.
  - intros H. destruct df as [|row [|? ?]]; try discriminate. reflexivity.
  - intros H. unfold analyze_macd.
    destruct df as [|row0 df0] eqn:Edf; [simpl in H; lia|]. rewrite <- Edf in *.
    clear Edf row0 df0.
    destruct (iloc_back_Ok df 1) as (latest & Hl); [lia|].
    destruct (iloc_back_Ok df 2) as (prev & Hp); [lia|].
    rewrite Hl, Hp. cbn [bind].
    set (range := seq 1 (Nat.min 11 (length df) - 1)).
    destruct (scan_crossover_spec df range) as (found & Hs & Hf).
    { apply Forall_forall. intros i Hi.
      apply list_elem_of_In, in_seq in Hi. lia. }
    rewrite Hs. cbn [bind].
    eexists. exists latest. split; [reflexivity|].
    split; [reflexivity|]. cbn [bullish_crossover crossover_days_ago
                                macd_signal_of].
    split; [reflexivity|]. split; [|split; [|split]].
    + intros i ->. destruct Hf as (before & after & Hr & Hc & Hb).
      apply seq_split_at in Hr as [Hi ->].
      repeat split; try lia; trivial.
      intros j Hj. rewrite Forall_forall in Hb. apply Hb.
      apply list_elem_of_In, in_seq. lia.
    + intros ->. intros j Hj1 Hj2. rewrite Forall_forall in Hf. apply Hf.
      apply list_elem_of_In, in_seq. lia.
    + intros n. destruct found as [i|];
        destruct (gt (MACD latest) (MACD_signal latest)); cbn [andb];
        try destruct (Nat.leb_spec i 5);
        try destruct (gt (MACD_hist latest) (MACD_hist prev));
        split; intros Hx; try discriminate;
        try (destruct Hx as (? & ? & ?); discriminate);
        try (injection Hx as <-; auto);
        try (destruct Hx as (_ & [= <-] & ?); first [reflexivity | lia]).
    + destruct found as [i|];
        destruct (gt (MACD latest) (MACD_signal latest)); cbn [andb];
        try destruct (Nat.leb_spec i 5);
        try destruct (gt (MACD_hist latest) (MACD_hist prev));
        split; intros Hx; try discriminate; reflexivity.
Qed.
End MACD.

(** ** technical_analysis.py: [analyze_vwma] *)

Section VWMA.
Import Py Signals.
Local Open Scope float_scope.

(** X4. [analyze_vwma] scores what [complete_technical_analysis] adds up;
    its signal is "institutional accumulation" exactly when the score is 3
    and "AVOID" exactly when the price is not above the VWMA;
    "good volume support" goes with a score of 2, "watch volume" with 1 or
    2.  On a frame of fewer than 5 bars the VWMA never counts as rising, so
    neither the score 3 nor the top signal can be reached; and the volume
    ratio is 0, not a division by zero, when the average volume is not
    positive. *)
Theorem analyze_vwma_signal (d : Technical.indicators)
    (current_vol avg_vol : float) :
  let a := analyze_vwma d current_vol avg_vol in
  vwma_score a = Technical.analyze_vwma_score d
  /\ (vwma_signal_of a = VWMA_ACCUMULATION <-> vwma_score a = 3%Z)
  /\ (vwma_signal_of a = VWMA_AVOID <-> above_vwma a = false)
  /\ (vwma_signal_of a = VWMA_VOLUME_SUPPORT -> vwma_score a = 2%Z)
  /\ (vwma_signal_of a = VWMA_WATCH_VOLUME -> (1 <= vwma_score a <= 2)%Z)
  /\ ((Technical.len_df d < 5)%Z ->
      vwma_rising a = false /\ (vwma_score a <= 2)%Z
      /\ vwma_signal_of a <> VWMA_ACCUMULATION)
  /\ (gt avg_vol 0 = false -> volume_ratio a = 0)
  /\ (gt avg_vol 0 = true -> volume_ratio a = current_vol / avg_vol).
Proof.
  intros a. subst a. unfold analyze_vwma, Technical.analyze_vwma_score.
  cbn [vwma_score vwma_signal_of above_vwma vwma_rising volume_ratio].
  split; [reflexivity|].
  destruct (gt (Technical.Close d) (Technical.VWMA d)),
    (gt (Technical.avg_vol_up d) (Technical.avg_vol_down d)),
    (Z.leb_spec 5 (Technical.len_df d));
    try destruct (Technical.vwma_tail_monotonic d);
    cbn [andb sum_bools fold_left];
    repeat split; intros; try discriminate; try lia; try tauto;
    try (destruct (gt avg_vol 0); congruence).
Qed.
End VWMA.

(** ** technical_analysis.py: [analyze_support_resistance] *)

Section SupportResistance.
Import Py Signals.
Local Open Scope float_scope.

Lemma ltb_irrefl x : (x <? x) = false.
Proof.
  destruct (x <? x) eqn:E; [|reflexivity].
  pose proof (ltb_irrefl_false _ _ E). congruence.
Qed.

Lemma py_min_fold (rest : list float) :
  forall m,
    let r := fold_left (fun m x => if lt x m then x else m) rest m in
    (r = m \/ In r rest)
    /\ lt m r = false
    /\ (forall x, In x rest -> lt x r = false)
    /\ (forall y, lt y m = false -> lt y r = false).
Proof.
  induction rest as [|z rest IH]; intros m; cbn [fold_left].
  - split; [now left|]. split; [apply ltb_irrefl|].
    split; [intros x []|auto].
  - set (m' := if lt z m then z else m).
    destruct (IH m') as (H1 & H2 & H3 & H4).
    assert (Zm : lt z m' = false).
    { subst m'. destruct (lt z m) eqn:E; [apply ltb_irrefl|exact E]. }
    assert (Mm : lt m m' = false).
    { subst m'. destruct (lt z m) eqn:E; [|apply ltb_irrefl].
      now apply ltb_irrefl_false. }
    assert (Ym : forall y, lt y m = false -> lt y m' = false).
    { intros y Hy. subst m'. destruct (lt z m) eqn:E; [|exact Hy].
      destruct (lt y z) eqn:F; [|reflexivity].
      unfold lt in *. pose proof (ltb_trans _ _ _ F E). congruence. }
    repeat split.
    + destruct H1 as [H1|H1]; [|right; right; exact H1].
      rewrite H1. subst m'. destruct (lt z m); [right; now left|now left].
    + now apply H4.
    + intros x [<-|Hx]; [now apply H4|now apply H3].
    + intros y Hy. apply H4. now apply Ym.
Qed.

Lemma py_max_fold (rest : list float) :
  forall m,
    let r := fold_left (fun m x => if gt x m then x else m) rest m in
    (r = m \/ In r rest)
    /\ gt m r = false
    /\ (forall x, In x rest -> gt x r = false)
    /\ (forall y, gt y m = false -> gt y r = false).
Proof.
  induction rest as [|z rest IH]; intros m; cbn [fold_left].
  - split; [now left|]. split; [apply ltb_irrefl|].
    split; [intros x []|auto].
  - set (m' := if gt z m then z else m).
    destruct (IH m') as (H1 & H2 & H3 & H4).
    assert (Zm : gt z m' = false).
    { subst m'. destruct (gt z m) eqn:E; [apply ltb_irrefl|exact E]. }
    assert (Mm : gt m m' = false).
    { subst m'. destruct (gt z m) eqn:E; [|apply ltb_irrefl].
      now apply ltb_irrefl_false. }
    assert (Ym : forall y, gt y m = false -> gt y m' = false).
    { intros y Hy. subst m'. destruct (gt z m) eqn:E; [|exact Hy].
      destruct (gt y z) eqn:F; [|reflexivity].
      unfold gt in *. pose proof (ltb_trans _ _ _ E F). congruence. }
    repeat split.
    + destruct H1 as [H1|H1]; [|right; right; exact H1].
      rewrite H1. subst m'. destruct (gt z m); [right; now left|now left].
    + now apply H4.
    + intros x [<-|Hx]; [now apply H4|now apply H3].
    + intros y Hy. apply H4. now apply Ym.
Qed.

(** Python's [min]: an entry of the sequence below which no entry lies. *)
Lemma py_min_spec (first : float) (rest : list float) :
  In (py_min first rest) (first :: rest)
  /\ forall x, In x (first :: rest) -> lt x (py_min first rest) = false.
Proof.
  destruct (py_min_fold rest first) as (H1 & H2 & H3 & _).
  unfold py_min. split.
  - destruct H1 as [->|H1]; [now left|now right].
  - intros x [<-|Hx]; auto.
Qed.

Lemma py_max_spec (first : float) (rest : list float) :
  In (py_max first rest) (first :: rest)
  /\ forall x, In x (first :: rest) -> gt x (py_max first rest) = false.
Proof.
  destruct (py_max_fold rest first) as (H1 & H2 & H3 & _).
  unfold py_max. split.
  - destruct H1 as [->|H1]; [now left|now right].
  - intros x [<-|Hx]; auto.
Qed.

(** X5. [analyze_support_resistance] picks its levels as follows: when some
    pivot resistance lies above the price, the nearest resistance is one of
    the pivot levels, lies above the price, and no pivot above the price is
    lower; when none does, it is the latest 'Resistance_60'.  Likewise the
    nearest support is the highest pivot support below the price, or the
    latest 'Support_60'. *)
Theorem analyze_support_resistance_levels (current_price : float)
    (resistance_levels support_levels : list float)
    (resistance_60 support_60 : float) :
  let a :=
    analyze_support_resistance current_price resistance_levels
      support_levels resistance_60 support_60 in
  ((forall r, In r resistance_levels -> gt r current_price = false) ->
   sr_nearest_resistance a = resistance_60)
  /\ ((exists r, In r resistance_levels /\ gt r current_price = true) ->
      In (sr_nearest_resistance a) resistance_levels
      /\ gt (sr_nearest_resistance a) current_price = true
      /\ forall r, In r resistance_levels -> gt r current_price = true ->
                   lt r (sr_nearest_resistance a) = false)
  /\ ((forall s, In s support_levels -> lt s current_price = false) ->
      sr_nearest_support a = support_60)
  /\ ((exists s, In s support_levels /\ lt s current_price = true) ->
      In (sr_nearest_support a) support_levels
      /\ lt (sr_nearest_support a) current_price = true
      /\ forall s, In s support_levels -> lt s current_price = true ->
                   gt s (sr_nearest_support a) = false).
Proof.
  intros a. subst a. unfold analyze_support_resistance.
  cbn [sr_nearest_resistance sr_nearest_support].
  set (above := List.filter (fun r => gt r current_price) resistance_levels).
  set (below := List.filter (fun s => lt s current_price) support_levels).
  split; [|split; [|split]].
  - intros H. assert (E : above = []).
    { destruct above as [|r l] eqn:E; [reflexivity|].
      assert (Hr : In r above) by (rewrite E; now left).
      apply filter_In in Hr as [Hr1 Hr2]. rewrite (H r Hr1) in Hr2.
      discriminate. }
    now rewrite E.
  - intros (r & Hr1 & Hr2).
    assert (Hin : In r above) by (apply filter_In; auto).
    destruct above as [|first rest] eqn:E; [destruct Hin|].
    cbn [min_or]. destruct (py_min_spec first rest) as [M1 M2].
    rewrite <- E in M1, M2. apply filter_In in M1 as [M1 M1'].
    repeat split; trivial.
    intros x Hx1 Hx2. apply M2. apply filter_In. auto.
  - intros H. assert (E : below = []).
    { destruct below as [|r l] eqn:E; [reflexivity|].
      assert (Hr : In r below) by (rewrite E; now left).
      apply filter_In in Hr as [Hr1 Hr2]. rewrite (H r Hr1) in Hr2.
      discriminate. }
    now rewrite E.
  - intros (r & Hr1 & Hr2).
    assert (Hin : In r below) by (apply filter_In; auto).
    destruct below as [|first rest] eqn:E; [destruct Hin|].
    cbn [max_or]. destruct (py_max_spec first rest) as [M1 M2].
    rewrite <- E in M1, M2. apply filter_In in M1 as [M1 M1'].
    repeat split; trivial.
    intros x Hx1 Hx2. apply M2. apply filter_In. auto.
Qed.
End SupportResistance.

Section SupportResistanceSignal.
Import Py Signals.
Local Open Scope float_scope.

Lemma lt_const_chain d a b :
  (a <=? b) = true -> lt d a = true -> lt d b = true.
Proof. unfold lt. intros H1 H2. eapply ltb_leb_trans; eauto. Qed.

Lemma gt_const_chain d a b :
  (a <=? b) = true -> gt d b = true -> gt d a = true.
Proof. unfold gt. intros H1 H2. eapply leb_ltb_trans; eauto. Qed.

Lemma lt_gt_false d a b :
  (a <=? b) = true -> lt d a = true -> gt d b = false.
Proof.
  intros H1 H2. pose proof (lt_const_chain d a b H1 H2) as H.
  unfold lt, gt in *. now apply ltb_irrefl_false.
Qed.

(** X6. In [analyze_support_resistance] the score is 3 exactly when the
    signal is "STRONG BUY - At support with room to resistance"; a price at
    support scores at least 2; "near resistance" scores at most 1;
    "good risk/reward" scores 1 or 2 and is never given at support.  The
    score is the one [complete_technical_analysis] adds up. *)
Theorem analyze_support_resistance_signal (current_price : float)
    (resistance_levels support_levels : list float)
    (resistance_60 support_60 : float) :
  let a :=
    analyze_support_resistance current_price resistance_levels
      support_levels resistance_60 support_60 in
  (sr_score a = 3%Z <-> sr_signal_of a = SR_STRONG_BUY)
  /\ (sr_signal_of a = SR_STRONG_BUY
      <-> at_support a = true /\ gt (dist_to_resistance a) 5 = true)
  /\ (at_support a = true -> (2 <= sr_score a)%Z)
  /\ (sr_signal_of a = SR_BUY_AT_SUPPORT -> sr_score a = 2%Z)
  /\ (sr_signal_of a = SR_WAIT_NEAR_RESISTANCE -> (sr_score a <= 1)%Z)
  /\ (sr_signal_of a = SR_GOOD_RISK_REWARD ->
      at_support a = false /\ (1 <= sr_score a <= 2)%Z)
  /\ (0 <= sr_score a <= 3)%Z
  /\ (forall d : Technical.indicators,
        Technical.Close d = current_price ->
        Technical.nearest_resistance d = sr_nearest_resistance a ->
        Technical.nearest_support d = sr_nearest_support a ->
        Technical.analyze_support_resistance_score d = sr_score a).
Proof.
  intros a. subst a. unfold analyze_support_resistance.
  cbn [sr_score sr_signal_of at_support near_resistance dist_to_resistance
       dist_to_support sr_nearest_resistance sr_nearest_support].
  set (nr := min_or _ resistance_60). set (ns := max_or _ support_60).
  set (dr := (nr - current_price) / current_price * 100).
  set (ds := (current_price - ns) / current_price * 100).
  assert (A1 : lt ds 2 = true -> lt ds 5 = true)
    by (apply lt_const_chain; reflexivity).
  assert (A3 : lt dr 2 = true -> gt dr 5 = false)
    by (apply lt_gt_false; reflexivity).
  assert (D : forall d : Technical.indicators,
            Technical.Close d = current_price ->
            Technical.nearest_resistance d = nr ->
            Technical.nearest_support d = ns ->
            Technical.analyze_support_resistance_score d
            = (let score := 0%Z in
               let score :=
                 if lt ds 2 then (score + 2)%Z
                 else if lt ds 5 then (score + 1)%Z else score in
               if gt dr 5 then (score + 1)%Z else score)).
  { intros d H1 H2 H3. unfold Technical.analyze_support_resistance_score.
    rewrite H1, H2, H3. reflexivity. }
  cbv zeta in D |- *.
  revert A1 A3 D.
  generalize (lt ds 2) (lt ds 5) (lt 3 ds) (lt ds 8) (gt dr 5) (lt dr 2).
  intros b2 b5 b3 b8 r5 r2 A1 A3 D.
  split; [|split; [|split; [|split; [|split; [|split; [|split]]]]]];
    try exact D;
    destruct b2; try (rewrite A1 by reflexivity); destruct r5, r2;
    try (specialize (A3 eq_refl); discriminate);
    destruct b5, b3, b8; cbn [andb];
    repeat split; intros; try discriminate; try lia; try tauto;
    try congruence;
    try match goal with H : _ /\ _ |- _ => destruct H; discriminate end.
Qed.
End SupportResistanceSignal.

(** ** technical_analysis.py: [calculate_targets] *)

Section Targets.
Import Py Signals.
Local Open Scope float_scope.

(** X7. [calculate_targets] gives one target per requested percentage, in
    order, priced at entry * (1 + pct / 100).  Its risk/reward ratio is
    reward / (entry - stop) exactly when the stop is below the entry; with
    a stop at or above the entry, or a NaN price, every ratio is 0: the
    division is never by a risk that is zero, negative or NaN. *)
Theorem calculate_targets_spec (entry_price stop_loss_price : float)
    (target_percents : list float) :
  let targets := calculate_targets entry_price stop_loss_price target_percents in
  length targets = length target_percents
  /\ map percent targets = target_percents
  /\ Forall (fun t => price t = entry_price * (1 + percent t / 100)
                      /\ reward_amount t = price t - entry_price) targets
  /\ (lt stop_loss_price entry_price = true ->
      Forall (fun t => risk_reward_ratio t
                       = reward_amount t / (entry_price - stop_loss_price))
        targets)
  /\ (lt stop_loss_price entry_price = false ->
      Forall (fun t => risk_reward_ratio t = 0) targets)
  /\ (ge stop_loss_price entry_price = true ->
      Forall (fun t => risk_reward_ratio t = 0) targets).
Proof.
  intros targets. subst targets. unfold calculate_targets.
  assert (G : gt (entry_price - stop_loss_price) 0
              = lt stop_loss_price entry_price) by apply sub_gt_zero.
  rewrite G.
  split; [apply length_map|].
  split; [rewrite map_map; apply map_id|].
  split; [apply Forall_forall; intros t Ht;
          apply list_elem_of_In, in_map_iff in Ht as (pct & <- & _);
          split; reflexivity|].
  split; [|split].
  - intros ->. apply Forall_forall. intros t Ht.
    apply list_elem_of_In, in_map_iff in Ht as (pct & <- & _). reflexivity.
  - intros ->. apply Forall_forall. intros t Ht.
    apply list_elem_of_In, in_map_iff in Ht as (pct & <- & _). reflexivity.
  - intros H. unfold ge, lt in *.
    assert (L : (stop_loss_price <? entry_price) = false).
    { destruct (stop_loss_price <? entry_price) eqn:E; [|reflexivity].
      apply ltb_leb_false in E. congruence. }
    unfold lt. rewrite L. apply Forall_forall. intros t Ht.
    apply list_elem_of_In, in_map_iff in Ht as (pct & <- & _). reflexivity.
Qed.
End Targets.

(** ** technical_analysis.py: [compare_relative_strength] *)

Section RelativeStrength.
Import Py Signals.
Local Open Scope float_scope.

(** X8. [compare_relative_strength] returns [None] exactly when a frame is
    missing or empty.  Otherwise the 'outperforming' flag holds exactly
    when the signal is "STRONG" or "GOOD"; the signal is "STRONG" exactly
    above 10 points of outperformance and "AVOID" exactly when the
    outperformance is not above -10, which includes a NaN outperformance
    (a NaN or zero first close). *)
Theorem compare_relative_strength_signal
    (ticker_df benchmark_df : option (list float)) :
  (compare_relative_strength ticker_df benchmark_df = None
   <-> ticker_df = None \/ benchmark_df = None
       \/ ticker_df = Some [] \/ benchmark_df = Some [])
  /\ (forall r, compare_relative_strength ticker_df benchmark_df = Some r ->
        outperformance r = stock_return r - benchmark_return r
        /\ (outperforming r = true
            <-> strength_signal_of r = RS_STRONG
                \/ strength_signal_of r = RS_GOOD)
        /\ (strength_signal_of r = RS_STRONG <-> gt (outperformance r) 10 = true)
        /\ (strength_signal_of r = RS_GOOD
            <-> gt (outperformance r) 0 = true
                /\ gt (outperformance r) 10 = false)
        /\ (strength_signal_of r = RS_AVOID
            <-> gt (outperformance r) (-10) = false)
        /\ (is_nan (outperformance r) = true ->
            strength_signal_of r = RS_AVOID /\ outperforming r = false)).
Proof.
  split.
  - unfold compare_relative_strength.
    destruct ticker_df as [[|s stock]|], benchmark_df as [[|b bench]|];
      split; intros H; try discriminate; try reflexivity; auto;
      destruct H as [H|[H|[H|H]]]; discriminate.
  - intros r. unfold compare_relative_strength.
    destruct ticker_df as [[|s stock]|], benchmark_df as [[|b bench]|];
      try discriminate.
    intros [= <-].
    cbn [outperformance stock_return benchmark_return outperforming
         strength_signal_of].
    set (o := total_return s stock - total_return b bench).
    assert (A1 : gt o 10 = true -> gt o 0 = true)
      by (apply gt_const_chain; reflexivity).
    assert (A2 : gt o 0 = true -> gt o (-10) = true)
      by (apply gt_const_chain; reflexivity).
    assert (N : is_nan o = true -> gt o (-10) = false).
    { intros H. unfold gt. destruct (-10 <? o) eqn:E; [|reflexivity].
      apply ltb_not_nan in E. destruct E. congruence. }
    split; [reflexivity|].
    revert A1 A2 N.
    generalize (gt o 10) (gt o 0) (gt o (-10)) (is_nan o).
    intros g10 g0 gm n A1 A2 N.
    destruct g10, g0, gm, n;
      try (specialize (A1 eq_refl); discriminate);
      try (specialize (A2 eq_refl); discriminate);
      try (specialize (N eq_refl); discriminate);
      repeat split; intros; try discriminate; try tauto; auto;
      try match goal with H : _ \/ _ |- _ => destruct H; discriminate end;
      try match goal with H : _ /\ _ |- _ => destruct H; discriminate end.
Qed.
End RelativeStrength.

(** ** technical_analysis.py: [analyze_market_trend] *)

Section MarketTrend.
Import Py Signals.
Local Open Scope float_scope.

(** X9. [analyze_market_trend] runs 4 checks when the volatility index has
    a latest close other than zero and 3 otherwise (fetch failed, empty
    frame, or a level of exactly 0).  With either number of checks the
    state depends on the score alone: "BULL" exactly for a score of 3 or
    more, "NEUTRAL" exactly for 2, "BEAR" exactly for 0 or 1 - so with 3
    checks "BULL" needs all of them, and a market above both averages with
    a golden cross is "BULL" whatever the volatility. *)
Theorem analyze_market_trend_state (close sma_50 sma_200 : float)
    (vix : vix_history) :
  let m := analyze_market_trend close sma_50 sma_200 vix in
  (total_checks m = 4%Z
   <-> exists level, vix = VixClose level /\ ne level 0 = true)
  /\ (total_checks m = 3%Z \/ total_checks m = 4%Z)
  /\ (0 <= market_score m <= total_checks m)%Z
  /\ (state m = BULL <-> (3 <= market_score m)%Z)
  /\ (state m = NEUTRAL <-> market_score m = 2%Z)
  /\ (state m = BEAR <-> (market_score m <= 1)%Z)
  /\ (gt close sma_50 = true -> gt sma_50 sma_200 = true -> state m = BULL).
Proof.
  intros m. subst m. unfold analyze_market_trend.
  assert (T : gt close sma_50 = true -> gt sma_50 sma_200 = true ->
              gt close sma_200 = true).
  { unfold gt. intros H1 H2. eapply ltb_trans; eauto. }
  assert (V : forall o, low_vix_of vix = o ->
              (exists b, o = Some b)
              <-> exists level, vix = VixClose level /\ ne level 0 = true).
  { intros o <-. unfold low_vix_of. destruct vix as [| |level].
    - split; [intros (b & H); discriminate|intros (l & H & _); discriminate].
    - split; [intros (b & H); discriminate|intros (l & H & _); discriminate].
    - destruct (ne level 0) eqn:E.
      + split; eauto.
      + split; [intros (b & H); discriminate|].
        intros (l & [= <-] & H). congruence. }
  specialize (V _ eq_refl).
  destruct (low_vix_of vix) as [low|];
    destruct (gt close sma_50) eqn:A, (gt sma_50 sma_200) eqn:C;
    try (rewrite T by reflexivity);
    try destruct (gt close sma_200) eqn:B;
    try destruct low;
    cbn [app length sum_bools fold_left Z.of_nat market_score total_checks
         state];
    (split; [split; [intros H; try discriminate; apply V; eauto
                    |intros H; try reflexivity; apply V in H as (b & H);
                     discriminate]|]);
    (split; [auto|]);
    vm_compute; repeat split; intros; try discriminate; try congruence;
    auto.
Qed.
End MarketTrend.

(** ** Comparing one number with a chain of constants *)

Section Thresholds.
Import Py.
Local Open Scope float_scope.

Lemma is_nan_ltb_l x y : is_nan x = true -> (x <? y) = false.
Proof.
  intros H. destruct (x <? y) eqn:E; [|reflexivity].
  apply ltb_not_nan in E. destruct E. congruence.
Qed.

Lemma is_nan_leb_l x y : is_nan x = true -> (x <=? y) = false.
Proof.
  intros H. destruct (x <=? y) eqn:E; [|reflexivity].
  apply leb_not_nan in E. destruct E. congruence.
Qed.

Lemma is_nan_leb_r x y : is_nan y = true -> (x <=? y) = false.
Proof.
  intros H. destruct (x <=? y) eqn:E; [|reflexivity].
  apply leb_not_nan in E. destruct E. congruence.
Qed.

Lemma ltb_negb_leb x y :
  is_nan x = false -> is_nan y = false -> (y <? x) = negb (x <=? y).
Proof.
  intros Hx Hy. destruct (x <=? y) eqn:E; cbn [negb].
  - destruct (y <? x) eqn:L; [|reflexivity].
    apply ltb_leb_false in L. congruence.
  - now apply leb_false_ltb.
Qed.

Lemma leb_negb_ltb x y :
  is_nan x = false -> is_nan y = false -> (y <=? x) = negb (x <? y).
Proof.
  intros Hx Hy. destruct (x <? y) eqn:E; cbn [negb].
  - now apply ltb_leb_false.
  - now apply ltb_false_leb.
Qed.

(** Below or at a constant is below every larger constant. *)
Lemma leb_ltb_const x a b : (a <? b) = true -> (x <=? a) = true -> (x <? b) = true.
Proof. intros H1 H2. eapply leb_ltb_trans; eauto. Qed.
End Thresholds.

Ltac bool_prune :=
  repeat match goal with
  | H : true = true -> _ |- _ => specialize (H eq_refl)
  | H : false = true -> _ |- _ => clear H
  | H : true = false |- _ => discriminate H
  | H : false = true |- _ => discriminate H
  | H : true = true |- _ => clear H
  | H : false = false |- _ => clear H
  | H : ?b = true |- _ => is_var b; subst b
  | H : ?b = false |- _ => is_var b; subst b
  end.

Ltac bool_cases :=
  repeat split; intros; try discriminate; try reflexivity; try tauto;
  repeat match goal with
         | H : _ /\ _ |- _ => destruct H
         | H : _ \/ _ |- _ => destruct H
         end;
  try discriminate; try lia; auto.

(** ** technical_analysis.py: [analyze_rsi] *)

Section RSIScore.
Import Py Technical.
Local Open Scope float_scope.

(** X10. The score of [analyze_rsi] is 3 exactly for 50 < RSI < 70, 2
    exactly for 40 < RSI <= 50, 1 for every other number (RSI <= 40 or
    RSI >= 70) and 0 exactly for a NaN RSI, which is also the only RSI
    with the signal "NEUTRAL" and is classified "Bearish".  So the ideal
    zone scores 2 or 3, an overbought RSI still scores 1, and the zone
    "Oversold" (RSI < 30) always carries the oversold signal. *)
Theorem analyze_rsi_score (rsi : float) :
  let a := analyze_rsi rsi in
  (rsi_score a = 3%Z <-> gt rsi 50 = true /\ lt rsi 70 = true)
  /\ (rsi_score a = 2%Z <-> gt rsi 40 = true /\ le rsi 50 = true)
  /\ (rsi_score a = 1%Z <-> le rsi 40 = true \/ ge rsi 70 = true)
  /\ (rsi_score a = 0%Z <-> is_nan rsi = true)
  /\ (rsi_signal_of a = RSI_NEUTRAL <-> is_nan rsi = true)
  /\ (is_nan rsi = true -> zone a = Bearish)
  /\ (rsi_signal_of a = RSI_IDEAL_ZONE -> (2 <= rsi_score a)%Z)
  /\ (rsi_signal_of a = RSI_OVERBOUGHT <-> zone a = Overbought)
  /\ (zone a = Overbought -> rsi_score a = 1%Z)
  /\ (zone a = Oversold -> rsi_signal_of a = RSI_OVERSOLD)
  /\ (rsi_signal_of a = RSI_OVERSOLD -> rsi_score a = 1%Z)
  /\ (zone a = Bullish <-> gt rsi 50 = true /\ le rsi 70 = true).
Proof.
  intros a. subst a. unfold analyze_rsi.
  cbn [rsi_score rsi_signal_of zone]. unfold gt, ge, lt, le.
  destruct (is_nan rsi) eqn:N.
  - rewrite !(is_nan_ltb_l rsi), !(is_nan_ltb_r _ rsi),
      !(is_nan_leb_l rsi), !(is_nan_leb_r _ rsi) by exact N.
    vm_compute. bool_cases.
  - assert (C : forall c, is_nan c = false ->
                (c <? rsi) = negb (rsi <=? c)
                /\ (c <=? rsi) = negb (rsi <? c)).
    { intros c Hc. split; [now apply ltb_negb_leb|now apply leb_negb_ltb]. }
    destruct (C 40 eq_refl) as [-> ->]. destruct (C 45 eq_refl) as [_ ->].
    destruct (C 50 eq_refl) as [-> _]. destruct (C 70 eq_refl) as [-> ->].
    clear C.
    pose proof (ltb_leb rsi 30) as H1.
    pose proof (leb_ltb_const rsi 30 40 eq_refl) as H2.
    pose proof (ltb_leb rsi 40) as H3.
    pose proof (leb_ltb_const rsi 40 45 eq_refl) as H4.
    pose proof (ltb_leb rsi 45) as H5.
    pose proof (leb_ltb_const rsi 45 50 eq_refl) as H6.
    pose proof (ltb_leb rsi 50) as H7.
    pose proof (leb_ltb_const rsi 50 60 eq_refl) as H8.
    pose proof (ltb_leb rsi 60) as H9.
    pose proof (leb_ltb_const rsi 60 70 eq_refl) as H10.
    pose proof (ltb_leb rsi 70) as H11.
    revert H1 H2 H3 H4 H5 H6 H7 H8 H9 H10 H11.
    generalize (rsi <? 30) (rsi <=? 30) (rsi <? 40) (rsi <=? 40)
      (rsi <? 45) (rsi <=? 45) (rsi <? 50) (rsi <=? 50)
      (rsi <? 60) (rsi <=? 60) (rsi <? 70) (rsi <=? 70).
    intros L30 E30 L40 E40 L45 E45 L50 E50 L60 E60 L70 E70.
    intros H1 H2 H3 H4 H5 H6 H7 H8 H9 H10 H11.
    destruct L30; bool_prune; [|destruct E30; bool_prune;
      [|destruct L40; bool_prune; [|destruct E40; bool_prune;
      [|destruct L45; bool_prune; [|destruct E45; bool_prune;
      [|destruct L50; bool_prune; [|destruct E50; bool_prune;
      [|destruct L60; bool_prune; [|destruct E60; bool_prune;
      [|destruct L70; bool_prune; [|destruct E70; bool_prune]]]]]]]]]]];
    vm_compute; bool_cases.
Qed.
End RSIScore.

(** ** technical_analysis.py: [find_pivot_points] *)

Section PivotPoints.
Import Py Signals Pivots.
Local Open Scope float_scope.

Lemma eqb_fcmp x y : (x =? y) = true <-> fcmp x y = Some Eq.
Proof.
  rewrite FloatAxioms.eqb_spec. unfold SFeqb, fcmp.
  destruct (SFcompare _ _) as [[]|]; split; congruence.
Qed.

Lemma eqb_not_nan x y :
  (x =? y) = true -> is_nan x = false /\ is_nan y = false.
Proof.
  intros H. apply eqb_fcmp in H.
  destruct (is_nan x) eqn:Hx, (is_nan y) eqn:Hy; auto;
    assert (N : fcmp x y = None) by (apply fcmp_None; auto); congruence.
Qed.

(** Nothing exceeds a number that equals an upper bound. *)
Lemma leb_of_eqb_max x r m :
  is_nan x = false -> (r =? m) = true -> (m <? x) = false ->
  (x <=? r) = true.
Proof.
  intros Hx E H. destruct (eqb_not_nan _ _ E) as [Hr Hm].
  destruct (x <=? r) eqn:L; [reflexivity|].
  apply leb_false_ltb in L; trivial.
  assert (Xm : (x <=? m) = true) by now apply ltb_false_leb.
  pose proof (ltb_leb_trans _ _ _ L Xm) as Lt.
  apply ltb_fcmp in Lt. apply eqb_fcmp in E. congruence.
Qed.

Lemma geb_of_eqb_min x r m :
  is_nan x = false -> (r =? m) = true -> (x <? m) = false ->
  (r <=? x) = true.
Proof.
  intros Hx E H. destruct (eqb_not_nan _ _ E) as [Hr Hm].
  destruct (r <=? x) eqn:L; [reflexivity|].
  apply leb_false_ltb in L; trivial.
  assert (Xm : (m <=? x) = true) by now apply ltb_false_leb.
  pose proof (leb_ltb_trans _ _ _ Xm L) as Lt.
  apply ltb_fcmp in Lt. apply eqb_fcmp in E.
  rewrite (fcmp_antisym r m), E in Lt. discriminate.
Qed.

Lemma In_insert_sorted x y l : In y (insert_sorted x l) <-> y = x \/ In y l.
Proof.
  induction l as [|z l IH]; cbn [insert_sorted].
  - cbn. intuition.
  - destruct (lt x z); cbn [In] in *; rewrite ?IH; intuition.
Qed.

Lemma In_sorted_fold l : forall acc y,
  In y (fold_left (fun acc x => insert_sorted x acc) l acc)
  <-> In y acc \/ In y l.
Proof.
  induction l as [|x l IH]; intros acc y; cbn [fold_left].
  - cbn. intuition.
  - rewrite IH, In_insert_sorted. cbn [In]. intuition.
Qed.

Lemma In_sorted l y : In y (sorted l) <-> In y l.
Proof. unfold sorted. rewrite In_sorted_fold. cbn. intuition. Qed.

Lemma last_lookup_default {A} (l : list A) (d x : A) :
  l !! (length l - 1)%nat = Some x -> List.last l d = x.
Proof.
  induction l as [|a [|b l] IH]; cbn [length]; intros H.
  - discriminate.
  - cbn in H. now injection H.
  - apply IH. cbn [length].
    replace (S (S (length l)) - 1)%nat with (S (S (length l) - 1)) in H
      by lia.
    exact H.
Qed.

Lemma cluster_fold first rest : forall clustered,
  clustered <> [] -> spaced clustered ->
  let r := fold_left (cluster_step first) rest clustered in
  spaced r /\ forall y, In y r -> In y clustered \/ In y rest.
Proof.
  induction rest as [|level rest IH]; intros clustered Hne Hsp;
    cbn [fold_left].
  - split; [exact Hsp|auto].
  - assert (S' : cluster_step first clustered level <> []
                 /\ spaced (cluster_step first clustered level)
                 /\ forall y, In y (cluster_step first clustered level) ->
                      In y clustered \/ y = level).
    { unfold cluster_step.
      destruct (gt (level / List.last clustered first) 1.01) eqn:G.
      - split; [now destruct clustered|]. split.
        + intros i a b Ha Hb.
          destruct (decide (S i < length clustered)%nat) as [Hlt|Hge].
          * rewrite lookup_app_l in Ha by lia.
            rewrite lookup_app_l in Hb by lia. eauto.
          * assert (Hb' := Hb).
            apply lookup_lt_Some in Hb'. rewrite length_app in Hb'.
            cbn [length] in Hb'.
            assert (Hi : S i = length clustered) by lia.
            rewrite lookup_app_r in Hb by lia.
            rewrite Hi, Nat.sub_diag in Hb. injection Hb as <-.
            rewrite lookup_app_l in Ha by lia.
            assert (Hl : List.last clustered first = a).
            { apply last_lookup_default.
              replace (length clustered - 1)%nat with i by lia. exact Ha. }
            now rewrite <- Hl.
        + intros y Hy. apply in_app_or in Hy as [Hy|[<-|[]]]; auto.
      - split; [exact Hne|]. split; [exact Hsp|auto]. }
    destruct S' as (N1 & N2 & N3).
    destruct (IH _ N1 N2) as (R1 & R2). split; [exact R1|].
    intros y Hy. destruct (R2 y Hy) as [H|H].
    + destruct (N3 y H) as [H' | ->]; [now left|right; now left].
    + right; now right.
Qed.

Lemma spaced_last_n n l : spaced l -> spaced (last_n n l).
Proof.
  unfold spaced, last_n. intros H i a b Ha Hb.
  rewrite lookup_drop in Ha, Hb.
  apply (H (length l - n + i)%nat); trivial.
  now rewrite <- Nat.add_succ_r.
Qed.

Lemma In_last_n {A} n (l : list A) y : In y (last_n n l) -> In y l.
Proof.
  unfold last_n. intros H. apply list_elem_of_In in H.
  apply list_elem_of_In. apply list_elem_of_lookup in H as (i & H).
  rewrite lookup_drop in H. eapply list_elem_of_lookup_2; eauto.
Qed.

Lemma length_last_n {A} n (l : list A) : (length (last_n n l) <= n)%nat.
Proof. unfold last_n. rewrite length_skipn. lia. Qed.

Lemma cluster_levels_spec levels :
  (length (cluster_levels levels) <= 5)%nat
  /\ spaced (cluster_levels levels)
  /\ forall y, In y (cluster_levels levels) -> In y levels.
Proof.
  unfold cluster_levels.
  destruct (sorted levels) as [|first rest] eqn:E.
  - split; [cbn; lia|]. split; [intros i a b Ha; discriminate|intros y []].
  - cbv zeta.
    destruct (cluster_fold first rest [first]) as (H1 & H2).
    + discriminate.
    + intros [|i] a b Ha Hb; discriminate.
    + split; [apply length_last_n|]. split; [now apply spaced_last_n|].
      intros y Hy. apply In_last_n in Hy. apply In_sorted. rewrite E.
      destruct (H2 y Hy) as [[<-|[]]|H]; [now left|now right].
Qed.

Lemma pivot_loop_In extreme col window r :
  In r (pivot_loop extreme col window) ->
  exists i, (window <= i < length col - window)%nat
    /\ col !! i = Some r
    /\ (r =? extreme (window_slice col i window)) = true.
Proof.
  unfold pivot_loop. intros H.
  apply in_flat_map in H as (i & Hi & H). apply in_seq in Hi.
  destruct (nth i col nan =? extreme (window_slice col i window)) eqn:E;
    [|destruct H].
  destruct H as [<-|[]]. exists i. split; [lia|]. split; [|exact E].
  destruct (nth_lookup_or_length col i nan) as [H|H]; [exact H|lia].
Qed.

Lemma window_slice_In col i window j x :
  (i - window <= j <= i + window)%nat -> (window <= i)%nat ->
  col !! j = Some x -> In x (window_slice col i window).
Proof.
  intros Hj Hw Hx. unfold window_slice. apply list_elem_of_In.
  apply (list_elem_of_lookup_2 _ (j - (i - window))%nat).
  rewrite lookup_take_lt by lia. rewrite lookup_drop.
  replace (i - window + (j - (i - window)))%nat with j by lia. exact Hx.
Qed.

Lemma pivot_loop_short extreme col window :
  (length col <= 2 * window)%nat -> pivot_loop extreme col window = [].
Proof.
  intros H. unfold pivot_loop.
  replace (length col - window - window)%nat with 0%nat by lia.
  reflexivity.
Qed.

Lemma series_max_bound xs x :
  In x xs -> is_nan x = false -> gt x (series_max xs) = false.
Proof.
  intros Hin Hx. unfold series_max.
  assert (F : In x (List.filter (fun x => negb (is_nan x)) xs)).
  { apply filter_In. split; [exact Hin|now rewrite Hx]. }
  destruct (List.filter _ xs) as [|first rest]; [destruct F|].
  now apply py_max_spec.
Qed.

Lemma series_min_bound xs x :
  In x xs -> is_nan x = false -> lt x (series_min xs) = false.
Proof.
  intros Hin Hx. unfold series_min.
  assert (F : In x (List.filter (fun x => negb (is_nan x)) xs)).
  { apply filter_In. split; [exact Hin|now rewrite Hx]. }
  destruct (List.filter _ xs) as [|first rest]; [destruct F|].
  now apply py_min_spec.
Qed.

(** X11. [find_pivot_points] returns no level for a frame of at most
    [2 * window] rows.  Otherwise each list has at most 5 levels, any two
    neighbours more than 1% apart (the later over the earlier above 1.01).
    Every resistance level is a number, the 'High' of a bar with [window]
    bars on either side, and no 'High' within [window] bars of it is
    higher; every support level likewise is a 'Low' with no lower 'Low'
    within [window] bars.  So on a frame of at most 10 rows
    [analyze_support_resistance] falls back on the 60-day levels. *)
Theorem find_pivot_points_levels (high low : list float) (window : nat) :
  let resistance := fst (find_pivot_points high low window) in
  let support := snd (find_pivot_points high low window) in
  ((length high <= 2 * window)%nat -> resistance = [])
  /\ ((length high < 2 * window)%nat \/ (length low <= 2 * window)%nat ->
      support = [])
  /\ (length resistance <= 5)%nat /\ (length support <= 5)%nat
  /\ (forall i a b, resistance !! i = Some a -> resistance !! S i = Some b ->
        gt (b / a) 1.01 = true)
  /\ (forall i a b, support !! i = Some a -> support !! S i = Some b ->
        gt (b / a) 1.01 = true)
  /\ (forall r, In r resistance ->
        is_nan r = false
        /\ exists i, (window <= i < length high - window)%nat
           /\ high !! i = Some r
           /\ forall j x, (i - window <= j <= i + window)%nat ->
                high !! j = Some x -> is_nan x = false -> le x r = true)
  /\ (forall s, In s support ->
        is_nan s = false
        /\ exists i, (window <= i < length low - window)%nat
           /\ low !! i = Some s
           /\ forall j x, (i - window <= j <= i + window)%nat ->
                low !! j = Some x -> is_nan x = false -> ge x s = true)
  /\ (forall current_price resistance_60 support_60,
        (length high <= 10)%nat -> length low = length high ->
        let a := analyze_support_resistance_df current_price high low
                   resistance_60 support_60 in
        sr_nearest_resistance a = resistance_60
        /\ sr_nearest_support a = support_60).
Proof.
  intros resistance support.
  assert (R : resistance = [] \/
              resistance = cluster_levels (pivot_loop series_max high window)).
  { subst resistance. unfold find_pivot_points.
    destruct (length high <? window * 2)%nat; [now left|now right]. }
  assert (S : support = [] \/
              support = cluster_levels (pivot_loop series_min low window)).
  { subst support. unfold find_pivot_points.
    destruct (length high <? window * 2)%nat; [now left|now right]. }
  assert (Rempty : (length high <= 2 * window)%nat -> resistance = []).
  { intros H. destruct R as [R|R]; [exact R|]. rewrite R, pivot_loop_short by exact H.
    reflexivity. }
  split; [exact Rempty|].
  split.
  { intros [H|H].
    - subst support. unfold find_pivot_points.
      destruct (Nat.ltb_spec (length high) (window * 2)); [reflexivity|lia].
    - destruct S as [S|S]; [exact S|]. rewrite S, pivot_loop_short by exact H.
      reflexivity. }
  split.
  { destruct R as [->| ->]; [cbn; lia|apply cluster_levels_spec]. }
  split.
  { destruct S as [->| ->]; [cbn; lia|apply cluster_levels_spec]. }
  split.
  { destruct R as [->| ->]; [intros i a b Ha; discriminate|].
    apply cluster_levels_spec. }
  split.
  { destruct S as [->| ->]; [intros i a b Ha; discriminate|].
    apply cluster_levels_spec. }
  split.
  { intros r Hr. destruct R as [R|R]; rewrite R in Hr; [destruct Hr|].
    apply cluster_levels_spec in Hr.
    apply pivot_loop_In in Hr as (i & Hi & Hl & E).
    split; [apply (eqb_not_nan _ _ E)|].
    exists i. split; [exact Hi|]. split; [exact Hl|].
    intros j x Hj Hx Nx. unfold le.
    apply (leb_of_eqb_max x r _ Nx E).
    apply series_max_bound; [|exact Nx].
    apply (window_slice_In _ _ _ j); [lia|lia|exact Hx]. }
  split.
  { intros s Hs. destruct S as [S|S]; rewrite S in Hs; [destruct Hs|].
    apply cluster_levels_spec in Hs.
    apply pivot_loop_In in Hs as (i & Hi & Hl & E).
    split; [apply (eqb_not_nan _ _ E)|].
    exists i. split; [exact Hi|]. split; [exact Hl|].
    intros j x Hj Hx Nx. unfold ge.
    apply (geb_of_eqb_min x s _ Nx E).
    apply series_min_bound; [|exact Nx].
    apply (window_slice_In _ _ _ j); [lia|lia|exact Hx]. }
  intros current_price resistance_60 support_60 H L a. subst a.
  unfold analyze_support_resistance_df, find_pivot_points.
  destruct (length high <? 5 * 2)%nat eqn:G; [split; reflexivity|].
  rewrite !pivot_loop_short by lia. split; reflexivity.
Qed.
End PivotPoints.

(** ** combined_analysis.py: the recommendation in points *)

Section RecommendationPoints.
Import Py Technical Combined Decision.
Local Open Scope float_scope.

Lemma points_check_holds points :
  (0 <= points <= 100)%Z -> points_check points = true.
Proof.
  intros H. apply (forallb_Z_range points_check 101); [|lia].
  vm_compute. reflexivity.
Qed.

(** Every bucket adds 0, 5 or 10 points. *)
Ltac step_let5 :=
  lazymatch goal with
  | |- context C [let x := ?v in @?b x] =>
      let s := fresh "s" in
      pose (s := v);
      let g := context C [b s] in
      let g' := eval cbv beta in g in
      change g';
      lazymatch v with
      | if _ then (?p + ?k)%Z else _ =>
          assert ((s - p) mod 5 = 0)%Z
            by (subst s;
                repeat match goal with
                  | |- context [if ?c then _ else _] => destruct c
                  end; reflexivity || (rewrite ?Z.sub_diag;
                    rewrite ?Z.add_simpl_l; reflexivity));
          clearbody s
      | _ => idtac
      end
  end.

Lemma fundamental_points_mod5 (fund_result : gmap string float) :
  (fst (fundamental_points fund_result) mod 5 = 0)%Z.
Proof.
  cbv beta delta [fundamental_points].
  repeat step_let5.
  repeat match goal with x := _ : Z |- _ => subst x end.
  cbn [fst]. Z.to_euclidean_division_equations. lia.
Qed.

(** X12. Lines 66-84 of [analyze_stock_comprehensive].  On the coroutine
    object that the function holds as written they raise [AttributeError]
    and recommend nothing.  On a metrics dictionary and the result of
    [complete_technical_analysis] they return, and with the fundamentals'
    points (out of 100, always a multiple of 5) and the technical total
    (out of 15) the recommendation is "STRONG BUY" exactly for at least 70
    points and a total of at least 11, "BUY WITH CAUTION" exactly for at
    least 70 points and a total of 8 to 10, "WAIT" exactly for 50 to 65
    points and a total of at least 11, and "AVOID" otherwise: dividing
    the counts and multiplying by 100 moves no case across a threshold. *)
Theorem recommendation_by_points (fund_result : gmap string float)
    (d : indicators) :
  let tech_result := complete_technical_analysis d in
  let points := fst (fundamental_points fund_result) in
  let total := total_score tech_result in
  (forall tech,
      Portfolio.score_and_recommend Portfolio.Coroutine tech
      = Raise AttributeError)
  /\ Portfolio.score_and_recommend (Portfolio.Dict fund_result)
       Portfolio.Coroutine
     = Raise TypeError
  /\ exists c,
      Portfolio.score_and_recommend (Portfolio.Dict fund_result)
        (Portfolio.Dict tech_result)
      = Ok c
      /\ fundamental_score c = _calculate_fundamental_score fund_result
      /\ technical_score c = score_percentage tech_result
      /\ recommendation_of c
         = fst (recommend (fundamental_score c) (technical_score c))
      /\ (0 <= points <= 100 /\ points mod 5 = 0 /\ 0 <= total <= 15)%Z
      /\ (recommendation_of c = Combined.STRONG_BUY
          <-> (70 <= points /\ 11 <= total)%Z)
      /\ (recommendation_of c = BUY_WITH_CAUTION
          <-> (70 <= points /\ 8 <= total <= 10)%Z)
      /\ (recommendation_of c = Combined.WAIT
          <-> (50 <= points <= 65 /\ 11 <= total)%Z)
      /\ (recommendation_of c = Combined.AVOID
          <-> (points < 50 \/ total < 8 \/ (points < 70 /\ total < 11))%Z).
Proof.
  intros tech_result points total.
  split; [intros tech; reflexivity|]. split; [reflexivity|].
  exists (comprehensive_of fund_result tech_result).
  split; [reflexivity|].
  set (c := comprehensive_of fund_result tech_result).
  pose proof (fundamental_points_mod5 fund_result) as M. fold points in M.
  destruct (fundamental_points_range fund_result) as (score & Hs & E).
  assert (Ep : points = score) by (subst points; now rewrite E).
  pose proof (total_score_range d) as Ht. fold tech_result total in Ht.
  pose proof (points_check_holds score Hs) as Pc.
  apply andb_prop in Pc as [P70 P50]. apply eqb_prop in P70, P50.
  pose proof (total_check_holds _ Ht) as Tc. unfold Checks.total_check in Tc.
  apply andb_prop in Tc as [Tc T50]. apply andb_prop in Tc as [_ T67].
  apply eqb_prop in T67, T50.
  assert (R : recommendation_of c
              = fst (recommend (pct_of_points score)
                       (Checks.pct_of_total total))).
  { subst c. unfold comprehensive_of, _calculate_fundamental_score.
    rewrite E.
    destruct (0 <? 100)%Z eqn:Z100; [|discriminate].
    change (score_percentage tech_result) with (Checks.pct_of_total total).
    change (Z2float score / Z2float 100 * 100) with (pct_of_points score).
    destruct (recommend _ _). reflexivity. }
  assert (F1 : fundamental_score c = _calculate_fundamental_score fund_result)
    by (clear; subst c; unfold comprehensive_of;
        now destruct (recommend _ _)).
  assert (F2 : technical_score c = score_percentage tech_result)
    by (clear; subst c; unfold comprehensive_of;
        now destruct (recommend _ _)).
  split; [exact F1|]. split; [exact F2|].
  split.
  { rewrite F1, F2. clear. subst c. unfold comprehensive_of.
    destruct (recommend _ _). reflexivity. }
  rewrite R, recommend_fst, P70, P50, T67, T50, <- Ep.
  split; [lia|].
  assert (M65 : (points < 70 -> points <= 65)%Z)
    by (Z.to_euclidean_division_equations; lia).
  clear M R F1 F2 P70 P50 T67 T50 E.
  destruct (Z.leb_spec 70 points), (Z.leb_spec 50 points),
    (Z.leb_spec 11 total), (Z.leb_spec 8 total); cbn [andb];
    repeat split; intros; try discriminate; try lia.
Qed.
End RecommendationPoints.

(** ** technical_analysis.py and combined.py: a missing benchmark *)

Section MarketContext.
Import Py Batch.

Context {Frame Stock Value Analyses : Type}.
Variable get_yfinance_data : string -> Stock.
Variable spy_history : history (Frame := Frame).
Variable calculate_moving_averages : Frame -> Frame.
Variable latest_bar : Frame -> float * float * float.
Variable vix : Signals.vix_history.
Variable analyses : Frame -> result Analyses.
Variable compile :
  Analyses -> Signals.market_analysis -> Frame -> Frame ->
  outcome (Value := Value).

Local Abbreviation market :=
  (Context.analyze_market_trend get_yfinance_data spy_history
     calculate_moving_averages latest_bar vix).
Local Abbreviation technical :=
  (Context.complete_technical_analysis get_yfinance_data spy_history
     calculate_moving_averages latest_bar vix analyses compile).

(** X13. When the six-month history of the benchmark "SPY" cannot be
    fetched or is empty, [analyze_market_trend] yields no context (a bare
    [None] when the fetch raised, a [TypeError] when the frame is empty),
    and [complete_technical_analysis] raises for every stock: a
    [TypeError] from the unpacking whenever the stock's own analyses went
    through.  In [analyze_stock] of combined.py the entry of a ticker with
    price data then has no technical field.  When the fundamentals
    returned a dictionary the entry is that dictionary with the ticker,
    and has an 'error' key only if the dictionary has one; when they
    raised it is the ticker alone, with no error field; when they returned
    their error string the merge raises and the entry is the error record
    [{ticker, error}]. *)
Theorem complete_technical_analysis_without_benchmark :
  spy_history = HistoryRaises \/ spy_history = HistoryEmpty ->
  (spy_history = HistoryRaises -> market = Ok None)
  /\ (spy_history = HistoryEmpty -> market = Raise TypeError)
  /\ (forall df, exists e,
        technical df = Raised e
        /\ (forall a, analyses df = Ok a -> e = TypeError))
  /\ (forall (stock_history : string -> history (Frame := Frame))
        (compute_yfinance_metrics : Stock -> outcome (Value := Value))
        (str : exn -> string) (ticker : string) (df : Frame),
        stock_history ticker = HistoryFrame df ->
        let fun_ := compute_yfinance_metrics (get_yfinance_data ticker) in
        let d :=
          analyze_stock_dict get_yfinance_data stock_history
            compute_yfinance_metrics technical str ticker in
        d = (if returned_str fun_ then error_record str ticker TypeError
             else <["ticker" := Str ticker]> (handled fun_))
        /\ (forall f, fun_ = Returned f ->
              d = <["ticker" := Str ticker]> f
              /\ dom d = dom f ∪ {[ "ticker" ]}
              /\ d !! "error" = f !! "error")
        /\ (forall e, fun_ = Raised e ->
              d = {[ "ticker" := Str ticker ]} /\ d !! "error" = None)
        /\ (forall s, fun_ = ReturnedStr s ->
              d = error_record str ticker TypeError
              /\ d !! "error" = Some (Str (str TypeError)))).
Proof.
  intros H.
  assert (M : market = Ok None \/ market = Raise TypeError).
  { unfold Context.analyze_market_trend, get_stock_data.
    destruct H as [-> | ->]; auto. }
  assert (T : forall df, exists e,
            technical df = Raised e
            /\ (forall a, analyses df = Ok a -> e = TypeError)).
  { intros df. unfold Context.complete_technical_analysis.
    destruct (analyses df) as [a|e].
    - exists TypeError. split; [|reflexivity].
      destruct M as [-> | ->]; reflexivity.
    - exists e. split; [reflexivity|]. intros a Ha. discriminate. }
  split; [|split; [|split; [exact T|]]].
  - intros E. unfold Context.analyze_market_trend, get_stock_data.
    now rewrite E.
  - intros E. unfold Context.analyze_market_trend, get_stock_data.
    now rewrite E.
  - intros stock_history compute_yfinance_metrics str ticker df Hdf fun_ d.
    assert (D : d = (if returned_str fun_
                     then error_record str ticker TypeError
                     else <["ticker" := Str ticker]> (handled fun_))).
    { subst d.
      rewrite (entry_of_frame get_yfinance_data stock_history
                 compute_yfinance_metrics technical str ticker df Hdf).
      cbv zeta. fold fun_. destruct (T df) as (e & -> & _).
      cbn [returned_str handled]. rewrite orb_false_r.
      now rewrite (left_id_L ∅ (∪)). }
    split; [exact D|]. rewrite D. clear D.
    split; [|split].
    + intros f ->. cbn [returned_str handled].
      split; [reflexivity|]. split.
      * rewrite dom_insert_L. set_solver.
      * now rewrite lookup_insert_ne.
    + intros e ->. cbn [returned_str handled].
      split; [reflexivity|].
      rewrite lookup_insert_ne by discriminate. apply lookup_empty.
    + intros s0 ->. cbn [returned_str].
      split; [reflexivity|]. apply error_record_error.
Qed.
End MarketContext.

Lemma complete_technical_analysis_without_benchmark_witness :
  (forall df, exists e,
      ContextScenarios.demo_market Batch.HistoryEmpty df = Batch.Raised e
      /\ (forall a : unit, Py.Ok tt = Py.Ok a -> e = Py.TypeError))
  /\ Batch.analyze_stock_dict (fun ticker => ticker) demo_history
       demo_fundamentals (ContextScenarios.demo_market Batch.HistoryEmpty)
       demo_str "AAA"
     = {[ "ticker" := Batch.Str "AAA"; "ROE" := Batch.Val 18%Z ]}.
Proof.
  destruct (complete_technical_analysis_without_benchmark
              (Value := Z) (Analyses := unit)
              (fun ticker : string => ticker) Batch.HistoryEmpty
              (fun df => df) (fun _ => (100, 95, 90)%float)
              Signals.VixEmpty (fun _ => Py.Ok tt)
              (fun _ _ _ df => demo_technical df)
              (or_intror eq_refl)) as (_ & _ & T & E).
  split; [exact T|].
  destruct (E demo_history demo_fundamentals demo_str "AAA" "AAA" eq_refl)
    as (_ & F & _).
  exact (proj1 (F {[ "ROE" := Batch.Val 18%Z ]} eq_refl)).
Defined.

(** ** combined_analysis.py: [analyze_portfolio] *)

Section PortfolioPipeline.
Import Py Portfolio.

Context {Stock : Type}.
Variable get_yfinance_data : string -> result Stock.

Lemma keep_nothing (tickers : list string) :
  fold_left (keep get_yfinance_data) tickers [] = [].
Proof.
  induction tickers as [|ticker tickers IH]; [reflexivity|].
  cbn [fold_left]. unfold keep at 2, analyze_stock_comprehensive,
    analyze_single_stock.
  destruct (get_yfinance_data ticker); exact IH.
Qed.

(** X14. As written, [analyze_stock_comprehensive] never returns a result:
    [analyze_single_stock] hands it the coroutine object of the un-awaited
    [compute_yfinance_metrics], on which the first [get] of
    [_calculate_fundamental_score] raises [AttributeError]; it returns
    [None] only when the ticker object cannot be built.  [analyze_portfolio]
    catches the exception for each ticker, so it returns the empty list
    for every list of tickers. *)
Theorem analyze_portfolio_keeps_nothing (ticker_list : list string) :
  (forall ticker,
      (returns (get_yfinance_data ticker) ->
       analyze_single_stock get_yfinance_data ticker = Coroutine
       /\ analyze_stock_comprehensive get_yfinance_data ticker
          = Raise AttributeError)
      /\ (raises (get_yfinance_data ticker) ->
          analyze_single_stock get_yfinance_data ticker = HeldNone
          /\ analyze_stock_comprehensive get_yfinance_data ticker = Ok None)
      /\ (forall result,
            analyze_stock_comprehensive get_yfinance_data ticker
            <> Ok (Some result)))
  /\ analyze_portfolio get_yfinance_data ticker_list = [].
Proof.
  split.
  - intros ticker.
    unfold analyze_stock_comprehensive, analyze_single_stock.
    destruct (get_yfinance_data ticker) as [stock|e]; cbn.
    + split; [auto|]. split; [intros (e & H); discriminate|].
      intros result H. discriminate.
    + split; [intros (a & H); discriminate|]. split; [auto|].
      intros result H. discriminate.
  - unfold analyze_portfolio. rewrite keep_nothing. reflexivity.
Qed.
End PortfolioPipeline.

Section PortfolioSummary.
Import Py Portfolio.

(** X15. The four counts of [_print_portfolio_summary] count every result
    exactly once: each label contains exactly one of the four searched
    texts, so each count is the number of results with that
    recommendation and the counts add up to the number of results. *)
Theorem recommendation_breakdown_partition
    (results : list Combined.comprehensive) :
  let b := recommendation_breakdown results in
  let count r :=
    length (List.filter
              (fun x => same_recommendation (Combined.recommendation_of x) r)
              results) in
  fst (fst (fst b)) = count Combined.STRONG_BUY
  /\ snd (fst (fst b)) = count Combined.BUY_WITH_CAUTION
  /\ snd (fst b) = count Combined.WAIT
  /\ snd b = count Combined.AVOID
  /\ (fst (fst (fst b)) + snd (fst (fst b)) + snd (fst b) + snd b)%nat
     = length results.
Proof.
  unfold recommendation_breakdown, count_with. cbn [fst snd].
  induction results as [|r results IH]; [repeat split|].
  destruct IH as (I1 & I2 & I3 & I4 & I5).
  cbn [List.filter].
  destruct (Combined.recommendation_of r);
    repeat match goal with
           | |- context [contains ?s (label ?l)] =>
               let b := eval vm_compute in (contains s (label l)) in
               change (contains s (label l)) with b
           end;
    cbn [same_recommendation length]; repeat split; lia.
Qed.
End PortfolioSummary.

(** ** combined.py: the batching loop and the merge *)

Section BatchLoop.
Import Py Batch.

Context {Frame Stock Value : Type}.
Variable get_yfinance_data : string -> Stock.
Variable stock_history : string -> history (Frame := Frame).
Variable compute_yfinance_metrics : Stock -> outcome (Value := Value).
Variable complete_technical_analysis : Frame -> outcome (Value := Value).
Variable str : exn -> string.

Local Abbreviation analyze_all :=
  (analyze_multiple_stocks get_yfinance_data stock_history
     compute_yfinance_metrics complete_technical_analysis str).
Local Abbreviation one_pass :=
  (Batch.store_all get_yfinance_data stock_history compute_yfinance_metrics
     complete_technical_analysis str).
Local Abbreviation entry_of :=
  (analyze_stock_dict get_yfinance_data stock_history
     compute_yfinance_metrics complete_technical_analysis str).

Lemma batches_nil fuel batch_size : batches fuel batch_size [] = [].
Proof. destruct fuel; reflexivity. Qed.

Lemma batches_shape batch_size :
  (0 < batch_size)%nat ->
  forall fuel tickers,
    (length tickers <= fuel)%nat ->
    let bs := batches fuel batch_size tickers in
    Forall (fun b => (0 < length b <= batch_size)%nat) bs
    /\ (forall i b, bs !! i = Some b -> (S i < length bs)%nat ->
          length b = batch_size)
    /\ length bs = ((length tickers + batch_size - 1) / batch_size)%nat.
Proof.
  intros Hpos. induction fuel as [|fuel IH]; intros tickers Hlen.
  - destruct tickers; [|simpl in Hlen; lia]. cbn.
    split; [constructor|]. split; [intros i b Hb; discriminate|].
    symmetry. apply Nat.div_small. lia.
  - destruct tickers as [|t tickers].
    + cbn. split; [constructor|]. split; [intros i b Hb; discriminate|].
      symmetry. apply Nat.div_small. lia.
    + set (l := t :: tickers) in *.
      assert (Hl : (0 < length l)%nat) by (subst l; simpl; lia).
      change (batches (S fuel) batch_size l)
        with (take batch_size l :: batches fuel batch_size (drop batch_size l)).
      destruct (IH (drop batch_size l)) as (F & E & N).
      { rewrite length_drop. lia. }
      cbv zeta. split; [|split].
      * constructor; [rewrite length_take; lia|exact F].
      * intros [|i] b Hb Hi.
        -- injection Hb as <-. rewrite length_take.
           cbn [length] in Hi.
           destruct (le_lt_dec (length l) batch_size) as [Hle|Hgt]; [|lia].
           rewrite drop_ge in Hi by lia. rewrite batches_nil in Hi.
           simpl in Hi. lia.
        -- cbn [length] in Hi. apply (E i b); [exact Hb|lia].
      * cbn [length]. rewrite N, length_drop.
        destruct (le_lt_dec (length l) batch_size) as [Hle|Hgt].
        -- replace (length l - batch_size)%nat with 0%nat by lia.
           rewrite (Nat.div_small (0 + batch_size - 1)) by lia.
           apply (Nat.div_unique _ _ 1 (length l - 1)); lia.
        -- replace (length l + batch_size - 1)%nat
             with ((length l - batch_size + batch_size - 1)
                   + 1 * batch_size)%nat by lia.
           rewrite Nat.div_add by lia. lia.
Qed.

(** X16. [analyze_multiple_stocks] raises [ValueError] for a batch size of
    0, whatever the tickers, and for a negative batch size returns an
    empty mapping without analysing any ticker.  For a positive batch size
    the batches are the tickers in order, each ticker in exactly one
    batch: every batch but the last has exactly [batch_size] tickers, the
    last one between 1 and [batch_size], and there are
    ceil(len / batch_size) of them.  The mapping is the one a single pass
    over the tickers gives, so it does not depend on the batch size. *)
Theorem analyze_multiple_stocks_batches
    (tickers : list string) (batch_size : Z) :
  (batch_size = 0 -> analyze_all tickers batch_size = Raise ValueError)%Z
  /\ ((batch_size < 0)%Z -> analyze_all tickers batch_size = Ok ∅)
  /\ ((0 < batch_size)%Z ->
      let bs := batches (length tickers) (Z.to_nat batch_size) tickers in
      concat bs = tickers
      /\ Forall (fun b => (0 < Z.of_nat (length b) <= batch_size)%Z) bs
      /\ (forall i b, bs !! i = Some b -> (S i < length bs)%nat ->
            Z.of_nat (length b) = batch_size)
      /\ (Z.of_nat (length bs)
          = (Z.of_nat (length tickers) + batch_size - 1) / batch_size)%Z
      /\ analyze_all tickers batch_size = Ok (one_pass ∅ tickers)
      /\ (forall other, (0 < other)%Z ->
            analyze_all tickers other = analyze_all tickers batch_size)).
Proof.
  unfold analyze_multiple_stocks.
  split; [intros ->; reflexivity|].
  split.
  { intros H. destruct (Z.eqb_spec batch_size 0); [lia|].
    destruct (Z.ltb_spec batch_size 0); [reflexivity|lia]. }
  intros Hpos. cbv zeta.
  set (bs := batches (length tickers) (Z.to_nat batch_size) tickers).
  assert (Hn : (0 < Z.to_nat batch_size)%nat) by lia.
  destruct (batches_shape _ Hn (length tickers) tickers (le_n _))
    as (F & E & N). fold bs in F, E, N.
  assert (C : forall size, (0 < size)%Z ->
            (if (size =? 0)%Z then Raise ValueError
             else if (size <? 0)%Z then Ok ∅
             else Ok (fold_left
                        (store_batch get_yfinance_data stock_history
                           compute_yfinance_metrics
                           complete_technical_analysis str)
                        (batches (length tickers) (Z.to_nat size) tickers)
                        ∅))
            = Ok (one_pass ∅ tickers)).
  { intros size Hs.
    destruct (Z.eqb_spec size 0); [lia|].
    destruct (Z.ltb_spec size 0); [lia|].
    rewrite fold_batches_store_all, batches_concat by lia. reflexivity. }
  split; [apply batches_concat; lia|].
  split.
  { eapply Forall_impl; [exact F|]. cbv beta. intros b Hb. lia. }
  split.
  { intros i b Hb Hi. rewrite (E i b Hb Hi). lia. }
  split.
  { rewrite N. rewrite Nat2Z.inj_div.
    f_equal; lia. }
  split; [now apply C|].
  intros other Ho. rewrite !C by assumption. reflexivity.
Qed.

(** X17. The entry [analyze_stock] builds from two result dictionaries is
    [{**fun, **tech, 'ticker': ticker}]: its keys are those of the two
    results and 'ticker'; 'ticker' holds the requested ticker even when
    the fundamentals carry a 'ticker' of their own; on any other key the
    technical value wins over the fundamental one. *)
Theorem analyze_stock_merge (ticker : string) (df : Frame)
    (fun_ tech : gmap string (entry (Value := Value))) :
  stock_history ticker = HistoryFrame df ->
  compute_yfinance_metrics (get_yfinance_data ticker) = Returned fun_ ->
  complete_technical_analysis df = Returned tech ->
  let d := entry_of ticker in
  dom d = dom fun_ ∪ dom tech ∪ {[ "ticker" ]}
  /\ d !! "ticker" = Some (Str ticker)
  /\ (forall key, key <> "ticker" ->
        d !! key = match tech !! key with
                   | Some v => Some v
                   | None => fun_ !! key
                   end)
  /\ d !! "error" = match tech !! "error" with
                    | Some v => Some v
                    | None => fun_ !! "error"
                    end.
Proof.
  intros Hdf Hf Ht d. subst d.
  rewrite (entry_of_frame get_yfinance_data stock_history
             compute_yfinance_metrics complete_technical_analysis str
             ticker df Hdf).
  cbv zeta. rewrite Hf, Ht. cbn [returned_str handled orb].
  assert (K : forall key, key <> "ticker" ->
            (<["ticker" := Str ticker]> (tech ∪ fun_)) !! key
            = match tech !! key with
              | Some v => Some v
              | None => fun_ !! key
              end).
  { intros key Hk. rewrite lookup_insert_ne by congruence.
    destruct (tech !! key) as [v|] eqn:E.
    - now apply lookup_union_Some_l.
    - now rewrite lookup_union_r. }
  split; [|split; [|split]].
  - rewrite dom_insert_L, dom_union_L. set_solver.
  - apply lookup_insert_eq.
  - exact K.
  - apply K. discriminate.
Qed.
End BatchLoop.

Lemma analyze_stock_merge_witness :
  let d :=
    Batch.analyze_stock_dict (fun ticker => ticker) demo_history
      demo_fundamentals demo_technical demo_str "AAA" in
  d !! "ticker" = Some (Batch.Str "AAA")
  /\ d !! "total_score" = Some (Batch.Val 11%Z)
  /\ d !! "ROE" = Some (Batch.Val 18%Z).
Proof.
  destruct (analyze_stock_merge (fun ticker => ticker) demo_history
              demo_fundamentals demo_technical demo_str "AAA" "AAA"
              {[ "ROE" := Batch.Val 18%Z ]}
              {[ "total_score" := Batch.Val 11%Z ]}
              eq_refl eq_refl eq_refl) as (_ & T & K & _).
  split; [exact T|].
  split; [exact (K "total_score" ltac:(discriminate))
         |exact (K "ROE" ltac:(discriminate))].
Defined.

(** ** technical_analysis.py: [calculate_rsi] at the ends of its range *)

Section RSIFormula.
Import Py Technical Indicators.
Local Open Scope float_scope.

Lemma eqb_zero x : (x =? 0) = true -> exists s, Prim2SF x = S754_zero s.
Proof.
  rewrite FloatAxioms.eqb_spec. unfold SFeqb.
  change (Prim2SF 0) with (S754_zero false).
  destruct (Prim2SF x) as [s|s| |s m e]; cbn; try discriminate; eauto;
    destruct s; discriminate.
Qed.

Lemma gt_zero x :
  gt x 0 = true ->
  Prim2SF x = S754_infinity false
  \/ exists m e, Prim2SF x = S754_finite false m e.
Proof.
  unfold gt. rewrite FloatAxioms.ltb_spec. unfold SFltb.
  change (Prim2SF 0) with (S754_zero false).
  destruct (Prim2SF x) as [s|s| |s m e]; cbn; try discriminate.
  - destruct s; [discriminate|auto].
  - destruct s; [discriminate|eauto].
Qed.

Lemma float_of_zero x s :
  Prim2SF x = S754_zero s -> x = (if s then -0 else 0).
Proof. intros H. apply Prim2SF_inj. rewrite H. now destruct s. Qed.

Lemma float_of_infinity x s :
  Prim2SF x = S754_infinity s -> x = (if s then neg_infinity else infinity).
Proof. intros H. apply Prim2SF_inj. rewrite H. now destruct s. Qed.

Lemma float_of_nan x : Prim2SF x = S754_nan -> x = nan.
Proof. intros H. apply Prim2SF_inj. rewrite H. reflexivity. Qed.

(** X18. [calculate_rsi] at the ends: a row whose average gain and average
    loss are both zero (a flat price) has a NaN RSI, which [analyze_rsi]
    scores 0 with the signal "NEUTRAL"; gains without any loss give an RSI
    of exactly 100 (overbought, score 1); losses without any gain give
    exactly 0 (oversold, score 1); a NaN average gives a NaN RSI. *)
Theorem calculate_rsi_ends (gain loss : float) :
  ((gain =? 0) = true -> (loss =? 0) = true ->
   is_nan (rsi_of gain loss) = true
   /\ rsi_signal_of (analyze_rsi (rsi_of gain loss)) = RSI_NEUTRAL
   /\ rsi_score (analyze_rsi (rsi_of gain loss)) = 0%Z)
  /\ (gt gain 0 = true -> (loss =? 0) = true ->
      rsi_of gain loss = 100
      /\ rsi_signal_of (analyze_rsi (rsi_of gain loss)) = RSI_OVERBOUGHT
      /\ rsi_score (analyze_rsi (rsi_of gain loss)) = 1%Z)
  /\ ((gain =? 0) = true -> gt loss 0 = true ->
      rsi_of gain loss = 0
      /\ rsi_signal_of (analyze_rsi (rsi_of gain loss)) = RSI_OVERSOLD
      /\ zone (analyze_rsi (rsi_of gain loss)) = Oversold
      /\ rsi_score (analyze_rsi (rsi_of gain loss)) = 1%Z)
  /\ (is_nan gain = true \/ is_nan loss = true ->
      is_nan (rsi_of gain loss) = true).
Proof.
  unfold rsi_of. cbv zeta.
  split; [|split; [|split]].
  - intros Hg Hl. apply eqb_zero in Hg as (sg & Hg), Hl as (sl & Hl).
    assert (E : gain / loss = nan).
    { apply float_of_nan. rewrite FloatAxioms.div_spec, Hg, Hl.
      reflexivity. }
    rewrite E. repeat split; vm_compute; reflexivity.
  - intros Hg Hl. apply eqb_zero in Hl as (sl & Hl).
    assert (E : gain / loss = (if sl then neg_infinity else infinity)).
    { apply float_of_infinity. rewrite FloatAxioms.div_spec, Hl.
      destruct (gt_zero _ Hg) as [->|(m & e & ->)]; reflexivity. }
    rewrite E. destruct sl; repeat split; vm_compute; reflexivity.
  - intros Hg Hl. apply eqb_zero in Hg as (sg & Hg).
    assert (E : gain / loss = (if sg then -0 else 0)).
    { apply float_of_zero. rewrite FloatAxioms.div_spec, Hg.
      destruct (gt_zero _ Hl) as [->|(m & e & ->)]; cbn;
        now rewrite xorb_false_r. }
    rewrite E. destruct sg; repeat split; vm_compute; reflexivity.
  - intros H.
    assert (E : gain / loss = nan).
    { apply float_of_nan. rewrite FloatAxioms.div_spec.
      destruct H as [H|H]; apply is_nan_Prim2SF in H; rewrite H;
        [reflexivity|destruct (Prim2SF gain); reflexivity]. }
    rewrite E. vm_compute. reflexivity.
Qed.
End RSIFormula.

(** ** combined_analysis.py: the points of each metric *)

Section Buckets.
Import Py Combined.
Local Open Scope float_scope.

Lemma get_insert (m : gmap string float) k k' v d :
  get (<[k := v]> m) k' d = if decide (k = k') then v else get m k' d.
Proof.
  unfold get. destruct (decide (k = k')) as [->|Hne].
  - now rewrite lookup_insert_eq.
  - now rewrite lookup_insert_ne.
Qed.

Lemma get_delete (m : gmap string float) k k' d :
  get (delete k m) k' d = if decide (k = k') then d else get m k' d.
Proof.
  unfold get. destruct (decide (k = k')) as [->|Hne].
  - now rewrite lookup_delete_eq.
  - now rewrite lookup_delete_ne.
Qed.

(** Name the value of the outermost [let] of the goal; a score increment
    is kept as the sum of the previous score and the metric's points. *)
Ltac step_let_sum :=
  lazymatch goal with
  | |- context C [let x := ?v in @?b x] =>
      let s := fresh "s" in
      pose (s := v);
      let g := context C [b s] in
      let g' := eval cbv beta in g in
      change g';
      lazymatch v with
      | if ?c then (?p + ?k)%Z else if ?c' then (?p + ?k')%Z else ?p =>
          assert (s = p + (if c then k else if c' then k' else 0))%Z
            by (subst s; destruct c, c'; lia);
          clearbody s
      | if ?c then (?p + ?k)%Z else ?p =>
          assert (s = p + (if c then k else 0))%Z
            by (subst s; destruct c; lia);
          clearbody s
      | _ => idtac
      end
  end.

(** The points are the sum of what each metric earns on its own. *)
Lemma fundamental_points_sum (m : gmap string float) :
  fst (fundamental_points m)
  = ((if gt (get m "ROE" 0) 15 then 10
      else if gt (get m "ROE" 0) 10 then 5 else 0)
     + (if gt (get m "ROCE" 0) 15 then 10
        else if gt (get m "ROCE" 0) 10 then 5 else 0)
     + (if gt (get m "NPM" 0) 10 then 10
        else if gt (get m "NPM" 0) 5 then 5 else 0)
     + (if gt (get m "Earnings Growth 5yr cagr" 0) 15 then 10
        else if gt (get m "Earnings Growth 5yr cagr" 0) 5 then 5 else 0)
     + (if gt (get m "Sales Growth 5yr cagr" 0) 15 then 10
        else if gt (get m "Sales Growth 5yr cagr" 0) 5 then 5 else 0)
     + (if lt (get m "d/e_market" 0) 0.5 then 10
        else if lt (get m "d/e_market" 0) 1.0 then 5 else 0)
     + (if gt (get m "Interest coverage" 0) 3 then 10
        else if gt (get m "Interest coverage" 0) 2 then 5 else 0)
     + (if gt (get m "CFO" 0) 0 then 5 else 0)
     + (if lt (get m "p/e" infinity) 15 && gt (get m "p/e" infinity) 0
        then 10
        else if lt (get m "p/e" infinity) 25 && gt (get m "p/e" infinity) 0
             then 5 else 0)
     + (if gt (get m "EY" 0) 7 then 5 else 0)
     + (if gt (get m "cCFO/cPAT" 0) 1 then 10
        else if gt (get m "cCFO/cPAT" 0) 0.8 then 5 else 0))%Z.
Proof.
  cbv beta delta [fundamental_points].
  repeat step_let_sum.
  repeat match goal with x := _ |- _ => subst x end.
  cbn [fst]. lia.
Qed.
End Buckets.

Section MissingMetrics.
Import Py Combined.
Local Open Scope float_scope.

Lemma gt_nan_l x c : is_nan x = true -> gt x c = false.
Proof. intros H. unfold gt. now apply is_nan_ltb_r. Qed.

Lemma lt_nan_l x c : is_nan x = true -> lt x c = false.
Proof. intros H. unfold lt. now apply is_nan_ltb_l. Qed.

Lemma get_nan_or_default (m : gmap string float) key default :
  (forall key v, m !! key = Some v -> is_nan v = true) ->
  (m !! key = None /\ get m key default = default)
  \/ (m !! key <> None /\ is_nan (get m key default) = true).
Proof.
  intros H. unfold get. destruct (m !! key) as [v|] eqn:E.
  - right. split; [discriminate|]. now apply (H key).
  - left. auto.
Qed.

(** X19. The points of [_calculate_fundamental_score] when metrics are
    missing or NaN: a metric that is NaN earns nothing, and so does a
    missing one, except that a missing 'd/e_market' counts as a ratio of 0
    and earns its 10 points.  So the empty result scores 10, a result
    without 'd/e_market' at least 10, and a result whose metrics are all
    NaN scores 0, or 10 when 'd/e_market' is missing altogether. *)
Theorem fundamental_points_missing_or_nan (m : gmap string float) :
  fundamental_points ∅ = (10%Z, 100%Z)
  /\ _calculate_fundamental_score ∅ = 10
  /\ (m !! "d/e_market" = None -> (10 <= fst (fundamental_points m))%Z)
  /\ ((forall key v, m !! key = Some v -> is_nan v = true) ->
      fst (fundamental_points m)
      = match m !! "d/e_market" with Some _ => 0%Z | None => 10%Z end).
Proof.
  split; [reflexivity|]. split; [reflexivity|]. split.
  - intros H. rewrite fundamental_points_sum.
    assert (E : get m "d/e_market" 0 = 0) by (unfold get; now rewrite H).
    rewrite E. change (lt 0 0.5) with true. cbv iota.
    repeat match goal with
           | |- context [(if ?c then ?a else ?b)%Z] =>
               let B := fresh "B" in
               assert (B : (0 <= (if c then a else b))%Z)
                 by (destruct c; lia);
               revert B; generalize (if c then a else b)%Z; intros ? B
           end.
    lia.
  - intros H. rewrite fundamental_points_sum.
    assert (G : forall key c, gt (get m key 0) c = gt 0 c
                              \/ gt (get m key 0) c = false).
    { intros key c.
      destruct (get_nan_or_default m key 0 H) as [[_ ->]|[_ N]];
        [now left|right; now apply gt_nan_l]. }
    assert (P : forall c, lt (get m "p/e" infinity) c = lt infinity c
                          \/ lt (get m "p/e" infinity) c = false).
    { intros c.
      destruct (get_nan_or_default m "p/e" infinity H) as [[_ ->]|[_ N]];
        [now left|right; now apply lt_nan_l]. }
    assert (B1 : ((if gt (get m "ROE" 0) 15 then 10
                  else if gt (get m "ROE" 0) 10 then 5 else 0) = 0)%Z)
      by (destruct (G "ROE" 15) as [-> | ->], (G "ROE" 10) as [-> | ->];
          reflexivity).
    assert (B2 : ((if gt (get m "ROCE" 0) 15 then 10
                  else if gt (get m "ROCE" 0) 10 then 5 else 0) = 0)%Z)
      by (destruct (G "ROCE" 15) as [-> | ->], (G "ROCE" 10) as [-> | ->];
          reflexivity).
    assert (B3 : ((if gt (get m "NPM" 0) 10 then 10
                  else if gt (get m "NPM" 0) 5 then 5 else 0) = 0)%Z)
      by (destruct (G "NPM" 10) as [-> | ->], (G "NPM" 5) as [-> | ->];
          reflexivity).
    assert (B4 : ((if gt (get m "Earnings Growth 5yr cagr" 0) 15 then 10
                  else if gt (get m "Earnings Growth 5yr cagr" 0) 5 then 5
                       else 0) = 0)%Z)
      by (destruct (G "Earnings Growth 5yr cagr" 15) as [-> | ->],
            (G "Earnings Growth 5yr cagr" 5) as [-> | ->]; reflexivity).
    assert (B5 : ((if gt (get m "Sales Growth 5yr cagr" 0) 15 then 10
                  else if gt (get m "Sales Growth 5yr cagr" 0) 5 then 5
                       else 0) = 0)%Z)
      by (destruct (G "Sales Growth 5yr cagr" 15) as [-> | ->],
            (G "Sales Growth 5yr cagr" 5) as [-> | ->]; reflexivity).
    assert (B6 : ((if gt (get m "Interest coverage" 0) 3 then 10
                  else if gt (get m "Interest coverage" 0) 2 then 5
                       else 0) = 0)%Z)
      by (destruct (G "Interest coverage" 3) as [-> | ->],
            (G "Interest coverage" 2) as [-> | ->]; reflexivity).
    assert (B7 : ((if gt (get m "CFO" 0) 0 then 5 else 0) = 0)%Z)
      by (destruct (G "CFO" 0) as [-> | ->]; reflexivity).
    assert (B8 : ((if lt (get m "p/e" infinity) 15
                     && gt (get m "p/e" infinity) 0 then 10
                  else if lt (get m "p/e" infinity) 25
                          && gt (get m "p/e" infinity) 0 then 5
                       else 0) = 0)%Z)
      by (destruct (P 15) as [-> | ->], (P 25) as [-> | ->]; reflexivity).
    assert (B9 : ((if gt (get m "EY" 0) 7 then 5 else 0) = 0)%Z)
      by (destruct (G "EY" 7) as [-> | ->]; reflexivity).
    assert (B10 : ((if gt (get m "cCFO/cPAT" 0) 1 then 10
                   else if gt (get m "cCFO/cPAT" 0) 0.8 then 5
                        else 0) = 0)%Z)
      by (destruct (G "cCFO/cPAT" 1) as [-> | ->],
            (G "cCFO/cPAT" 0.8) as [-> | ->]; reflexivity).
    assert (B11 : ((if lt (get m "d/e_market" 0) 0.5 then 10
                   else if lt (get m "d/e_market" 0) 1.0 then 5 else 0)
                  = match m !! "d/e_market" with
                    | Some _ => 0
                    | None => 10
                    end)%Z).
    { destruct (get_nan_or_default m "d/e_market" 0 H) as [[E ->]|[E N]].
      - rewrite E. reflexivity.
      - rewrite !(lt_nan_l _ _ N). destruct (m !! "d/e_market");
          [reflexivity|congruence]. }
    rewrite B1, B2, B3, B4, B5, B6, B7, B8, B9, B10, B11.
    destruct (m !! "d/e_market"); reflexivity.
Qed.
End MissingMetrics.

(** ** fundamental_analysis.py: interest coverage *)

Section InterestCoverage.
Import Py Pandas Metrics Combined.
Local Open Scope float_scope.

Lemma abs_eqb_zero x : (abs x =? 0) = (x =? 0).
Proof.
  rewrite !FloatAxioms.eqb_spec, FloatAxioms.abs_spec.
  change (Prim2SF 0) with (S754_zero false).
  destruct (Prim2SF x) as [s|s| |s m e]; try reflexivity;
    destruct s; reflexivity.
Qed.

Lemma is_nan_abs x : is_nan x = true -> is_nan (abs x) = true.
Proof.
  rewrite !is_nan_Prim2SF, FloatAxioms.abs_spec. intros ->. reflexivity.
Qed.

Lemma is_nan_div_r x y : is_nan y = true -> is_nan (x / y) = true.
Proof.
  rewrite !is_nan_Prim2SF, FloatAxioms.div_spec. intros ->.
  destruct (Prim2SF x); reflexivity.
Qed.

Lemma list_latest_zeros n : (0 < n)%nat -> list_latest (zeros n) = Ok 0.
Proof.
  intros H. unfold list_latest, zeros.
  destruct n as [|n]; [lia|].
  replace (repeat 0 (S n)) with (repeat 0 n ++ [0]).
  - now rewrite last_snoc.
  - clear H. induction n as [|n IH]; [reflexivity|].
    cbn [repeat app]. now rewrite IH.
Qed.

(** X20. [Interest coverage] is [inf] when the income statement has no
    'Interest Expense' line or when its latest entry is zero (of either
    sign); otherwise it is the latest operating income over the absolute
    expense, NaN when the expense is NaN.  In
    [_calculate_fundamental_score] the coverage earns, on its own, 10
    points above 3 and 5 above 2: an infinite coverage earns the full 10
    and a NaN one nothing. *)
Theorem interest_coverage_spec (income : DataFrame) :
  ((0 < nrows income)%nat ->
   columns income !! "Interest Expense" = None ->
   interest_coverage income = Ok infinity)
  /\ (forall s x,
        columns income !! "Interest Expense" = Some s -> last s = Some x ->
        ((x =? 0) = true -> interest_coverage income = Ok infinity)
        /\ (forall operating_income,
              (x =? 0) = false ->
              list_latest
                (Pandas.get income "Operating Income" (zeros (nrows income)))
              = Ok operating_income ->
              interest_coverage income = Ok (operating_income / abs x)
              /\ (is_nan x = true ->
                  is_nan (operating_income / abs x) = true)))
  /\ (forall (m : gmap string float) v,
        fst (fundamental_points (<["Interest coverage" := v]> m))
        = (fst (fundamental_points (delete "Interest coverage" m))
           + (if gt v 3 then 10 else if gt v 2 then 5 else 0))%Z)
  /\ (forall m : gmap string float,
        fst (fundamental_points (<["Interest coverage" := infinity]> m))
        = (fst (fundamental_points (delete "Interest coverage" m)) + 10)%Z
        /\ fst (fundamental_points (<["Interest coverage" := nan]> m))
           = fst (fundamental_points (delete "Interest coverage" m))).
Proof.
  assert (B : forall (m : gmap string float) v,
            fst (fundamental_points (<["Interest coverage" := v]> m))
            = (fst (fundamental_points (delete "Interest coverage" m))
               + (if gt v 3 then 10 else if gt v 2 then 5 else 0))%Z).
  { intros m v. rewrite !fundamental_points_sum.
    rewrite !get_insert, !get_delete.
    repeat match goal with
           | |- context [decide (?a = ?b)] =>
               let d := eval vm_compute in (bool_decide (a = b)) in
               lazymatch d with
               | true => rewrite (decide_True (P := a = b)) by reflexivity
               | false => rewrite (decide_False (P := a = b)) by discriminate
               end
           end.
    change (gt 0 3) with false. change (gt 0 2) with false. cbv iota.
    lia. }
  split; [|split; [|split; [exact B|]]].
  - intros Hn Hc. unfold interest_coverage, Pandas.get. rewrite Hc.
    rewrite list_latest_zeros by exact Hn. reflexivity.
  - intros s x Hc Hx.
    assert (IC : interest_coverage income
                 = if negb (x =? 0) then
                     let! operating_income :=
                       list_latest
                         (Pandas.get income "Operating Income"
                            (zeros (nrows income))) in
                     Ok (operating_income / abs x)
                   else Ok infinity).
    { unfold interest_coverage. unfold Pandas.get at 1. rewrite Hc.
      unfold list_latest at 1. rewrite Hx. cbn [bind]. unfold ne.
      now rewrite abs_eqb_zero. }
    rewrite IC. split.
    + intros ->. reflexivity.
    + intros op E Hop. rewrite E. cbn [negb]. rewrite Hop. cbn [bind].
      split; [reflexivity|].
      intros N. apply is_nan_div_r. now apply is_nan_abs.
  - intros m. rewrite !B. change (gt infinity 3) with true.
    change (gt nan 3) with false. change (gt nan 2) with false.
    cbv iota. split; [reflexivity|lia].
Qed.
End InterestCoverage.

(** ** fundamental_analysis.py: growth and PEG *)

Section GrowthWindow.
Import Py Pandas Metrics Fundamental.
Local Open Scope float_scope.

Variable pow : float -> float -> float.

Lemma tail_slice_pos (k : nat) (s : list float) :
  (0 < k)%nat -> tail_slice k s = drop (length s - k) s.
Proof. destruct k; [lia|reflexivity]. Qed.

Lemma last_drop_lt {A} (l : list A) k :
  (k < length l)%nat -> last (drop k l) = last l.
Proof.
  intros H. rewrite <- (take_drop k l) at 2. rewrite last_app.
  destruct (last (drop k l)) eqn:E; [reflexivity|].
  apply last_None in E. apply (f_equal length) in E.
  rewrite length_drop in E. simpl in E. lia.
Qed.

Lemma growth_cases (series : list float) :
  let n := length series in
  (n = 1%nat -> growth pow series n = Ok 0)
  /\ ((2 <= n)%nat ->
      exists older values first latest,
        series = older ++ values
        /\ growth_window series n = Ok values
        /\ (2 <= length values <= 5)%nat
        /\ ((5 <= n)%nat ->
            length values = 4%nat
            <-> exists x, series !! (n - 5)%nat = Some x /\ is_nan x = true)
        /\ values !! 0%nat = Some first
        /\ last series = Some latest
        /\ growth pow series n
           = Ok (calculate_cagr pow first latest
                   (Z.of_nat (length values) - 1))
        /\ (le first 0 = true \/ le latest 0 = true ->
            growth pow series n = Ok nan))
  /\ (forall pe, peg pe 0 = infinity /\ is_nan (peg pe nan) = true).
Proof.
  intros n. subst n. set (n := length series).
  assert (Hn' : n = length series) by reflexivity. clearbody n.
  split; [|split].
  - intros H. destruct series as [|x [|y l]]; subst n; try discriminate.
    unfold growth, growth_window. cbn.
    destruct (isna x); reflexivity.
  - intros Hn.
    assert (W : forall k, (2 <= k <= 5)%nat -> (k <= n)%nat ->
              let values := tail_slice k series in
              exists older first latest,
                series = older ++ values /\ length values = k
                /\ values !! 0%nat = Some first
                /\ last series = Some latest
                /\ last values = Some latest).
    { intros k Hk Hkn values. subst values. subst n.
      rewrite tail_slice_pos by lia.
      assert (L : length (drop (length series - k) series) = k)
        by (rewrite length_drop; lia).
      assert (EL : last (drop (length series - k) series) = last series)
        by (apply last_drop_lt; lia).
      assert (TD : series = take (length series - k) series
                            ++ drop (length series - k) series)
        by (symmetry; apply take_drop).
      destruct (drop (length series - k) series) as [|first rest];
        [simpl in L; lia|].
      destruct (last series) as [latest|] eqn:ES.
      - exists (take (length series - k) series), first, latest.
        split; [exact TD|]. split; [exact L|]. split; [reflexivity|].
        split; [reflexivity|exact EL].
      - apply last_None in ES. rewrite ES in Hn. simpl in Hn. lia. }
    destruct (W (min 5 n)) as (older & first & latest & E1 & L1 & F1 & La & Lv1);
      [lia|lia|].
    destruct (W (min 4 n)) as (older4 & first4 & latest4 & E4 & L4 & F4 & La4 & Lv4);
      [lia|lia|].
    assert (latest4 = latest) by congruence. subst latest4.
    assert (GW : growth_window series n
                 = Ok (if isna first then tail_slice (min 4 n) series
                       else tail_slice (min 5 n) series)).
    { unfold growth_window, iloc. rewrite F1. cbn [bind].
      destruct (isna first); reflexivity. }
    assert (G : forall values f,
              growth_window series n = Ok values ->
              (2 <= length values)%nat ->
              values !! 0%nat = Some f -> last values = Some latest ->
              growth pow series n
              = Ok (calculate_cagr pow f latest
                      (Z.of_nat (length values) - 1))
              /\ (le f 0 = true \/ le latest 0 = true ->
                  growth pow series n = Ok nan)).
    { intros values f HW HL HF HLa. unfold growth. rewrite HW. cbn [bind].
      destruct (Z.ltb_spec 0 (Z.of_nat (length values) - 1)); [|lia].
      unfold iloc, list_latest. rewrite HF, HLa. cbn [bind].
      split; [reflexivity|].
      unfold calculate_cagr. intros [-> | ->];
        rewrite ?orb_true_r; reflexivity. }
    assert (X5 : (5 <= n)%nat -> series !! (n - 5)%nat = Some first).
    { intros H5. rewrite <- F1. rewrite tail_slice_pos by lia.
      rewrite lookup_drop. f_equal. lia. }
    destruct (isna first) eqn:NA.
    + exists older4, (tail_slice (min 4 n) series), first4, latest.
      destruct (G _ first4 GW) as (G1 & G2); [lia|exact F4|exact Lv4|].
      split; [exact E4|]. split; [exact GW|]. split; [lia|].
      split.
      { intros H5. split; [|intros _; lia].
        intros _. exists first. split; [now apply X5|exact NA]. }
      split; [exact F4|]. split; [exact La|]. split; [exact G1|exact G2].
    + exists older, (tail_slice (min 5 n) series), first, latest.
      destruct (G _ first GW) as (G1 & G2); [lia|exact F1|exact Lv1|].
      split; [exact E1|]. split; [exact GW|]. split; [lia|].
      split.
      { intros H5. split; [intros H; lia|].
        intros (x & Hx & Nx). rewrite (X5 H5) in Hx. injection Hx as <-.
        unfold isna in NA. congruence. }
      split; [exact F1|]. split; [exact La|]. split; [exact G1|exact G2].
  - intros pe. split; [reflexivity|].
    unfold peg. change (ne nan 0) with true. cbv iota.
    rewrite is_nan_Prim2SF, FloatAxioms.div_spec.
    change (Prim2SF nan) with S754_nan. destruct (Prim2SF pe); reflexivity.
Qed.

(** X21. The growth figures ('Earnings Growth 5yr cagr', 'Sales Growth 5yr
    cagr') of a series of [n >= 1] yearly entries: with a single entry the
    growth is 0, not NaN, and the PEG is [inf]; with more, the window is
    the last five entries (fewer if there are fewer), or the last four
    when the first of those five is NaN, and the growth is the CAGR from
    the first to the last entry of the window over one period less than
    its length (1 to 4); it is NaN as soon as one of the two ends is not
    positive, and the PEG is then NaN as well.  In particular a missing
    'Basic EPS' or 'Total Revenue' line gives a NaN growth over two or
    more years. *)
Theorem growth_spec (series : list float) :
  let n := length series in
  (n = 1%nat -> growth pow series n = Ok 0)
  /\ ((2 <= n)%nat ->
      exists older values first latest,
        series = older ++ values
        /\ growth_window series n = Ok values
        /\ (2 <= length values <= 5)%nat
        /\ ((5 <= n)%nat ->
            length values = 4%nat
            <-> exists x, series !! (n - 5)%nat = Some x /\ is_nan x = true)
        /\ values !! 0%nat = Some first
        /\ last series = Some latest
        /\ growth pow series n
           = Ok (calculate_cagr pow first latest
                   (Z.of_nat (length values) - 1))
        /\ (le first 0 = true \/ le latest 0 = true ->
            growth pow series n = Ok nan))
  /\ (forall pe, peg pe 0 = infinity /\ is_nan (peg pe nan) = true)
  /\ (forall income : DataFrame,
        (2 <= nrows income)%nat ->
        (columns income !! "Basic EPS" = None ->
         earnings_growth pow income = Ok nan)
        /\ (columns income !! "Total Revenue" = None ->
            sales_growth pow income = Ok nan)).
Proof.
  intros n.
  destruct (growth_cases series) as (G1 & G2 & G3). fold n in G1, G2.
  split; [exact G1|]. split; [exact G2|]. split; [exact G3|].
  assert (Z : forall k, (2 <= k)%nat -> growth pow (zeros k) k = Ok nan).
  { intros k Hk.
    assert (Lz : length (zeros k) = k) by apply repeat_length.
    pose proof (growth_cases (zeros k)) as H. cbv zeta in H.
    rewrite Lz in H. destruct H as (_ & H & _).
    destruct (H Hk) as (older & values & first & latest & E & _ & _ & _
                        & F & _ & _ & N).
    apply N. left.
    assert (I : In first (zeros k)).
    { rewrite E. apply in_or_app. right. apply list_elem_of_In.
      eapply list_elem_of_lookup_2; eauto. }
    apply repeat_spec in I. subst first. reflexivity. }
  intros income Hn. unfold earnings_growth, sales_growth, Pandas.get.
  split; intros ->; now apply Z.
Qed.
End GrowthWindow.

(** ** technical_analysis.py: a short price history *)

Section ShortHistory.
Import Py Signals Pivots History.
Local Open Scope float_scope.

Variable mean : list float -> float.

Lemma rolling_last_short aggregate window col :
  (length col < window)%nat -> rolling_last aggregate window col = nan.
Proof.
  intros H. unfold rolling_last.
  destruct (Nat.ltb_spec (length col) window); [reflexivity|lia].
Qed.

Lemma is_nan_div_l x y : is_nan x = true -> is_nan (x / y) = true.
Proof.
  rewrite !is_nan_Prim2SF, FloatAxioms.div_spec. intros ->. reflexivity.
Qed.

Lemma is_nan_mul_l x y : is_nan x = true -> is_nan (x * y) = true.
Proof.
  rewrite !is_nan_Prim2SF, FloatAxioms.mul_spec. intros ->. reflexivity.
Qed.

(** X22. On a short history the rolling columns are NaN and the analyses
    degrade silently.  With fewer than 200 rows [analyze_moving_averages]
    returns (it cannot raise), scores at most 1 of 3 and says "AVOID";
    with fewer than 50 rows it scores 0.  With at most 10 rows
    [analyze_support_resistance] has neither pivot levels nor 60-day
    levels: both distances are NaN, the price is neither at support nor
    near resistance, the score is 0 and the signal "NEUTRAL". *)
Theorem short_history_analyses (close high low : list float) :
  ((length close < 200)%nat ->
   exists o, analyze_moving_averages_df mean close = Ok o
     /\ (o = None <-> close = [])
     /\ forall a, o = Some a ->
          (ma_score a <= 1)%Z /\ ma_signal_of a = MA_AVOID
          /\ ma_above_200 a = false /\ ma_golden_cross a = false
          /\ ((length close < 50)%nat -> ma_score a = 0%Z))
  /\ ((length high <= 10)%nat -> length low = length high ->
      forall a, analyze_support_resistance_frame close high low = Some a ->
        is_nan (dist_to_resistance a) = true
        /\ is_nan (dist_to_support a) = true
        /\ at_support a = false /\ near_resistance a = false
        /\ sr_score a = 0%Z /\ sr_signal_of a = SR_NEUTRAL).
Proof.
  split.
  - intros H. unfold analyze_moving_averages_df.
    destruct (last close) as [current_price|] eqn:L.
    + cbv zeta. rewrite (rolling_last_short mean 200) by exact H.
      unfold analyze_moving_averages. cbv zeta.
      assert (A : gt current_price nan = false)
        by (unfold gt; now apply is_nan_ltb_l).
      assert (B : gt (rolling_last mean 50 close) nan = false)
        by (unfold gt; now apply is_nan_ltb_l).
      rewrite A, B.
      assert (S50 : (length close < 50)%nat ->
                    gt current_price (rolling_last mean 50 close) = false).
      { intros H50. rewrite rolling_last_short by exact H50. exact A. }
      destruct (gt current_price (rolling_last mean 50 close)) eqn:C;
        cbn [sum_bools fold_left Z.eqb bind Z.add Z.b2z];
        (eexists; split; [reflexivity|]);
        (split; [split; [discriminate|intros ->; discriminate]|]);
        intros a [= <-]; cbn [ma_score ma_signal_of ma_above_200
                               ma_golden_cross];
        repeat split; try reflexivity; try lia;
        intros H50; specialize (S50 H50); discriminate.
    + exists None. split; [reflexivity|]. split.
      * split; [intros _|reflexivity]. now apply last_None.
      * intros a Ha. discriminate.
  - intros H Hl a. unfold analyze_support_resistance_frame.
    destruct (last close) as [current_price|]; [|discriminate].
    intros [= <-]. unfold analyze_support_resistance_df, find_pivot_points.
    rewrite !rolling_last_short by lia.
    destruct (length high <? 5 * 2)%nat;
      [|rewrite !pivot_loop_short by lia];
      cbn [cluster_levels Pivots.sorted fold_left];
      unfold analyze_support_resistance;
      cbn [List.filter min_or max_or dist_to_resistance dist_to_support
           at_support near_resistance sr_score sr_signal_of];
      set (dr := (nan - current_price) / current_price * 100);
      set (ds := (current_price - nan) / current_price * 100);
      assert (Nr : is_nan dr = true)
        by (apply is_nan_mul_l, is_nan_div_l, is_nan_sub_l; reflexivity);
      assert (Ns : is_nan ds = true)
        by (apply is_nan_mul_l, is_nan_div_l, is_nan_sub_r; reflexivity);
      unfold lt, gt;
      rewrite !(is_nan_ltb_l ds), !(is_nan_ltb_r _ ds),
        !(is_nan_ltb_l dr), !(is_nan_ltb_r _ dr) by assumption;
      repeat split; assumption.
Qed.
End ShortHistory.

(** ** fundamental_analysis.py: margins of a single period *)

Section SinglePeriod.
Import Py Pandas Margins.
Local Open Scope float_scope.

Variable np_mean : list float -> float.

Lemma ratios_length num den back :
  forall l, ratios num den back = Ok l -> (length l <= length back)%nat.
Proof.
  induction back as [|k back IH]; intros l; cbn [ratios].
  - intros [= <-]. cbn. lia.
  - destruct (Signals.iloc_back den k) as [d|e]; cbn [bind];
      [|discriminate].
    destruct (ne d 0).
    + destruct (Signals.iloc_back num k) as [x|e]; cbn [bind];
        [|discriminate].
      destruct (ratios num den back) as [rest|e]; cbn [bind];
        [|discriminate].
      intros [= <-]. specialize (IH rest eq_refl). cbn [length]. lia.
    + intros H. specialize (IH l H). cbn [length]. lia.
Qed.

Lemma ratios_returns num den back :
  Forall (fun k => (1 <= k <= length num)%nat /\ (k <= length den)%nat) back ->
  returns (ratios num den back).
Proof.
  induction back as [|k back IH]; intros F; cbn [ratios].
  - eexists; reflexivity.
  - inversion F as [|? ? [Hk1 Hk2] F']; subst.
    destruct (IH F') as (rest & Hrest).
    assert (I : forall l : list float, (1 <= k <= length l)%nat ->
                exists x, Signals.iloc_back l k = Ok x).
    { intros l Hl. unfold Signals.iloc_back.
      destruct (Nat.leb_spec k (length l)); [|lia].
      destruct (l !! (length l - k)%nat) eqn:E; [eauto|].
      apply lookup_ge_None in E. lia. }
    destruct (I den) as (d & ->); [lia|]. cbn [bind].
    destruct (ne d 0).
    + destruct (I num) as (x & ->); [lia|]. cbn [bind]. rewrite Hrest.
      eexists; reflexivity.
    + eexists; exact Hrest.
Qed.

Lemma get_means_short (l : list float) :
  (length l <= 1)%nat ->
  Fundamental.get_means np_mean (map Some l) 2 = (-1)%float.
Proof.
  intros H. unfold Fundamental.get_means.
  set (kept := List.filter Fundamental.null_check (map Some l)).
  assert (K : (length kept <= 1)%nat).
  { subst kept. etransitivity; [apply filter_length_le|].
    now rewrite length_map. }
  destruct (Z.leb_spec 2 (Z.of_nat (length kept))); [lia|].
  now rewrite andb_false_r.
Qed.

(** X23. With a single reporting period the margins of
    [compute_yfinance_metrics] are sentinels, not ratios: at most one
    yearly ratio exists, [get_means] wants two, so 'NPM' and 'DPR' are -1
    and 'Retention Ratio' is 101, whatever the statement holds; the block
    returns whenever the lines it reads hold the period. *)
Theorem margins_single_period (income cashflow : DataFrame) :
  nrows income = 1%nat ->
  (forall r, margins_block np_mean income cashflow = Ok r ->
     NPM r = -1 /\ DPR r = -1 /\ Retention_Ratio r = 101)
  /\ ((forall key col, columns income !! key = Some col -> col <> []) ->
      (forall key col, columns cashflow !! key = Some col -> col <> []) ->
      returns (margins_block np_mean income cashflow)).
Proof.
  intros Hn. unfold margins_block. rewrite Hn.
  change (last_years 1) with [1%nat].
  set (net_income := get income "Net Income" (zeros 1)).
  set (revenue := get income "Total Revenue" (zeros 1)).
  set (dividends_paid :=
         map abs (get cashflow "Cash Dividends Paid" (zeros 1))).
  split.
  - intros r.
    destruct (ratios net_income revenue [1%nat]) as [npm_3yr|e] eqn:E1;
      cbn [bind]; [|discriminate].
    destruct (ratios dividends_paid net_income [1%nat]) as [dpr_3yr|e] eqn:E2;
      cbn [bind]; [|discriminate].
    intros [= <-]. cbn [NPM DPR Retention_Ratio].
    apply ratios_length in E1, E2. cbn [length] in E1, E2.
    rewrite !get_means_short by assumption.
    repeat split; reflexivity.
  - intros Wi Wc.
    assert (G : forall (df : DataFrame) key,
              (forall key col, columns df !! key = Some col -> col <> []) ->
              (1 <= length (get df key (zeros 1)))%nat).
    { intros df key W. unfold get.
      destruct (columns df !! key) as [col|] eqn:E; [|cbn; lia].
      specialize (W key col E). destruct col; [congruence|cbn; lia]. }
    destruct (ratios_returns net_income revenue [1%nat]) as (l1 & ->).
    { repeat constructor; subst net_income revenue; now apply G. }
    destruct (ratios_returns dividends_paid net_income [1%nat]) as (l2 & ->).
    { repeat constructor; subst net_income dividends_paid;
        rewrite ?length_map; now apply G. }
    cbn [bind]. eexists; reflexivity.
Qed.
End SinglePeriod.

Lemma margins_single_period_witness :
  Margins.margins_block Fundamental.mean_of income_one_year
    MarginScenarios.cashflow_one_year
  = Py.Ok {| Margins.NPM := (-1)%float; Margins.DPR := (-1)%float;
            Margins.Retention_Ratio := 101%float |}.
Proof.
  destruct (margins_single_period Fundamental.mean_of income_one_year
              MarginScenarios.cashflow_one_year eq_refl) as (V & R).
  destruct R as (r & Hr).
  - intros key col H.
    apply (map_Forall_to_list (fun _ col => col <> [])) in H;
      [exact H|].
    vm_compute. repeat constructor; discriminate.
  - intros key col H.
    apply (map_Forall_to_list (fun _ col => col <> [])) in H;
      [exact H|].
    vm_compute. repeat constructor; discriminate.
  - rewrite Hr. destruct (V r Hr) as (A & B & C).
    destruct r as [npm dpr ret]. cbn in A, B, C. now subst.
Defined.
